(** * Session manager of the anime-recommendation front end

    A shallow embedding of the client-side session code:
    - the API client (token store, request/response interceptors, the
      refresh-and-replay handler, [handleError], [apiClient.get/post]);
    - the authentication context ([checkAuth], [login], [signup],
      [logout], [refreshToken], [isAuthenticated]);
    - the chat-history timestamp normalisation;
    - the sync-request validation schema;
    - the provider's mount effect, [sanitizeString] and
      [chatMessageSchema], what the chat input and the public-profile
      form send, [clearMessages], the sync route after validation, the
      placeholder authentication routes and [extractTokenFromHeader].

    Asynchronous functions are embedded as trees of a small free monad
    ([Task]) whose nodes are the suspension points of the source (a network
    call, a timer); the shared mutable cells (React state, refs, the
    module-level token, sessionStorage) live in one [State] record.

    Conventions: a React state setter writes its cell at once; console
    output is left out; URLs are relative to [API_BASE_URL]; what the
    JavaScript engine and the libraries do (string conversion, date
    parsing, axios settling a response and keeping the [_retry] mark of a
    configuration it is handed again, zod running a schema) is stated
    where it is used. *)

From Stdlib Require Import ZArith QArith Qround Qabs String Ascii List Bool Lia.
From Stdlib Require Import DecimalString.
Import ListNotations.

Local Open Scope string_scope.
Local Open Scope Z_scope.

#[local] Set Warnings "-register-all".

(* ================================================================== *)
(** * JavaScript values *)
(* ================================================================== *)

(** Values that reach the code: what [JSON.parse] produces, plus
    [undefined] and [Date] objects ([None] is the invalid date, whose
    time value is NaN).  Numbers are rationals: every finite double is
    one; rounding of arithmetic results is not modelled. *)
Inductive json : Type :=
| JUndef
| JNull
| JBool (b : bool)
| JNum (q : Q)
| JStr (s : string)
| JArr (items : list json)
| JObj (fields : list (string * json))
| JDate (t : option Z).

(** [!!v] *)
Definition truthy (v : json) : bool :=
  match v with
  | JUndef | JNull => false
  | JBool b => b
  | JNum q => negb (Qeq_bool q 0)
  | JStr s => negb (String.eqb s "")
  | JArr _ | JObj _ | JDate _ => true
  end.

(** [a || b] and [a && b] on values. *)
Definition js_or (a b : json) : json := if truthy a then a else b.
Definition js_and (a b : json) : json := if truthy a then b else a.

Fixpoint assoc (k : string) (l : list (string * json)) : json :=
  match l with
  | [] => JUndef
  | (k', v) :: l' => if String.eqb k k' then v else assoc k l'
  end.

(** [v?.k]: a property read that yields [undefined] on [null] and
    [undefined].  On a primitive, an array or a date none of the property
    names read by the code exists, so the read yields [undefined] too. *)
Definition prop (k : string) (v : json) : json :=
  match v with
  | JObj l => assoc k l
  | _ => JUndef
  end.

(** Errors that can be thrown: an [AxiosError] (carrying [error.config]
    and, when the server answered, [error.response]) or a plain
    [Error]/[TypeError] with its message. *)
Record Response : Type := mkResponse {
  status : Z;
  statusText : string;
  data : json
}.

Record Config : Type := mkConfig {
  url : string;
  method : string;
  req_data : json;
  _retry : bool;
  Authorization : option string
}.

Inductive exn : Type :=
| AxiosErr (message : string) (config : Config) (response : option Response)
| JsErr (message : string).

Definition result (A : Type) : Type := (A + exn)%type.

(** [v.k]: reading a property of [null] or [undefined] throws a
    [TypeError] (message as worded by V8). *)
Definition get (k : string) (v : json) : result json :=
  match v with
  | JUndef => inr (JsErr ("Cannot read properties of undefined (reading '" ++ k ++ "')"))
  | JNull => inr (JsErr ("Cannot read properties of null (reading '" ++ k ++ "')"))
  | _ => inl (prop k v)
  end.

(** [s.includes(sub)] on strings. *)
Fixpoint str_includes (sub s : string) : bool :=
  if String.prefix sub s then true
  else match s with
       | EmptyString => false
       | String _ s' => str_includes sub s'
       end.

(** [v.includes(sub)] for a string literal [sub]: substring search on a
    string, membership on an array, a [TypeError] on any other value
    (which has no [includes] method). *)
Definition includes (v : json) (sub : string) : result bool :=
  match v with
  | JStr s => inl (str_includes sub s)
  | JArr l => inl (existsb (fun x => match x with
                                     | JStr t => String.eqb t sub
                                     | _ => false
                                     end) l)
  | _ => inr (JsErr "errorMessage.includes is not a function")
  end.

(** [v?.includes(sub)]: [undefined] (falsy) on [null]/[undefined]. *)
Definition includes_opt (v : json) (sub : string) : result bool :=
  match v with
  | JUndef | JNull => inl false
  | _ => includes v sub
  end.

Definition string_of_Z (z : Z) : string := NilZero.string_of_int (Z.to_int z).

(* ================================================================== *)
(** * Shared mutable state *)
(* ================================================================== *)

(** The cells written by the session code: the React state of
    [AuthProvider] ([user], [isLoading]), its three refs, the module-level
    [accessToken] of the API client, and the ['accessToken'] item of
    [sessionStorage].  [window = None] stands for
    [typeof window === 'undefined']. *)
Record State : Type := mkState {
  user : json;
  isLoading : bool;
  isCheckingAuth : bool;
  isLoggingIn : bool;
  isSigningUp : bool;
  accessToken : json;
  window : option (option string)
}.

Definition with_user (v : json) (s : State) : State :=
  mkState v (isLoading s) (isCheckingAuth s) (isLoggingIn s) (isSigningUp s)
          (accessToken s) (window s).
Definition with_isLoading (b : bool) (s : State) : State :=
  mkState (user s) b (isCheckingAuth s) (isLoggingIn s) (isSigningUp s)
          (accessToken s) (window s).
Definition with_isCheckingAuth (b : bool) (s : State) : State :=
  mkState (user s) (isLoading s) b (isLoggingIn s) (isSigningUp s)
          (accessToken s) (window s).
Definition with_isLoggingIn (b : bool) (s : State) : State :=
  mkState (user s) (isLoading s) (isCheckingAuth s) b (isSigningUp s)
          (accessToken s) (window s).
Definition with_isSigningUp (b : bool) (s : State) : State :=
  mkState (user s) (isLoading s) (isCheckingAuth s) (isLoggingIn s) b
          (accessToken s) (window s).
Definition with_accessToken (v : json) (s : State) : State :=
  mkState (user s) (isLoading s) (isCheckingAuth s) (isLoggingIn s)
          (isSigningUp s) v (window s).
Definition with_window (w : option (option string)) (s : State) : State :=
  mkState (user s) (isLoading s) (isCheckingAuth s) (isLoggingIn s)
          (isSigningUp s) (accessToken s) w.

(** What [sessionStorage.getItem('accessToken')] holds ([None] also when
    there is no window, hence no storage). *)
Definition sessionItem (s : State) : option string :=
  match window s with
  | Some item => item
  | None => None
  end.

(* ================================================================== *)
(** * Asynchronous tasks *)
(* ================================================================== *)

(** A network call is either a request sent through [axiosInstance]
    (with the configuration left by the request interceptor) or the bare
    [axios.post] to the refresh endpoint made by the response
    interceptor. *)
Inductive NetCall : Type :=
| ViaInstance (cfg : Config)
| RefreshPost.

(** The server answers with a response, or nothing comes back. *)
Inductive Reply : Type :=
| Responded (r : Response)
| NoResponse.

(** An [async] function body.  [Net] and [Sleep] are the points where
    the function is suspended and other code may run; [Stuck] marks an
    exhausted recursion budget (see [axiosInstance_fuel]). *)
Inductive Task (A : Type) : Type :=
| Ret (a : A)
| Throw (e : exn)
| Stuck
| GetS (k : State -> Task A)
| PutS (s : State) (k : Task A)
| Net (c : NetCall) (k : Reply -> Task A)
| Sleep (ms : Z) (k : Task A).

Arguments Ret {A} a.
Arguments Throw {A} e.
Arguments Stuck {A}.
Arguments GetS {A} k.
Arguments PutS {A} s k.
Arguments Net {A} c k.
Arguments Sleep {A} ms k.

Fixpoint bind {A B : Type} (t : Task A) (f : A -> Task B) : Task B :=
  match t with
  | Ret a => f a
  | Throw e => Throw e
  | Stuck => Stuck
  | GetS k => GetS (fun s => bind (k s) f)
  | PutS s k => PutS s (bind k f)
  | Net c k => Net c (fun r => bind (k r) f)
  | Sleep ms k => Sleep ms (bind k f)
  end.

(** [try { t } catch (e) { h e }] *)
Fixpoint try_catch {A : Type} (t : Task A) (h : exn -> Task A) : Task A :=
  match t with
  | Ret a => Ret a
  | Throw e => h e
  | Stuck => Stuck
  | GetS k => GetS (fun s => try_catch (k s) h)
  | PutS s k => PutS s (try_catch k h)
  | Net c k => Net c (fun r => try_catch (k r) h)
  | Sleep ms k => Sleep ms (try_catch k h)
  end.

(** [try { t } finally { f }]: [f] runs on both exits, then the outcome
    of [t] is delivered. *)
Fixpoint finally {A : Type} (t : Task A) (f : Task unit) : Task A :=
  match t with
  | Ret a => bind f (fun _ => Ret a)
  | Throw e => bind f (fun _ => Throw e)
  | Stuck => Stuck
  | GetS k => GetS (fun s => finally (k s) f)
  | PutS s k => PutS s (finally k f)
  | Net c k => Net c (fun r => finally (k r) f)
  | Sleep ms k => Sleep ms (finally k f)
  end.

Definition modify (f : State -> State) : Task unit :=
  GetS (fun s => PutS (f s) (Ret tt)).

Definition lift {A : Type} (r : result A) : Task A :=
  match r with
  | inl a => Ret a
  | inr e => Throw e
  end.

Declare Scope task_scope.
Delimit Scope task_scope with task.
Notation "x <- t ;; k" := (bind t (fun x => k))
  (at level 61, t at next level, right associativity) : task_scope.
Notation "t ;;; k" := (bind t (fun _ => k))
  (at level 61, right associativity) : task_scope.
Local Open Scope task_scope.

(** ** Running a task

    [srv n c] is the server's answer to call [c] when it is the [n]-th
    suspension of the run; [env n] is what other code does to the shared
    state while the task is suspended for the [n]-th time (the identity
    when nothing else runs).  The log records each suspension with the
    state the task left behind. *)
Inductive event : Type :=
| EvNet (c : NetCall) (s : State)
| EvSleep (ms : Z) (s : State).

Definition snapshot (ev : event) : State :=
  match ev with
  | EvNet _ s => s
  | EvSleep _ s => s
  end.

Definition Server : Type := nat -> NetCall -> Reply.
Definition Interference : Type := nat -> State -> State.

Fixpoint exec {A : Type} (srv : Server) (env : Interference) (t : Task A)
         (s : State) (n : nat) : option (result A * State * list event) :=
  match t with
  | Ret a => Some (inl a, s, [])
  | Throw e => Some (inr e, s, [])
  | Stuck => None
  | GetS k => exec srv env (k s) s n
  | PutS s' k => exec srv env k s' n
  | Net c k =>
      match exec srv env (k (srv n c)) (env n s) (S n) with
      | Some (r, s', log) => Some (r, s', EvNet c s :: log)
      | None => None
      end
  | Sleep ms k =>
      match exec srv env k (env n s) (S n) with
      | Some (r, s', log) => Some (r, s', EvSleep ms s :: log)
      | None => None
      end
  end.

Definition alone : Interference := fun _ s => s.

(* ================================================================== *)
(** * The API client (lib/api/client) *)
(* ================================================================== *)

Definition with_retry (b : bool) (c : Config) : Config :=
  mkConfig (url c) (method c) (req_data c) b (Authorization c).
Definition with_Authorization (h : option string) (c : Config) : Config :=
  mkConfig (url c) (method c) (req_data c) (_retry c) h.

(** The four texts by which a 401 says that there was no token at all. *)
Definition noTokenMarkers : list string :=
  ["No refresh token"; "No token"; "Token not found"; "Not authenticated"].

(** [inc v m1 || inc v m2 || ...], left to right, stopping at the first
    hit or at the first exception. *)
Fixpoint includes_any (inc : json -> string -> result bool) (v : json)
         (subs : list string) : result bool :=
  match subs with
  | [] => inl false
  | sub :: rest =>
      match inc v sub with
      | inr e => inr e
      | inl true => inl true
      | inl false => includes_any inc v rest
      end
  end.

(** axios settles a reply: a status in 200..299 resolves, anything else
    rejects with an [AxiosError]. *)
Definition settle (cfg : Config) (reply : Reply) : result Response :=
  match reply with
  | Responded r =>
      if (200 <=? status r) && (status r <? 300) then inl r
      else inr (AxiosErr ("Request failed with status code " ++ string_of_Z (status r))
                         cfg (Some r))
  | NoResponse => inr (AxiosErr "Network Error" cfg None)
  end.

(** Configuration of the bare [axios.post] to the refresh endpoint (URLs
    are written relative to [API_BASE_URL]). *)
Definition refreshConfig : Config :=
  mkConfig "/api/auth/refresh" "post" (JObj []) false None.

(** The token looked for by the response interceptor. *)
Definition extractToken (d : json) : json :=
  js_or (js_or (js_or (js_or (js_or
    (prop "accessToken" (prop "tokens" (prop "data" d)))
    (prop "accessToken" (prop "tokens" d)))
    (prop "accessToken" (prop "data" d)))
    (prop "accessToken" d))
    (js_and (prop "user" (prop "data" d))
            (prop "accessToken" (prop "tokens" (prop "data" d)))))
    (js_and (prop "user" d) (prop "accessToken" (prop "tokens" d))).

(** [handleError]: the envelope [{success:false, error}] for an error;
    it throws when [.includes] is called on a message that has none. *)
Definition failure (msg : json) : json :=
  JObj [("success", JBool false); ("error", msg)].

Definition handleError (error : exn) : result json :=
  match error with
  | AxiosErr _ _ (Some response) =>
      let d := data response in
      let st := status response in
      let errorMessage := js_or (prop "error" d) (prop "message" d) in
      if st =? 401 then
        match includes_any includes_opt errorMessage noTokenMarkers with
        | inr e => inr e
        | inl true => inl (failure errorMessage)
        | inl false =>
            inl (failure (js_or errorMessage
                                (JStr "Authentication required. Please log in.")))
        end
      else if st =? 403 then
        inl (failure (js_or errorMessage
                            (JStr "Access forbidden. You may not have permission.")))
      else if st =? 404 then
        inl (failure (js_or errorMessage
               (JStr "Route not found. The backend endpoint may not be implemented.")))
      else if st =? 500 then
        inl (failure (js_or errorMessage
                            (JStr "Server error. Please check backend logs.")))
      else if negb (truthy errorMessage) then
        inl (failure (JStr ("HTTP " ++ string_of_Z st ++ ": " ++ statusText response)))
      else inl (failure errorMessage)
  | AxiosErr _ _ None =>
      inl (failure (JStr "No response from server. Please check your connection and ensure the backend is running."))
  | JsErr message =>
      inl (failure (js_or (JStr message) (JStr "An unexpected error occurred")))
  end.

Section SessionManager.

(** [String(v)] of the JavaScript engine on the values that are not
    strings (used by template literals, [new Error] and
    [sessionStorage.setItem]). *)
Variable ToString : json -> string.

Definition js_String (v : json) : string :=
  match v with
  | JStr s => s
  | _ => ToString v
  end.

(** ** Token store *)

(** The state left by [setAccessToken(token)]: the in-memory slot is
    written and, in a browser, the mirror is set or removed. *)
Definition storeToken (token : json) (s : State) : State :=
  let s1 := with_accessToken token s in
  match window s1 with
  | Some _ =>
      if truthy token
      then with_window (Some (Some (js_String token))) s1
      else with_window (Some None) s1
  | None => s1
  end.

Definition setAccessToken (token : json) : Task unit :=
  modify (storeToken token).

Definition getAccessToken : Task json :=
  GetS (fun s =>
    if truthy (accessToken s) then Ret (accessToken s)
    else match window s with
         | Some (Some token) =>
             if truthy (JStr token)
             then PutS (with_accessToken (JStr token) s) (Ret (JStr token))
             else Ret JNull
         | _ => Ret JNull
         end).

(** ** Interceptors *)

Definition requestInterceptor (config : Config) : Task Config :=
  token <- getAccessToken ;;
  Ret (if truthy token
       then with_Authorization (Some ("Bearer " ++ js_String token)) config
       else config).

Definition onFulfilled (response : Response) : Task Response :=
  let token := extractToken (data response) in
  (if truthy token then setAccessToken token else Ret tt) ;;;
  Ret response.

(** The [if / else if] chain that stores the token of a refresh answer. *)
Definition storeRefreshedToken (refreshData : json) : Task unit :=
  if truthy (prop "accessToken" (prop "tokens" (prop "data" refreshData))) then
    setAccessToken (prop "accessToken" (prop "tokens" (prop "data" refreshData)))
  else if truthy (prop "accessToken" (prop "tokens" refreshData)) then
    setAccessToken (prop "accessToken" (prop "tokens" refreshData))
  else if truthy (prop "accessToken" (prop "data" refreshData)) then
    setAccessToken (prop "accessToken" (prop "data" refreshData))
  else if truthy (prop "accessToken" refreshData) then
    setAccessToken (prop "accessToken" refreshData)
  else Ret tt.

(** The rejection handler of the response interceptor.  [self] is
    [axiosInstance], called to replay the request.  The [try] block
    yields [true] when it reaches [return axiosInstance(originalRequest)];
    that call is made after the block, since a rejection of the returned
    promise is not caught by the [catch] around it.  [_retry] is set on
    the very object that [error.config] points to. *)
Definition onRejected (self : Config -> Task Response) (error : exn)
  : Task Response :=
  match error with
  | AxiosErr msg originalRequest (Some response) =>
      if (status response =? 401) && negb (_retry originalRequest) then
        let errorMessage := js_or (prop "error" (data response)) (JStr "") in
        isNoTokenError <- lift (includes_any includes errorMessage noTokenMarkers) ;;
        if negb isNoTokenError then
          let originalRequest := with_retry true originalRequest in
          let error := AxiosErr msg originalRequest (Some response) in
          replay <- try_catch
            (Net RefreshPost (fun reply =>
               refreshResponse <- lift (settle refreshConfig reply) ;;
               success <- lift (get "success" (data refreshResponse)) ;;
               if truthy success then
                 storeRefreshedToken (data refreshResponse) ;;; Ret true
               else Ret false))
            (fun _ => Throw error) ;;
          if replay then self originalRequest else Throw error
        else Throw error
      else Throw error
  | _ => Throw error
  end.

(** [axiosInstance(config)]: request interceptor, the request itself,
    then one of the two response handlers.  The replay inside
    [onRejected] is a recursive call; [fuel] bounds the nesting. *)
Fixpoint axiosInstance_fuel (fuel : nat) (config : Config) : Task Response :=
  match fuel with
  | O => Stuck
  | S fuel' =>
      config' <- requestInterceptor config ;;
      Net (ViaInstance config') (fun reply =>
        match settle config' reply with
        | inl response => onFulfilled response
        | inr error => onRejected (axiosInstance_fuel fuel') error
        end)
  end.

(** Two levels are all a request can use (see [axiosInstance_fuel_enough]). *)
Definition axiosInstance : Config -> Task Response := axiosInstance_fuel 2.

(** ** [apiClient] *)

Definition apiClient_get (u : string) : Task json :=
  try_catch
    (response <- axiosInstance (mkConfig u "get" JUndef false None) ;;
     Ret (data response))
    (fun error => lift (handleError error)).

(** The test made in the [catch] block of [apiClient.post] before it
    logs (lines 197-200):
    [error.response?.status === 401 &&
     (isAuthEndpoint || error.response?.data?.error?.includes('No refresh token'))].
    Its value only decides about a console message, but the last call
    throws a [TypeError] when [error] is there and has no [includes]. *)
Definition isExpected401 (u : string) (error : exn) : result bool :=
  match error with
  | AxiosErr _ _ (Some response) =>
      if status response =? 401 then
        if str_includes "/auth/" u then inl true
        else
          match includes_opt (prop "error" (data response)) "No refresh token" with
          | inl found => inl found
          | inr _ =>
              inr (JsErr "error.response?.data?.error?.includes is not a function")
          end
      else inl false
  | _ => inl false
  end.

Definition apiClient_post (u : string) (body : json) : Task json :=
  try_catch
    (response <- axiosInstance (mkConfig u "post" body false None) ;;
     Ret (data response))
    (fun error =>
       lift (isExpected401 u error) ;;;
       lift (handleError error)).

(* ================================================================== *)
(** * The authentication context (context/AuthContext) *)
(* ================================================================== *)

(** [v === true] *)
Definition is_true (v : json) : bool :=
  match v with
  | JBool true => true
  | _ => false
  end.

(** [typeof v === 'object'] *)
Definition is_object (v : json) : bool :=
  match v with
  | JNull | JArr _ | JObj _ | JDate _ => true
  | _ => false
  end.

(** [error.message] *)
Definition message_of (e : exn) : string :=
  match e with
  | AxiosErr m _ _ => m
  | JsErr m => m
  end.

Definition setUser (v : json) : Task unit := modify (with_user v).
Definition setIsLoading (b : bool) : Task unit := modify (with_isLoading b).

(** ** [checkAuth] *)

(** Lines 84-96: what [checkAuth] does with the response. *)
Definition checkAuth_handle (response : json) : Task unit :=
  success <- lift (get "success" response) ;;
  if is_true success && truthy (prop "user" (prop "data" response)) then
    setUser (prop "user" (prop "data" response))
  else
    _ <- lift (includes_any includes_opt (prop "error" response)
                 ["No refresh token"; "No token"; "Token not found"]) ;;
    setUser JNull.

Definition checkAuth : Task unit :=
  GetS (fun s =>
    if isCheckingAuth s then Ret tt
    else
      finally
        (try_catch
           (modify (with_isCheckingAuth true) ;;;
            setIsLoading true ;;;
            response <- apiClient_get "/api/auth/me" ;;
            checkAuth_handle response)
           (fun _ => setUser JNull))
        (setIsLoading false ;;; modify (with_isCheckingAuth false))).

(** ** [login] and [signup] *)

(** The canonical user built from the object [u] that carries the user
    fields. *)
Definition canonicalUser (u : json) : json :=
  JObj [("_id", js_or (prop "_id" u) (prop "id" u));
        ("email", prop "email" u);
        ("username", prop "username" u);
        ("oauthProviders", prop "oauthProviders" u);
        ("createdAt", prop "createdAt" u);
        ("updatedAt", prop "updatedAt" u)].

Definition authSuccess (userData tokens : json) : json :=
  JObj [("success", JBool true); ("user", userData); ("tokens", tokens)].

Definition storeTokens (tokens : json) : Task unit :=
  if truthy (prop "accessToken" tokens)
  then setAccessToken (prop "accessToken" tokens)
  else Ret tt.

(** Case 1 and case 2, shared by [login] and [signup]; [otherwise] is
    what follows the second [else if]. *)
Definition locateUser (d : json) (otherwise : Task (option (json * json)))
  : Task (option (json * json)) :=
  if truthy (prop "user" d) && is_object (prop "user" d) then
    let userData := canonicalUser (prop "user" d) in
    storeTokens (prop "tokens" d) ;;;
    Ret (Some (userData, authSuccess userData (prop "tokens" d)))
  else if truthy (js_and (prop "email" d) (prop "username" d)) then
    let userData := canonicalUser d in
    storeTokens (prop "tokens" d) ;;;
    Ret (Some (userData, authSuccess userData (prop "tokens" d)))
  else otherwise.

(** [login], lines 128-205: the pair [(userData, authResponse)], if a
    user is found in [response.data]. *)
Definition login_locate (d : json) : Task (option (json * json)) :=
  locateUser d
    (if truthy (js_and (prop "data" d) (prop "user" (prop "data" d))) then
       let userData := canonicalUser (prop "user" (prop "data" d)) in
       let tokens := js_or (prop "tokens" (prop "data" d)) (prop "tokens" d) in
       storeTokens tokens ;;;
       Ret (Some (userData, authSuccess userData tokens))
     else Ret None).

(** [signup], lines 261-311: only the first two cases. *)
Definition signup_locate (d : json) : Task (option (json * json)) :=
  locateUser d (Ret None).

(** After a user was found: set it, wait 200 ms, confirm with
    [checkAuth], return the locally parsed answer. *)
Definition establish (userData authResponse : json) : Task json :=
  setUser userData ;;;
  Sleep 200
    (checkAuth ;;;
     Ret (js_or authResponse
                (JObj [("success", JBool true); ("user", userData)]))).

Definition login_handle (response : json) : Task json :=
  success <- lift (get "success" response) ;;
  if truthy success then
    located <- (if truthy (prop "data" response)
                then login_locate (prop "data" response)
                else Ret None) ;;
    match located with
    | Some (userData, authResponse) => establish userData authResponse
    | None =>
        Throw (JsErr "Login successful but no user data received. Check console for response structure.")
    end
  else
    Throw (JsErr (js_String (js_or (prop "error" response) (JStr "Login failed")))).

Definition login (email password : string) : Task json :=
  GetS (fun s =>
    if isLoggingIn s then Ret (failure (JStr "Login already in progress"))
    else
      finally
        (try_catch
           (modify (with_isLoggingIn true) ;;;
            setIsLoading true ;;;
            response <- apiClient_post "/api/auth/login"
                          (JObj [("email", JStr email); ("password", JStr password)]) ;;
            login_handle response)
           (fun error =>
              setUser JNull ;;;
              Ret (failure (js_or (js_or (JStr (message_of error)) JUndef)
                                  (JStr "Login failed")))))
        (setIsLoading false ;;; modify (with_isLoggingIn false))).

Definition signup_handle (response : json) : Task json :=
  success <- lift (get "success" response) ;;
  if truthy (js_and success (prop "data" response)) then
    let d := prop "data" response in
    located <- signup_locate d ;;
    match located with
    | Some (userData, authResponse) => establish userData authResponse
    | None =>
        Throw (JsErr (js_String (js_or (prop "error" d)
                                       (JStr "Signup failed - no user data received"))))
    end
  else
    Throw (JsErr (js_String (js_or (prop "error" response) (JStr "Signup failed")))).

Definition signup (email username password : string) : Task json :=
  GetS (fun s =>
    if isSigningUp s then Ret (failure (JStr "Signup already in progress"))
    else
      finally
        (try_catch
           (modify (with_isSigningUp true) ;;;
            setIsLoading true ;;;
            response <- apiClient_post "/api/auth/signup"
                          (JObj [("email", JStr email); ("username", JStr username);
                                 ("password", JStr password)]) ;;
            signup_handle response)
           (fun error =>
              setUser JNull ;;;
              Ret (failure (js_or (js_or (JStr (message_of error)) JUndef)
                                  (JStr "Signup failed")))))
        (setIsLoading false ;;; modify (with_isSigningUp false))).

(** ** [logout], [refreshToken], [isAuthenticated] *)

Definition logout : Task unit :=
  finally
    (try_catch (apiClient_post "/api/auth/logout" JUndef ;;; Ret tt)
               (fun _ => Ret tt))
    (setUser JNull ;;; setAccessToken JNull).

Definition refreshToken : Task json :=
  try_catch
    (response <- apiClient_post "/api/auth/refresh" JUndef ;;
     success <- lift (get "success" response) ;;
     Ret (js_or success (JBool false)))
    (fun _ => setUser JNull ;;; Ret (JBool false)).

Definition isAuthenticated (s : State) : bool :=
  negb (isLoading s) && truthy (user s).

End SessionManager.

Arguments setAccessToken : simpl never.
Arguments getAccessToken : simpl never.
Arguments requestInterceptor : simpl never.
Arguments onFulfilled : simpl never.
Arguments onRejected : simpl never.
Arguments axiosInstance : simpl never.
Arguments apiClient_get : simpl never.
Arguments apiClient_post : simpl never.
Arguments checkAuth : simpl never.
Arguments login_locate : simpl never.
Arguments signup_locate : simpl never.
Arguments establish : simpl never.

(* ================================================================== *)
(** * Chat history timestamps (context/ChatContext, loadChatHistory) *)
(* ================================================================== *)

(** [{...msg, k: v}] on the field list of an object. *)
Fixpoint set_field (k : string) (v : json) (l : list (string * json))
  : list (string * json) :=
  match l with
  | [] => [(k, v)]
  | (k', v') :: l' =>
      if String.eqb k k' then (k, v) :: l' else (k', v') :: set_field k v l'
  end.

(** A number is held as its exact value; an arithmetic operation rounds
    its exact result to the nearest double. *)

(** [2^e] *)
Definition pow2 (e : Z) : Q :=
  if 0 <=? e then inject_Z (2 ^ e) else 1 # Z.to_pos (2 ^ (- e)).

(** [floor (log2 q)] for a positive [q]. *)
Definition floor_log2 (q : Q) : Z :=
  let e0 := Z.log2 (Qnum q) - Z.log2 (Zpos (Qden q)) in
  if Qle_bool (pow2 e0) q then e0 else e0 - 1.

(** The integer nearest to [q], the even one of two that are equally
    near. *)
Definition roundTiesToEven (q : Q) : Z :=
  let f := Qfloor q in
  match (q - inject_Z f ?= 1 # 2)%Q with
  | Lt => f
  | Gt => f + 1
  | Eq => if Z.even f then f else f + 1
  end.

(** The double nearest to [q]: 53 significant bits, exponents from -1022
    on, ties to even.  Beyond the largest double the value stands for
    [Infinity]; the one use below, [new Date], refuses both alike. *)
Definition toDouble (q : Q) : Q :=
  if Qeq_bool q 0 then 0%Q
  else
    let ulp := pow2 (Z.max (floor_log2 (Qabs q)) (-1022) - 52) in
    (inject_Z (roundTiesToEven (q / ulp)) * ulp)%Q.

(** [new Date(x)] on a number: the time value is [x] truncated, or NaN
    beyond 8.64e15 ms. *)
Definition maxTime : Q := 8640000000000000.
Definition truncate (q : Q) : Z := if Qle_bool 0 q then Qfloor q else Qceiling q.
Definition TimeClip (q : Q) : option Z :=
  if Qle_bool (Qabs q) maxTime then Some (truncate q) else None.

Section ChatHistory.

(** [new Date(s).getTime()] on a string, [None] for NaN: the engine's
    date parser. *)
Variable Date_parse : string -> option Z.

(** Lines 45-56: the date first built from [dateValue]; [now] is the
    time value of [new Date()]. *)
Definition firstDate (dateValue : json) (now : Z) : option Z :=
  match dateValue with
  | JDate t => t
  | JStr str => Date_parse str
  | JNum q =>
      TimeClip (if negb (Qle_bool q 1000000000000) then q else toDouble (q * 1000))
  | _ => Some now
  end.

(** Lines 58-62: an invalid date is replaced by the current time. *)
Definition validTimestamp (dateValue : json) (now : Z) : Z :=
  match firstDate dateValue now with
  | Some t => t
  | None => now
  end.

(** The mapping applied to one history entry (an object). *)
Definition loadedMessage (msg : list (string * json)) (now : Z)
  : list (string * json) :=
  let dateValue := js_or (assoc "createdAt" msg) (assoc "timestamp" msg) in
  set_field "timestamp" (JDate (Some (validTimestamp dateValue now))) msg.

(** [messages.map(...)]; [clock i] is the current time when entry [i]
    is mapped. *)
Fixpoint loadedMessages (clock : nat -> Z) (i : nat)
         (msgs : list (list (string * json))) : list (list (string * json)) :=
  match msgs with
  | [] => []
  | msg :: rest => loadedMessage msg (clock i) :: loadedMessages clock (S i) rest
  end.

End ChatHistory.

(* ================================================================== *)
(** * Sync request validation (lib/validation/schemas) *)
(* ================================================================== *)

Module Sync.

(** A sync request whose fields, when present, have the declared types. *)
Record Input : Type := mkInput {
  force : option bool;
  username : option string;
  anilistUsername : option string;
  userId : option Q
}.

Record Issue : Type := mkIssue {
  message : string;
  path : list string
}.

Inductive Parsed : Type :=
| Success (value : Input)
| Failure (issues : list Issue).

Definition str_truthy (o : option string) : bool :=
  match o with
  | Some s => negb (String.eqb s "")
  | None => false
  end.

Definition num_truthy (o : option Q) : bool :=
  match o with
  | Some q => negb (Qeq_bool q 0)
  | None => false
  end.

(** [z.string().min(1).max(50).optional()], with zod's default messages. *)
Definition stringIssues (name : string) (v : option string) : list Issue :=
  match v with
  | None => []
  | Some s =>
      ((if (String.length s <? 1)%nat
        then [mkIssue "String must contain at least 1 character(s)" [name]]
        else []) ++
       (if (50 <? String.length s)%nat
        then [mkIssue "String must contain at most 50 character(s)" [name]]
        else []))%list
  end.

Definition is_integer (q : Q) : bool := Pos.eqb (Qden (Qred q)) 1.

(** [z.number().int().positive().optional()] *)
Definition userIdIssues (v : option Q) : list Issue :=
  match v with
  | None => []
  | Some q =>
      ((if is_integer q then []
        else [mkIssue "Expected integer, received float" ["userId"]]) ++
       (if negb (Qle_bool q 0) then []
        else [mkIssue "Number must be greater than 0" ["userId"]]))%list
  end.

Definition fieldIssues (d : Input) : list Issue :=
  (stringIssues "username" (username d) ++
   stringIssues "anilistUsername" (anilistUsername d) ++
   userIdIssues (userId d))%list.

(** The [.transform]: [anilistUsername] stands in for a missing
    [username]. *)
Definition transform (d : Input) : Input :=
  if str_truthy (anilistUsername d) && negb (str_truthy (username d))
  then mkInput (force d) (anilistUsername d) (anilistUsername d) (userId d)
  else d.

(** The two [.refine] predicates. *)
Definition notBoth (d : Input) : bool :=
  negb (str_truthy (username d)) || negb (num_truthy (userId d)).
Definition atLeastOne (d : Input) : bool :=
  str_truthy (username d) || num_truthy (userId d).

Definition bothIssue : Issue :=
  mkIssue "Cannot provide both username and userId" ["userId"].
Definition neitherIssue : Issue :=
  mkIssue "Either username or userId must be provided to sync a public profile"
          ["username"].

(** [syncRequestSchema.safeParse]: the field rules, then the transform
    (skipped by zod 3 when a field rule failed), then the two
    refinements, each adding its issue. *)
Definition syncRequestSchema (input : Input) : Parsed :=
  let base := fieldIssues input in
  let value := match base with
               | [] => transform input
               | _ => input
               end in
  let issues :=
    (base ++ (if notBoth value then [] else [bothIssue])
          ++ (if atLeastOne value then [] else [neitherIssue]))%list in
  match issues with
  | [] => Success value
  | _ => Failure issues
  end.

(** The head of the sync route: a validation failure is answered with
    status 400 and the first issue's message; only a validated request
    reaches [fetchAndAnswer], the part that calls AniList. *)
Definition POST (fetchAndAnswer : Input -> Task (Z * json)) (body : Input)
  : Task (Z * json) :=
  match syncRequestSchema body with
  | Failure issues =>
      let errorMessage :=
        match issues with
        | i :: _ => if String.eqb (message i) "" then "Validation error"
                    else message i
        | [] => "Validation error"
        end in
      Ret (400, failure (JStr errorMessage))
  | Success validated => fetchAndAnswer validated
  end.

End Sync.

(* ================================================================== *)
(** * Response layouts of [login] and [signup] *)
(* ================================================================== *)

(** The user fields a response carries. *)
Record UserFields : Type := mkUserFields {
  f__id : json;
  f_id : json;
  f_email : json;
  f_username : json;
  f_oauthProviders : json;
  f_createdAt : json;
  f_updatedAt : json
}.

Definition fieldList (u : UserFields) : list (string * json) :=
  [("_id", f__id u); ("id", f_id u); ("email", f_email u);
   ("username", f_username u); ("oauthProviders", f_oauthProviders u);
   ("createdAt", f_createdAt u); ("updatedAt", f_updatedAt u)].

(** The canonical user: the identifier is [_id], or [id] when [_id] is
    missing. *)
Definition canonicalOf (u : UserFields) : json :=
  JObj [("_id", js_or (f__id u) (f_id u)); ("email", f_email u);
        ("username", f_username u); ("oauthProviders", f_oauthProviders u);
        ("createdAt", f_createdAt u); ("updatedAt", f_updatedAt u)].

(** The three known layouts of [response.data] for the same user fields
    and tokens: top-level [user]/[tokens], user fields flattened on the
    payload, and both nested one level under [data]. *)
Definition layoutTop (u : UserFields) (tokens : json) : json :=
  JObj [("user", JObj (fieldList u)); ("tokens", tokens)].
Definition layoutFlat (u : UserFields) (tokens : json) : json :=
  JObj (fieldList u ++ [("tokens", tokens)])%list.
Definition layoutUnderData (u : UserFields) (tokens : json) : json :=
  JObj [("data", JObj [("user", JObj (fieldList u)); ("tokens", tokens)])].

Definition successBody (payload : json) : json :=
  JObj [("success", JBool true); ("data", payload)].

(* ================================================================== *)
(** * The provider's mount effect (context/AuthContext) *)
(* ================================================================== *)

(** The effect run when [AuthProvider] mounts (lines 44-66): the token
    kept in [sessionStorage], if any, is put back into the token store,
    then [checkAuth] is called ([mounted] is still [true] then). *)
Definition mountEffect (ToString : json -> string) : Task unit :=
  GetS (fun s =>
    (match window s with
     | Some (Some storedToken) =>
         if truthy (JStr storedToken)
         then setAccessToken ToString (JStr storedToken)
         else Ret tt
     | _ => Ret tt
     end) ;;;
    checkAuth ToString).

(* ================================================================== *)
(** * Strings (lib/validation/schemas, components) *)
(* ================================================================== *)

(** A character of a [string] stands for one UTF-16 code unit below 256.
    Of these, [String.prototype.trim] and [parseInt] skip the white space
    and line terminators TAB, LF, VT, FF, CR, SP and NBSP. *)
Definition is_space (c : ascii) : bool :=
  let n := N_of_ascii c in
  ((9 <=? n) && (n <=? 13) || (n =? 32) || (n =? 160))%N.

Fixpoint trimStart (s : string) : string :=
  match s with
  | String c s' => if is_space c then trimStart s' else s
  | EmptyString => EmptyString
  end.

Fixpoint trimEnd (s : string) : string :=
  match s with
  | String c s' =>
      match trimEnd s' with
      | EmptyString => if is_space c then EmptyString else String c EmptyString
      | t => String c t
      end
  | EmptyString => EmptyString
  end.

(** [s.trim()] *)
Definition trim (s : string) : string := trimEnd (trimStart s).

(** [s.substring(n)] *)
Fixpoint drop (n : nat) (s : string) : string :=
  match n, s with
  | S k, String _ s' => drop k s'
  | _, _ => s
  end.

(** ** [sanitizeString] *)

(** [s.replace(/[<>]/g, '')] *)
Fixpoint removeAngles (s : string) : string :=
  match s with
  | String c s' =>
      if Ascii.eqb c "<" || Ascii.eqb c ">" then removeAngles s'
      else String c (removeAngles s')
  | EmptyString => EmptyString
  end.

(** Case folding of the [i] flag, which on code units below 256 relates
    the letters A-Z to a-z and nothing else. *)
Definition fold_case (c : ascii) : ascii :=
  let n := N_of_ascii c in
  if ((65 <=? n) && (n <=? 90))%N then ascii_of_N (n + 32) else c.

(** The literal [p] matches at the start of [s], up to case. *)
Fixpoint prefix_ci (p s : string) : bool :=
  match p, s with
  | EmptyString, _ => true
  | String a p', String b s' => Ascii.eqb (fold_case a) (fold_case b) && prefix_ci p' s'
  | String _ _, EmptyString => false
  end.

(** [s.replace(re, '')] for a global regular expression: [matchAt s] is
    the length of the match of [re] at the start of [s], if there is one.
    The scan goes left to right; after a match it resumes behind it
    ([skip] counts the characters of the match still to drop). *)
Fixpoint removeMatches (matchAt : string -> option nat) (skip : nat) (s : string)
  : string :=
  match s with
  | String c s' =>
      match skip with
      | S k => removeMatches matchAt k s'
      | O =>
          match matchAt s with
          | Some (S k) => removeMatches matchAt k s'
          | _ => String c (removeMatches matchAt O s')
          end
      end
  | EmptyString => EmptyString
  end.

(** [/javascript:/i] *)
Definition matchJavascript (s : string) : option nat :=
  if prefix_ci "javascript:" s then Some 11%nat else None.

(** [\w] *)
Definition is_word (c : ascii) : bool :=
  let n := N_of_ascii c in
  ((48 <=? n) && (n <=? 57) || (65 <=? n) && (n <=? 90) ||
   (97 <=? n) && (n <=? 122) || (n =? 95))%N.

(** The length of the longest run of word characters at the start. *)
Fixpoint wordRun (s : string) : nat :=
  match s with
  | String c s' => if is_word c then S (wordRun s') else O
  | EmptyString => O
  end.

(** [/on\w+=/i]: "on", the longest run of word characters (one at
    least), and "="; no shorter run can be followed by "=". *)
Definition matchHandler (s : string) : option nat :=
  if prefix_ci "on" s then
    let k := wordRun (drop 2 s) in
    match k, drop (2 + k) s with
    | S _, String "=" _ => Some (2 + k + 1)%nat
    | _, _ => None
    end
  else None.

Definition sanitizeString (input : string) : string :=
  trim (removeMatches matchHandler 0
          (removeMatches matchJavascript 0 (removeAngles input))).

(** ** [chatMessageSchema] *)

Module ChatSchema.

(** A chat request whose fields have the declared types. *)
Record Input : Type := mkInput {
  message : string;
  conversationId : option string;
  includeAnimeContext : option bool
}.

Inductive Parsed : Type :=
| Success (value : Input)
| Failure (issues : list Sync.Issue).

(** [z.string().min(1, ..).max(2000, ..).trim()]: zod runs the checks of
    a string in the order they were added, so both lengths are checked on
    the string as given and the trimmed string is the output. *)
Definition messageIssues (s : string) : list Sync.Issue :=
  ((if (String.length s <? 1)%nat
    then [Sync.mkIssue "Message cannot be empty" ["message"]]
    else []) ++
   (if (2000 <? String.length s)%nat
    then [Sync.mkIssue "Message must be less than 2000 characters" ["message"]]
    else []))%list.

Definition chatMessageSchema (input : Input) : Parsed :=
  match messageIssues (message input) with
  | [] => Success (mkInput (trim (message input)) (conversationId input)
                           (includeAnimeContext input))
  | issues => Failure issues
  end.

End ChatSchema.

(* ================================================================== *)
(** * The chat provider (context/ChatContext, components/chat/ChatInput) *)
(* ================================================================== *)

Module Chat.

(** The state of [ChatProvider], and the two items of [localStorage]
    that [clearMessages] removes. *)
Record ChatState : Type := mkChatState {
  messages : list json;
  isLoading : bool;
  error : json;
  conversationId : json;
  chatMessagesItem : option string;
  conversationIdItem : option string
}.

(** [setMessages([])], [setConversationId(null)] and the two
    [localStorage.removeItem] calls. *)
Definition clearLocal (c : ChatState) : ChatState :=
  mkChatState [] (isLoading c) (error c) JNull None None.

(** [ChatInput.handleSubmit]: the message handed to [sendMessage], if
    any. *)
Definition handleSubmit (input : string) (isLoading : bool) : option string :=
  if String.eqb (trim input) "" || isLoading then None else Some (trim input).

(** [sendMessage], lines 114 and 130-137: the request posted to
    [/api/chat], if any. *)
Definition sendMessage_request (content : string) : option ChatSchema.Input :=
  if String.eqb (trim content) "" then None
  else Some (ChatSchema.mkInput (trim content) None (Some true)).

End Chat.

Section ChatContext.

Variable ToString : json -> string.

Definition apiClient_delete (u : string) : Task json :=
  try_catch
    (response <- axiosInstance ToString (mkConfig u "delete" JUndef false None) ;;
     Ret (data response))
    (fun error => lift (handleError error)).

(** [clearMessages]: the value of the task is the change made to the
    chat state when the call completes. *)
Definition clearMessages : Task (Chat.ChatState -> Chat.ChatState) :=
  try_catch
    (response <- apiClient_delete "/api/chat/history" ;;
     success <- lift (get "success" response) ;;
     if truthy success then Ret Chat.clearLocal else Ret Chat.clearLocal)
    (fun _ => Ret Chat.clearLocal).

End ChatContext.

(* ================================================================== *)
(** * The public-profile sync form (components/anilist/PublicProfileSync) *)
(* ================================================================== *)

Definition digit (c : ascii) : option Z :=
  let n := N_of_ascii c in
  if ((48 <=? n) && (n <=? 57))%N then Some (Z.of_N (n - 48)) else None.

(** The value of the longest run of decimal digits at the start of [s],
    continuing the digits read so far ([acc]); [None] if there is none. *)
Fixpoint digits (acc : option Z) (s : string) : option Z :=
  match s with
  | String c s' =>
      match digit c with
      | Some d =>
          digits (Some (10 * match acc with Some a => a | None => 0 end + d)) s'
      | None => acc
      end
  | EmptyString => acc
  end.

(** [parseInt(s, 10)], [None] for NaN: leading white space, a sign, then
    decimal digits as far as they go.  The value is the exact integer;
    [-0] is [0], and the rounding of an integer of more than 15 digits to
    a double is not modelled. *)
Definition parseInt (s : string) : option Z :=
  match trimStart s with
  | String "-" s' => option_map Z.opp (digits None s')
  | String "+" s' => digits None s'
  | s' => digits None s'
  end.

(** What [handleSubmit] does with the form fields: it shows an error and
    returns, or it posts a request body to [/api/anilist/sync]. *)
Inductive Submission : Type :=
| Refused (error : string)
| Posted (body : Sync.Input).

(** Lines 22-59: the request body built from the form fields. *)
Definition handleSubmit_request (useUsername : bool) (username userId : string)
  : Submission :=
  if useUsername then
    if String.eqb (trim username) "" then Refused "Please enter an AniList username"
    else Posted (Sync.mkInput (Some true) (Some (trim username))
                              (Some (trim username)) None)
  else
    if String.eqb (trim userId) "" then Refused "Please enter an AniList user ID"
    else
      match parseInt (trim userId) with
      | Some parsedUserId =>
          if parsedUserId <=? 0
          then Refused "Please enter a valid AniList user ID (positive number)"
          else Posted (Sync.mkInput (Some true) None None (Some (inject_Z parsedUserId)))
      | None => Refused "Please enter a valid AniList user ID (positive number)"
      end.

(* ================================================================== *)
(** * The sync route after validation (app/api/anilist/sync) *)
(* ================================================================== *)

Section SyncRoute.

(** The two calls to the AniList client, as what they return or throw:
    the user id of a user name, and the anime list of a user given by
    [{username}] or by [{userId}]. *)
Variable getUserIdByUsername : string -> result Q.
Variable fetchUserAnimeList : json -> result (list json).

Definition syncSuccess (animeList : list json) (sourceUsername sourceUserId : json)
  : Z * json :=
  (200, JObj [("success", JBool true);
              ("data", JObj [("success", JBool true);
                             ("synced", JNum (inject_Z (Z.of_nat (length animeList))));
                             ("sourceUsername", sourceUsername);
                             ("sourceUserId", sourceUserId)])]).

(** Lines 71-119: the [try] block. *)
Definition fetchList (validated : Sync.Input) : result (Z * json) :=
  let byUserId :=
    match Sync.userId validated with
    | Some id =>
        if negb (Qeq_bool id 0) then
          match fetchUserAnimeList (JObj [("userId", JNum id)]) with
          | inl animeList => inl (syncSuccess animeList JUndef (JNum id))
          | inr e => inr e
          end
        else
          inl (400, failure (JStr "Either username or userId must be provided, or an API key must be stored for syncing your own profile"))
    | None =>
        inl (400, failure (JStr "Either username or userId must be provided, or an API key must be stored for syncing your own profile"))
    end in
  match Sync.username validated with
  | Some name =>
      if negb (String.eqb name "") then
        match getUserIdByUsername name with
        | inl sourceUserId =>
            match fetchUserAnimeList (JObj [("username", JStr name)]) with
            | inl animeList => inl (syncSuccess animeList (JStr name) (JNum sourceUserId))
            | inr e => inr e
            end
        | inr e => inr e
        end
      else byUserId
  | None => byUserId
  end.

(** Lines 67-149: the answer to a validated request; the two [catch]
    blocks turn an error of AniList into a 404, a 403 or a 500. *)
Definition fetchAndAnswer (validated : Sync.Input) : Z * json :=
  match fetchList validated with
  | inl answer => answer
  | inr anilistError =>
      if str_includes "not found" (message_of anilistError) then
        (404, failure (JStr (message_of anilistError)))
      else if str_includes "private" (message_of anilistError) then
        (403, failure (JStr (message_of anilistError)))
      else
        (500, failure (js_or (JStr (message_of anilistError))
                             (JStr "Failed to sync anime list")))
  end.

(** The route handler. *)
Definition syncRoute (body : Sync.Input) : Task (Z * json) :=
  Sync.POST (fun validated => Ret (fetchAndAnswer validated)) body.

End SyncRoute.

(* ================================================================== *)
(** * Reading the token on the server (lib/auth/jwt) *)
(* ================================================================== *)

(** [extractTokenFromHeader(authHeader)]; [None] is [null]. *)
Definition extractTokenFromHeader (authHeader : option string) : option string :=
  match authHeader with
  | Some header =>
      if String.eqb header "" || negb (String.prefix "Bearer " header) then None
      else Some (drop 7 header)
  | None => None
  end.

(* ================================================================== *)
(** * Notions used in the statements *)
(* ================================================================== *)

(** What a suspension was, without the states: a request (its URL,
    method and body, and whether it is a replay), the refresh call, or a
    delay. *)
Inductive step : Type :=
| Sent (u m : string) (d : json) (retry : bool)
| Refreshed
| Slept.

Definition sent (c : Config) (retry : bool) : step :=
  Sent (url c) (method c) (req_data c) retry.

Definition step_of (ev : event) : step :=
  match ev with
  | EvNet (ViaInstance c) _ => sent c (_retry c)
  | EvNet RefreshPost _ => Refreshed
  | EvSleep _ _ => Slept
  end.

(** [c'] asks for what [c] asks for. *)
Definition same_request (c c' : Config) : Prop :=
  url c' = url c /\ method c' = method c /\ req_data c' = req_data c.

Definition steps (log : list event) : list step := map step_of log.

(** The refresh call succeeded: a 2xx answer whose body has a truthy
    [success]. *)
Definition refresh_succeeds (reply : Reply) : bool :=
  match reply with
  | Responded r =>
      (200 <=? status r) && (status r <? 300) && truthy (prop "success" (data r))
  | NoResponse => false
  end.

(** The answer is a 401 whose error text ([text], the empty string when
    the body has none) carries none of the no-token markers. *)
Definition expired_401 (reply : Reply) : Prop :=
  exists r text,
    reply = Responded r /\ status r = 401 /\
    js_or (prop "error" (data r)) (JStr "") = JStr text /\
    forall m, In m noTokenMarkers -> str_includes m text = false.

(** Two replies. *)
Definition ok (body : json) : Reply := Responded (mkResponse 200 "OK" body).
Definition unauthorized (body : json) : Reply :=
  Responded (mkResponse 401 "Unauthorized" body).

(** The server [srv], except that call number [n0] is answered with
    status 200 and [body]. *)
Definition answering (n0 : nat) (body : json) (srv : Server) : Server :=
  fun n c => if Nat.eqb n n0 then ok body else srv n c.

(** A task with no suspension. *)
Fixpoint silent {A : Type} (t : Task A) : Prop :=
  match t with
  | Ret _ | Throw _ | Stuck => True
  | GetS k => forall s, silent (k s)
  | PutS _ k => silent k
  | Net _ _ | Sleep _ _ => False
  end.

(** The state left by [storeTokens]. *)
Definition tokensStored (ToString : json -> string) (tokens : json) (s : State)
  : State :=
  if truthy (prop "accessToken" tokens)
  then storeToken ToString (prop "accessToken" tokens) s
  else s.

(** A payload in which [login] finds the user [userData] and the tokens
    [tokens], and whose token, if the response interceptor sees it, is the
    one [login] stores. *)
Definition located (ToString : json -> string) (env : Interference)
           (payload userData tokens : json) : Prop :=
  truthy payload = true /\
  (forall srv0 st k,
      exec srv0 env (login_locate ToString payload) st k
      = Some (inl (Some (userData, authSuccess userData tokens)),
              tokensStored ToString tokens st, [])) /\
  (forall st,
      tokensStored ToString tokens
        (if truthy (extractToken (successBody payload))
         then storeToken ToString (extractToken (successBody payload)) st
         else st)
      = tokensStored ToString tokens st).

(** Other code leaves the guard of [login], respectively of [signup],
    as it is. *)
Definition keeps_isLoggingIn (s s' : State) : Prop :=
  isLoggingIn s' = isLoggingIn s.
Definition keeps_isSigningUp (s s' : State) : Prop :=
  isSigningUp s' = isSigningUp s.

(** Task [t] never gets stuck and, started in any state, leaves the
    value of [flag] as it found it, at each of its suspensions and at its
    end, as long as other code does so too. *)
Definition leaves {A : Type} (flag : State -> bool) (t : Task A) : Prop :=
  forall (srv : Server) (env : Interference) (s : State) (n : nat),
    (forall k st, flag (env k st) = flag st) ->
    exists r s' log,
      exec srv env t s n = Some (r, s', log) /\
      flag s' = flag s /\
      Forall (fun ev => flag (snapshot ev) = flag s) log.

(** [_retry] of the configuration an error carries ([true] when it
    carries none: such an error is never replayed). *)
Definition retried (error : exn) : bool :=
  match error with
  | AxiosErr _ cfg _ => _retry cfg
  | JsErr _ => true
  end.

(** Levels of [axiosInstance_fuel] a request can use: one for a replay,
    two for a request that may still be replayed. *)
Definition fuel_needed (cfg : Config) : nat := if _retry cfg then 1 else 2.

(** No constraint on interference, none on suspensions. *)
Definition anything : State -> State -> Prop := fun _ _ => True.
Definition any_event : event -> Prop := fun _ => True.

(** ** A weakest precondition under interference

    [wp R I t Q s]: started in [s], task [t] never gets stuck, every
    suspension satisfies [I], and the outcome satisfies [Q], whatever the
    server answers and whatever other code does while [t] is suspended,
    as long as that is within [R]. *)
Fixpoint wp {A : Type} (R : State -> State -> Prop) (I : event -> Prop)
         (t : Task A) (Q : result A -> State -> Prop) (s : State) : Prop :=
  match t with
  | Ret a => Q (inl a) s
  | Throw e => Q (inr e) s
  | Stuck => False
  | GetS k => wp R I (k s) Q s
  | PutS s' k => wp R I k Q s'
  | Net c k => I (EvNet c s) /\ forall reply s', R s s' -> wp R I (k reply) Q s'
  | Sleep ms k => I (EvSleep ms s) /\ forall s', R s s' -> wp R I k Q s'
  end.

(** A run continued after the suspensions [pre]. *)
Definition shift_log (pre : list event)
           {A : Type} (o : option (result A * State * list event))
  : option (result A * State * list event) :=
  match o with
  | Some (r, s, log) => Some (r, s, (pre ++ log)%list)
  | None => None
  end.

(** The outcome delivered after a [finally] block: the block's own
    exception if it throws, else the outcome of the [try] part. *)
Definition after_finally {A : Type} (r : result A) (r' : result unit) : result A :=
  match r' with
  | inl _ => r
  | inr e' => inr e'
  end.

(** ** Values and replies *)

(** [v == null]: [null] or [undefined]. *)
Definition nullish (v : json) : bool :=
  match v with
  | JUndef | JNull => true
  | _ => false
  end.

(** A value with an [includes] method: a string or an array. *)
Definition has_includes (v : json) : bool :=
  match v with
  | JStr _ | JArr _ => true
  | _ => false
  end.

(** A string, or nothing. *)
Definition textual (v : json) : bool :=
  match v with
  | JUndef | JNull | JStr _ => true
  | _ => false
  end.

(** A reply whose body, if any, has text (or nothing) as its [error] and
    as its [message]. *)
Definition textual_reply (reply : Reply) : bool :=
  match reply with
  | Responded r => textual (prop "error" (data r)) && textual (prop "message" (data r))
  | NoResponse => true
  end.

(** [response] is an answer of the server with a status in 200..299. *)
Definition answered_by (srv : Server) (response : Response) : Prop :=
  exists k c,
    srv k c = Responded response /\
    (200 <=? status response) && (status response <? 300) = true.

(** An error whose response, if it has one, is textual. *)
Definition textual_error (e : exn) : bool :=
  match e with
  | AxiosErr _ _ (Some r) => textual_reply (Responded r)
  | _ => true
  end.

(** What a request may come back with from a server with textual error
    bodies: an answer of the server with a status in 200..299, or a
    textual error. *)
Definition comes_from (srv : Server) (r : result Response) : Prop :=
  match r with
  | inl response => answered_by srv response
  | inr e => textual_error e = true
  end.

(** ** Outcomes and invariants of the operations *)

(** What [login] and [signup] do with the response: they end with the
    parsed answer after the delay, or throw without having waited. *)
Definition handles (srv : Server) (env : Interference) (handle : json -> Task json)
  : Prop :=
  forall response s n,
  exists out s' log,
    exec srv env (handle response) s n = Some (out, s', log) /\
    match out with
    | inl v => (exists userData tokens, v = authSuccess userData tokens) /\
               In Slept (steps log)
    | inr _ => log = []
    end.

(** The in-memory slot of the token store holds a token. *)
Definition hasToken (s : State) : Prop := truthy (accessToken s) = true.

(** Task [t] never gets stuck and keeps [P]: started in a state with [P],
    it has [P] at each of its suspensions and at its end, as long as other
    code keeps [P] too. *)
Definition preserves {A : Type} (P : State -> Prop) (t : Task A) : Prop :=
  forall (srv : Server) (env : Interference) (s : State) (n : nat),
    (forall k st, P st -> P (env k st)) ->
    P s ->
    exists r s' log,
      exec srv env t s n = Some (r, s', log) /\
      P s' /\
      Forall (fun ev => P (snapshot ev)) log.

(** [s] has neither "<" nor ">". *)
Fixpoint noAngles (s : string) : bool :=
  match s with
  | String c s' => negb (Ascii.eqb c "<" || Ascii.eqb c ">") && noAngles s'
  | EmptyString => true
  end.

(* ================================================================== *)
(** * The placeholder routes (app/api/auth) and their schemas *)
(* ================================================================== *)

Section Placeholder.

(** zod's pattern for e-mail addresses, and the message of the error
    that [request.json()] or the schema's [parse] throws on a body. *)
Variable isEmail : string -> bool.
Variable parseError : json -> string.

(** [z.string().email(..).min(1).max(255)] *)
Definition emailSchema (email : string) : bool :=
  isEmail email && (1 <=? String.length email)%nat
  && (String.length email <=? 255)%nat.

Definition is_upper (c : ascii) : bool :=
  let n := N_of_ascii c in ((65 <=? n) && (n <=? 90))%N.
Definition is_lower (c : ascii) : bool :=
  let n := N_of_ascii c in ((97 <=? n) && (n <=? 122))%N.
Definition is_digit (c : ascii) : bool :=
  let n := N_of_ascii c in ((48 <=? n) && (n <=? 57))%N.

(** 8 to 128 characters, with an upper-case letter, a lower-case letter
    and a digit. *)
Definition passwordSchema (password : string) : bool :=
  (8 <=? String.length password)%nat && (String.length password <=? 128)%nat
  && existsb is_upper (list_ascii_of_string password)
  && existsb is_lower (list_ascii_of_string password)
  && existsb is_digit (list_ascii_of_string password).

(** 3 to 30 characters, all of them letters, digits or underscores. *)
Definition usernameSchema (username : string) : bool :=
  (3 <=? String.length username)%nat && (String.length username <=? 30)%nat
  && forallb is_word (list_ascii_of_string username).

(** [loginSchema.parse(body)]: the validated fields, or [None] when it
    throws. *)
Definition loginSchema (body : json) : option (string * string) :=
  match prop "email" body, prop "password" body with
  | JStr email, JStr password =>
      if emailSchema email && (1 <=? String.length password)%nat
      then Some (email, password)
      else None
  | _, _ => None
  end.

Definition signupSchema (body : json) : option (string * string * string) :=
  match prop "email" body, prop "username" body, prop "password" body with
  | JStr email, JStr username, JStr password =>
      if emailSchema email && usernameSchema username && passwordSchema password
      then Some (email, username, password)
      else None
  | _, _, _ => None
  end.

Definition mockTokens : json :=
  JObj [("accessToken", JStr "mock-access-token");
        ("refreshToken", JStr "mock-refresh-token")].

Definition mockUser (email username : string) : json :=
  JObj [("_id", JStr "mock-user-id"); ("email", JStr email);
        ("username", JStr username)].

Definition mockAuth (email username : string) : json :=
  JObj [("success", JBool true);
        ("data", JObj [("success", JBool true);
                       ("user", mockUser email username);
                       ("tokens", mockTokens)])].

Definition badRequest (body : json) : Reply :=
  Responded (mkResponse 400 "Bad Request" body).

(** [POST /api/auth/login] *)
Definition loginRoute (body : json) : Reply :=
  match loginSchema body with
  | Some (email, _) => ok (mockAuth email "mockuser")
  | None =>
      badRequest (failure (js_or (JStr (parseError body)) (JStr "Login failed")))
  end.

(** [POST /api/auth/signup] *)
Definition signupRoute (body : json) : Reply :=
  match signupSchema body with
  | Some (email, username, _) => ok (mockAuth email username)
  | None =>
      badRequest (failure (js_or (JStr (parseError body)) (JStr "Signup failed")))
  end.

(** [POST /api/auth/logout], [POST /api/auth/refresh], [GET /api/auth/me] *)
Definition logoutRoute : Reply :=
  ok (JObj [("success", JBool true); ("message", JStr "Logged out successfully")]).
Definition refreshRoute : Reply :=
  unauthorized (failure (JStr "Token refresh not implemented")).
Definition meRoute : Reply :=
  unauthorized (failure (JStr "Not authenticated")).

(** A server on which the authentication endpoints are the placeholder
    routes; [other] answers the remaining calls. *)
Definition placeholderBackend (other : Server) : Server :=
  fun k c =>
    match c with
    | RefreshPost => refreshRoute
    | ViaInstance cfg =>
        if String.eqb (url cfg) "/api/auth/login" && String.eqb (method cfg) "post"
        then loginRoute (req_data cfg)
        else if String.eqb (url cfg) "/api/auth/signup" && String.eqb (method cfg) "post"
        then signupRoute (req_data cfg)
        else if String.eqb (url cfg) "/api/auth/logout" && String.eqb (method cfg) "post"
        then logoutRoute
        else if String.eqb (url cfg) "/api/auth/refresh" && String.eqb (method cfg) "post"
        then refreshRoute
        else if String.eqb (url cfg) "/api/auth/me" && String.eqb (method cfg) "get"
        then meRoute
        else other k c
    end.

End Placeholder.

(* ================================================================== *)
(** * Worked inputs *)
(* ================================================================== *)

(** A stand-in for the engine's [String(v)] in the worked examples; none
    of them converts anything but strings. *)
Definition exampleToString (v : json) : string := "[object Object]".

(** A freshly mounted provider in a browser tab: no user, loading, no
    guard set, no token. *)
Definition initialState : State :=
  mkState JNull true false false false JNull (Some None).

(** A user whose identifier arrives as [id]. *)
Definition aliceU : UserFields :=
  mkUserFields JUndef (JStr "u42") (JStr "alice@example.com") (JStr "alice")
               JUndef JUndef JUndef.

Definition aliceTokens : json :=
  JObj [("accessToken", JStr "access-1"); ("refreshToken", JStr "refresh-1")].

(** Her canonical user object. *)
Definition alice : json := canonicalOf aliceU.

(** A signed-in provider. *)
Definition signedIn : State :=
  mkState alice false false false false (JStr "access-1") (Some (Some "access-1")).

(** A server that rejects everything as expired. *)
Definition expiredServer : Server :=
  fun _ _ => unauthorized (JObj [("success", JBool false);
                                 ("error", JStr "Invalid refresh token")]).

(** A server that never answers. *)
Definition deadServer : Server := fun _ _ => NoResponse.

(** A server on which the notification call of [logout()] throws: its
    401 carries a numeric [message], the refresh attempt gets no answer,
    and [handleError] fails on [errorMessage.includes]. *)
Definition brokenLogoutServer : Server :=
  fun n _ =>
    match n with
    | O => unauthorized (JObj [("message", JNum 5)])
    | _ => NoResponse
    end.

(** Two sync requests: one with a user name (under its alternate field
    name) and a user id, one with neither. *)
Definition bothInput : Sync.Input :=
  Sync.mkInput (Some true) None (Some "alice") (Some (inject_Z 7)).
Definition neitherInput : Sync.Input := Sync.mkInput (Some true) None None None.

(** A server that answers the first request with a success envelope
    whose payload nests user and tokens under [data], and the "who am I"
    request that follows with the user. *)
Definition underDataServer : Server :=
  fun n _ =>
    match n with
    | O => ok (successBody (layoutUnderData aliceU aliceTokens))
    | _ => ok (successBody (JObj [("user", canonicalOf aliceU)]))
    end.

(** A server that answers 401 "jwt expired" to everything but the second
    call, the refresh, which succeeds: the replay gets a 401 again. *)
Definition expiredThenRefreshed : Server :=
  fun n _ =>
    match n with
    | 1%nat => ok (JObj [("success", JBool true); ("accessToken", JStr "access-2")])
    | _ => unauthorized (JObj [("success", JBool false); ("error", JStr "jwt expired")])
    end.

(** [apiClient.get('/api/chat/history')] as handed to [axiosInstance]. *)
Definition historyRequest : Config :=
  mkConfig "/api/chat/history" "get" JUndef false None.

(** A server whose "who am I" answer carries the user. *)
Definition meServer : Server :=
  fun _ _ => ok (successBody (JObj [("user", canonicalOf aliceU)])).

(** A server that knows no session: every request gets a 401 "Not
    authenticated". *)
Definition notSignedInServer : Server :=
  fun _ _ => unauthorized (JObj [("success", JBool false);
                                 ("error", JStr "Not authenticated")]).

(** A message to the assistant. *)
Definition chatRequest : json := JObj [("message", JStr "hello")].

(** A server whose "who am I" answer reports success with the number 5
    in the place of the user. *)
Definition numberUserServer : Server :=
  fun _ _ => ok (successBody (JObj [("user", JNum (inject_Z 5))])).

(** A server that rejects everything with a 401 whose [error] field is
    [false]. *)
Definition falseErrorServer : Server :=
  fun _ _ => unauthorized (JObj [("success", JBool false); ("error", JBool false)]).

(** A chat history of four entries: a timestamp in seconds, the same
    instant in milliseconds under [createdAt], no date at all, and a
    string that is no date. *)
Definition history : list (list (string * json)) :=
  [[("role", JStr "user"); ("content", JStr "hi");
    ("timestamp", JNum (inject_Z 1700000000))];
   [("role", JStr "assistant"); ("content", JStr "hello");
    ("createdAt", JNum (inject_Z 1700000000000))];
   [("role", JStr "user"); ("content", JStr "more")];
   [("role", JStr "assistant"); ("content", JStr "sure");
    ("timestamp", JStr "soon")]].

(* ================================================================== *)
(** * Reasoning about tasks *)
(* ================================================================== *)

Ltac case_if :=
  repeat match goal with
         | |- context [if ?b then _ else _] => destruct b
         end.

(** ** Running sequential compositions *)

Lemma shift_log_cons {A : Type} (ev : event) (pre : list event)
      (o : option (result A * State * list event)) :
  match shift_log pre o with
  | Some (r, s', log) => Some (r, s', ev :: log)
  | None => None
  end = shift_log (ev :: pre) o.
Proof. destruct o as [[[r s'] log]|]; reflexivity. Qed.

Lemma shift_log_nil {A : Type} (o : option (result A * State * list event)) :
  shift_log [] o = o.
Proof. destruct o as [[[r s'] log]|]; reflexivity. Qed.

(** [bind t f] runs [t], then [f] on its value, from the state and the
    suspension count that [t] left. *)
Lemma exec_bind {A B : Type} (srv : Server) (env : Interference)
      (t : Task A) (f : A -> Task B) :
  forall s n,
    exec srv env (bind t f) s n =
    match exec srv env t s n with
    | Some (inl a, s1, log1) =>
        shift_log log1 (exec srv env (f a) s1 (n + length log1))
    | Some (inr e, s1, log1) => Some (inr e, s1, log1)
    | None => None
    end.
Proof.
  induction t as [a|e| |k IH|s0 k IH|c k IH|ms k IH]; intros s n; simpl.
  - rewrite Nat.add_0_r. now rewrite shift_log_nil.
  - reflexivity.
  - reflexivity.
  - apply IH.
  - apply IH.
  - rewrite IH.
    destruct (exec srv env (k (srv n c)) (env n s) (S n)) as [[[[a|e] s1] l1]|];
      simpl; try reflexivity.
    rewrite Nat.add_succ_r. apply shift_log_cons.
  - rewrite IH.
    destruct (exec srv env k (env n s) (S n)) as [[[[a|e] s1] l1]|];
      simpl; try reflexivity.
    rewrite Nat.add_succ_r. apply shift_log_cons.
Qed.

Lemma exec_try_catch {A : Type} (srv : Server) (env : Interference)
      (t : Task A) (h : exn -> Task A) :
  forall s n,
    exec srv env (try_catch t h) s n =
    match exec srv env t s n with
    | Some (inl a, s1, log1) => Some (inl a, s1, log1)
    | Some (inr e, s1, log1) =>
        shift_log log1 (exec srv env (h e) s1 (n + length log1))
    | None => None
    end.
Proof.
  induction t as [a|e| |k IH|s0 k IH|c k IH|ms k IH]; intros s n; simpl.
  - reflexivity.
  - rewrite Nat.add_0_r. now rewrite shift_log_nil.
  - reflexivity.
  - apply IH.
  - apply IH.
  - rewrite IH.
    destruct (exec srv env (k (srv n c)) (env n s) (S n)) as [[[[a|e] s1] l1]|];
      simpl; try reflexivity.
    rewrite Nat.add_succ_r. apply shift_log_cons.
  - rewrite IH.
    destruct (exec srv env k (env n s) (S n)) as [[[[a|e] s1] l1]|];
      simpl; try reflexivity.
    rewrite Nat.add_succ_r. apply shift_log_cons.
Qed.

Lemma exec_finally {A : Type} (srv : Server) (env : Interference)
      (t : Task A) (f : Task unit) :
  forall s n,
    exec srv env (finally t f) s n =
    match exec srv env t s n with
    | Some (r, s1, log1) =>
        match exec srv env f s1 (n + length log1) with
        | Some (r', s2, log2) => Some (after_finally r r', s2, (log1 ++ log2)%list)
        | None => None
        end
    | None => None
    end.
Proof.
  induction t as [a|e| |k IH|s0 k IH|c k IH|ms k IH]; intros s n; simpl.
  - rewrite Nat.add_0_r, exec_bind.
    destruct (exec srv env f s n) as [[[[[]|e'] s2] l2]|]; simpl;
      try rewrite app_nil_r; reflexivity.
  - rewrite Nat.add_0_r, exec_bind.
    destruct (exec srv env f s n) as [[[[[]|e'] s2] l2]|]; simpl;
      try rewrite app_nil_r; reflexivity.
  - reflexivity.
  - apply IH.
  - apply IH.
  - rewrite IH.
    destruct (exec srv env (k (srv n c)) (env n s) (S n)) as [[[r s1] l1]|];
      simpl; try reflexivity.
    rewrite Nat.add_succ_r.
    destruct (exec srv env f s1 (S (n + length l1))) as [[[r' s2] l2]|]; reflexivity.
  - rewrite IH.
    destruct (exec srv env k (env n s) (S n)) as [[[r s1] l1]|];
      simpl; try reflexivity.
    rewrite Nat.add_succ_r.
    destruct (exec srv env f s1 (S (n + length l1))) as [[[r' s2] l2]|]; reflexivity.
Qed.

Section WpRules.

Context (R : State -> State -> Prop) (I : event -> Prop).

Lemma wp_mono {A : Type} (t : Task A) (Q Q' : result A -> State -> Prop) :
  (forall r s, Q r s -> Q' r s) ->
  forall s, wp R I t Q s -> wp R I t Q' s.
Proof.
  intros HQ.
  induction t as [a|e| |k IH|s0 k IH|c k IH|ms k IH]; intros s; simpl; auto.
  - intros [Hi Hk]. split; [exact Hi|]. intros reply s' Hr. apply IH, Hk, Hr.
  - intros [Hi Hk]. split; [exact Hi|]. intros s' Hr. apply IH, Hk, Hr.
Qed.

Lemma wp_bind {A B : Type} (t : Task A) (f : A -> Task B)
      (Q : result B -> State -> Prop) :
  forall s,
    wp R I t (fun r s1 => match r with
                          | inl a => wp R I (f a) Q s1
                          | inr e => Q (inr e) s1
                          end) s ->
    wp R I (bind t f) Q s.
Proof.
  induction t as [a|e| |k IH|s0 k IH|c k IH|ms k IH]; intros s; simpl; auto.
  - intros [Hi Hk]. split; [exact Hi|]. intros reply s' Hr. apply IH, Hk, Hr.
  - intros [Hi Hk]. split; [exact Hi|]. intros s' Hr. apply IH, Hk, Hr.
Qed.

Lemma wp_try_catch {A : Type} (t : Task A) (h : exn -> Task A)
      (Q : result A -> State -> Prop) :
  forall s,
    wp R I t (fun r s1 => match r with
                          | inl a => Q (inl a) s1
                          | inr e => wp R I (h e) Q s1
                          end) s ->
    wp R I (try_catch t h) Q s.
Proof.
  induction t as [a|e| |k IH|s0 k IH|c k IH|ms k IH]; intros s; simpl; auto.
  - intros [Hi Hk]. split; [exact Hi|]. intros reply s' Hr. apply IH, Hk, Hr.
  - intros [Hi Hk]. split; [exact Hi|]. intros s' Hr. apply IH, Hk, Hr.
Qed.

Lemma wp_finally {A : Type} (t : Task A) (f : Task unit)
      (Q : result A -> State -> Prop) :
  forall s,
    wp R I t (fun r s1 => wp R I f (fun r' s2 => Q (after_finally r r') s2) s1) s ->
    wp R I (finally t f) Q s.
Proof.
  induction t as [a|e| |k IH|s0 k IH|c k IH|ms k IH]; intros s; simpl; auto.
  - intros H. apply wp_bind. revert H. apply wp_mono.
    intros [[]|e'] s1; simpl; auto.
  - intros H. apply wp_bind. revert H. apply wp_mono.
    intros [[]|e'] s1; simpl; auto.
  - intros [Hi Hk]. split; [exact Hi|]. intros reply s' Hr. apply IH, Hk, Hr.
  - intros [Hi Hk]. split; [exact Hi|]. intros s' Hr. apply IH, Hk, Hr.
Qed.

(** Soundness of [wp] for [exec]. *)
Lemma wp_exec {A : Type} (srv : Server) (env : Interference) (t : Task A)
      (Q : result A -> State -> Prop) :
  (forall k st, R st (env k st)) ->
  forall s n,
    wp R I t Q s ->
    exists r s' log,
      exec srv env t s n = Some (r, s', log) /\ Q r s' /\ Forall I log.
Proof.
  intros Henv.
  induction t as [a|e| |k IH|s0 k IH|c k IH|ms k IH]; intros s n; simpl.
  - intros H. exists (inl a), s, []. auto.
  - intros H. exists (inr e), s, []. auto.
  - intros [].
  - apply IH.
  - apply IH.
  - intros [Hi Hk].
    destruct (IH (srv n c) (env n s) (S n) (Hk _ _ (Henv n s)))
      as (r & s' & log & -> & HQ & Hlog).
    exists r, s', (EvNet c s :: log). auto.
  - intros [Hi Hk].
    destruct (IH (env n s) (S n) (Hk _ (Henv n s)))
      as (r & s' & log & -> & HQ & Hlog).
    exists r, s', (EvSleep ms s :: log). auto.
Qed.

End WpRules.

(** ** What the client and [checkAuth] leave alone

    A property [P] of the shared state that survives interference and the
    writes of the token store survives every client call, at each
    suspension and at the end; if it also survives the writes of
    [checkAuth], it survives [checkAuth]. *)
Section Frame.

Variable ToString : json -> string.
Variable R : State -> State -> Prop.
Variable P : State -> Prop.

Hypothesis P_R : forall s s', R s s' -> P s -> P s'.
Hypothesis P_accessToken : forall v s, P s -> P (with_accessToken v s).
Hypothesis P_window : forall w s, P s -> P (with_window w s).

Local Abbreviation I := (fun ev : event => P (snapshot ev)).
Local Abbreviation keep := (fun _ (s : State) => P s).

Lemma wp_bind_keep {A B : Type} (t : Task A) (f : A -> Task B)
      (Q : result B -> State -> Prop) (s : State) :
  wp R I t keep s ->
  (forall a s1, P s1 -> wp R I (f a) Q s1) ->
  (forall e s1, P s1 -> Q (inr e) s1) ->
  wp R I (bind t f) Q s.
Proof.
  intros Ht Hf He. apply wp_bind. revert Ht. apply wp_mono.
  intros [a|e] s1 H; auto.
Qed.

Lemma wp_try_catch_keep {A : Type} (t : Task A) (h : exn -> Task A) (s : State) :
  wp R I t keep s ->
  (forall e s1, P s1 -> wp R I (h e) keep s1) ->
  wp R I (try_catch t h) keep s.
Proof.
  intros Ht Hh. apply wp_try_catch. revert Ht. apply wp_mono.
  intros [a|e] s1 H; auto.
Qed.

Lemma lift_keeps {A : Type} (r : result A) (s : State) :
  P s -> wp R I (lift r) keep s.
Proof. intros H. destruct r; exact H. Qed.

Lemma setAccessToken_keeps (v : json) (s : State) :
  P s -> wp R I (setAccessToken ToString v) keep s.
Proof.
  intros H. unfold setAccessToken, storeToken. simpl.
  destruct (window s); case_if; simpl; auto.
Qed.

(** [getAccessToken] returns a value and keeps [P]. *)
Lemma getAccessToken_keeps (s : State) :
  P s ->
  wp R I getAccessToken (fun r s1 => P s1 /\ exists v, r = inl v) s.
Proof.
  intros H. unfold getAccessToken. simpl.
  destruct (truthy (accessToken s)); simpl; eauto.
  destruct (window s) as [[tok|]|]; simpl; eauto.
  case_if; simpl; eauto.
Qed.

Lemma requestInterceptor_keeps (cfg : Config) (s : State) :
  P s ->
  wp R I (requestInterceptor ToString cfg)
     (fun r s1 => P s1 /\ exists cfg', r = inl cfg' /\ _retry cfg' = _retry cfg) s.
Proof.
  intros H. unfold requestInterceptor. apply wp_bind.
  generalize (getAccessToken_keeps s H). apply wp_mono.
  intros r s1 [H1 [tok ->]]. simpl. split; [exact H1|].
  destruct (truthy tok); eexists; split; reflexivity.
Qed.

Lemma onFulfilled_keeps (r : Response) (s : State) :
  P s -> wp R I (onFulfilled ToString r) keep s.
Proof.
  intros H. unfold onFulfilled.
  apply wp_bind_keep; auto.
  destruct (truthy (extractToken (data r))); auto using setAccessToken_keeps.
Qed.

Lemma storeRefreshedToken_keeps (d : json) (s : State) :
  P s -> wp R I (storeRefreshedToken ToString d) keep s.
Proof.
  intros H. unfold storeRefreshedToken.
  case_if; auto using setAccessToken_keeps.
Qed.

Lemma onRejected_keeps (self : Config -> Task Response) (error : exn) (s : State) :
  (retried error = false ->
   forall cfg s1, _retry cfg = true -> P s1 -> wp R I (self cfg) keep s1) ->
  P s -> wp R I (onRejected ToString self error) keep s.
Proof.
  intros Hself H. unfold onRejected.
  destruct error as [msg cfg [resp|]|msg]; auto.
  destruct (_retry cfg) eqn:Hretry;
    [rewrite andb_false_r; exact H|].
  destruct (status resp =? 401); [|exact H]. simpl andb. cbv iota.
  apply wp_bind_keep; auto using lift_keeps.
  intros isNo s1 H1. destruct isNo; simpl negb; cbv iota; auto.
  apply wp_bind_keep; auto.
  - apply wp_try_catch_keep; auto.
    simpl. split; [exact H1|]. intros reply s2 Hr.
    apply wp_bind_keep; eauto using lift_keeps.
    intros rr s3 H3. apply wp_bind_keep; auto using lift_keeps.
    intros success s4 H4. destruct (truthy success); auto.
    apply wp_bind_keep; auto using storeRefreshedToken_keeps.
  - intros [|] s2 H2; auto.
Qed.

Lemma settle_retried (cfg : Config) (reply : Reply) (error : exn) :
  settle cfg reply = inr error -> retried error = _retry cfg.
Proof.
  destruct reply as [r|]; simpl.
  - destruct ((200 <=? status r) && (status r <? 300)); intros E; inversion E; reflexivity.
  - intros E; inversion E; reflexivity.
Qed.

Lemma axiosInstance_fuel_keeps (fuel : nat) :
  forall cfg s,
    (fuel_needed cfg <= fuel)%nat -> P s ->
    wp R I (axiosInstance_fuel ToString fuel cfg) keep s.
Proof.
  induction fuel as [|fuel IH]; intros cfg s Hfuel H.
  - unfold fuel_needed in Hfuel. destruct (_retry cfg); lia.
  - cbn [axiosInstance_fuel]. apply wp_bind.
    generalize (requestInterceptor_keeps cfg s H). apply wp_mono.
    intros r s1 [H1 (cfg' & -> & Hcfg')]. simpl. split; [exact H1|].
    intros reply s2 Hr.
    destruct (settle cfg' reply) as [resp|err] eqn:Hs.
    + apply onFulfilled_keeps; eauto.
    + apply onRejected_keeps; eauto.
      intros Herr c s3 Hc H3. apply IH; auto.
      apply settle_retried in Hs.
      unfold fuel_needed in *. rewrite Hc.
      rewrite <- Hcfg', <- Hs, Herr in Hfuel. lia.
Qed.

Lemma axiosInstance_keeps (cfg : Config) (s : State) :
  P s -> wp R I (axiosInstance ToString cfg) keep s.
Proof.
  intros H. apply axiosInstance_fuel_keeps; auto.
  unfold fuel_needed. destruct (_retry cfg); lia.
Qed.

Lemma apiClient_get_keeps (u : string) (s : State) :
  P s -> wp R I (apiClient_get ToString u) keep s.
Proof.
  intros H. unfold apiClient_get.
  apply wp_try_catch_keep; auto using lift_keeps.
  apply wp_bind_keep; auto using axiosInstance_keeps.
Qed.

Lemma apiClient_post_keeps (u : string) (body : json) (s : State) :
  P s -> wp R I (apiClient_post ToString u body) keep s.
Proof.
  intros H. unfold apiClient_post.
  apply wp_try_catch_keep.
  - apply wp_bind_keep; auto using axiosInstance_keeps.
  - intros e s1 H1. destruct (isExpected401 u e); [apply lift_keeps|]; exact H1.
Qed.

Hypothesis P_user : forall v s, P s -> P (with_user v s).
Hypothesis P_isLoading : forall b s, P s -> P (with_isLoading b s).
Hypothesis P_isCheckingAuth : forall b s, P s -> P (with_isCheckingAuth b s).

Lemma checkAuth_keeps (s : State) :
  P s ->
  wp R I (checkAuth ToString) (fun r s1 => P s1 /\ r = inl tt) s.
Proof.
  intros H. unfold checkAuth. cbn.
  destruct (isCheckingAuth s); [cbn; auto|].
  apply wp_finally. apply wp_try_catch.
  cbn. apply wp_bind.
  assert (H0 : P (with_isLoading true (with_isCheckingAuth true s))) by auto.
  generalize (apiClient_get_keeps "/api/auth/me" _ H0). apply wp_mono.
  intros [response|e] s1 H1; [|cbn; auto].
  unfold checkAuth_handle.
  apply wp_bind. destruct (get "success" response) as [success|e]; cbn; [|auto].
  destruct (is_true success && truthy (prop "user" (prop "data" response)));
    cbn; auto.
  apply wp_bind.
  match goal with
  | |- context [lift ?r] => destruct r; cbn; auto
  end.
Qed.

Lemma storeTokens_keeps (tokens : json) (s : State) :
  P s -> wp R I (storeTokens ToString tokens) keep s.
Proof.
  intros H. unfold storeTokens. case_if; auto using setAccessToken_keeps.
Qed.

Lemma locateUser_keeps (d : json) (otherwise : Task (option (json * json)))
      (s : State) :
  (forall s1, P s1 -> wp R I otherwise keep s1) ->
  P s -> wp R I (locateUser ToString d otherwise) keep s.
Proof.
  intros Ho H. unfold locateUser.
  case_if; auto; apply wp_bind_keep; auto using storeTokens_keeps.
Qed.

Lemma login_locate_keeps (d : json) (s : State) :
  P s -> wp R I (login_locate ToString d) keep s.
Proof.
  intros H. unfold login_locate. apply locateUser_keeps; auto.
  intros s1 H1. case_if; auto.
  apply wp_bind_keep; auto using storeTokens_keeps.
Qed.

Lemma signup_locate_keeps (d : json) (s : State) :
  P s -> wp R I (signup_locate ToString d) keep s.
Proof.
  intros H. unfold signup_locate. apply locateUser_keeps; auto.
Qed.

Lemma establish_keeps (userData authResponse : json) (s : State) :
  P s -> wp R I (establish ToString userData authResponse) keep s.
Proof.
  intros H. unfold establish. cbn. split; [auto|].
  intros s' Hr. apply wp_bind.
  assert (H' : P s') by eauto.
  generalize (checkAuth_keeps s' H'). apply wp_mono.
  intros r s1 [H1 ->]. exact H1.
Qed.

Lemma login_handle_keeps (response : json) (s : State) :
  P s -> wp R I (login_handle ToString response) keep s.
Proof.
  intros H. unfold login_handle.
  apply wp_bind_keep; auto using lift_keeps.
  intros success s1 H1. destruct (truthy success); [|exact H1].
  apply wp_bind_keep; auto.
  - case_if; auto using login_locate_keeps.
  - intros [[userData authResponse]|] s2 H2; auto using establish_keeps.
Qed.

Lemma signup_handle_keeps (response : json) (s : State) :
  P s -> wp R I (signup_handle ToString response) keep s.
Proof.
  intros H. unfold signup_handle.
  apply wp_bind_keep; auto using lift_keeps.
  intros success s1 H1. case_if; [|exact H1].
  apply wp_bind_keep; auto using signup_locate_keeps.
  intros [[userData authResponse]|] s2 H2; auto using establish_keeps.
Qed.

Lemma logout_keeps (s : State) :
  P s -> wp R I (logout ToString) keep s.
Proof.
  intros H. unfold logout. apply wp_finally. apply wp_try_catch.
  apply wp_bind.
  generalize (apiClient_post_keeps "/api/auth/logout" JUndef s H).
  apply wp_mono. intros [response|e] s1 H1; cbn.
  - generalize (setAccessToken_keeps JNull _ (P_user JNull s1 H1)).
    apply wp_mono. auto.
  - generalize (setAccessToken_keeps JNull _ (P_user JNull s1 H1)).
    apply wp_mono. auto.
Qed.

Lemma refreshToken_keeps (s : State) :
  P s -> wp R I (refreshToken ToString) keep s.
Proof.
  intros H. unfold refreshToken. apply wp_try_catch.
  apply wp_bind.
  generalize (apiClient_post_keeps "/api/auth/refresh" JUndef s H).
  apply wp_mono. intros [response|e] s1 H1; [|cbn; auto].
  apply wp_bind. destruct (get "success" response); cbn; auto.
Qed.

Lemma login_body_keeps (email password : string) (s : State) :
  P s ->
  wp R I
     (try_catch
        (setIsLoading true ;;;
         response <- apiClient_post ToString "/api/auth/login"
                       (JObj [("email", JStr email); ("password", JStr password)]) ;;
         login_handle ToString response)
        (fun error =>
           setUser JNull ;;;
           Ret (failure (js_or (js_or (JStr (message_of error)) JUndef)
                               (JStr "Login failed")))))
     (fun r s' => P s' /\ exists v, r = inl v) s.
Proof.
  intros H. apply wp_try_catch. cbn [bind modify setIsLoading wp].
  apply wp_bind.
  generalize (apiClient_post_keeps "/api/auth/login"
                (JObj [("email", JStr email); ("password", JStr password)])
                (with_isLoading true s) (P_isLoading true s H)).
  apply wp_mono. intros [response|e] s1 H1.
  - generalize (login_handle_keeps response s1 H1).
    apply wp_mono. intros [v|e] s2 H2; cbn; eauto.
  - cbn. eauto.
Qed.

Lemma signup_body_keeps (email username password : string) (s : State) :
  P s ->
  wp R I
     (try_catch
        (setIsLoading true ;;;
         response <- apiClient_post ToString "/api/auth/signup"
                       (JObj [("email", JStr email); ("username", JStr username);
                              ("password", JStr password)]) ;;
         signup_handle ToString response)
        (fun error =>
           setUser JNull ;;;
           Ret (failure (js_or (js_or (JStr (message_of error)) JUndef)
                               (JStr "Signup failed")))))
     (fun r s' => P s' /\ exists v, r = inl v) s.
Proof.
  intros H. apply wp_try_catch. cbn [bind modify setIsLoading wp].
  apply wp_bind.
  generalize (apiClient_post_keeps "/api/auth/signup"
                (JObj [("email", JStr email); ("username", JStr username);
                       ("password", JStr password)])
                (with_isLoading true s) (P_isLoading true s H)).
  apply wp_mono. intros [response|e] s1 H1.
  - generalize (signup_handle_keeps response s1 H1).
    apply wp_mono. intros [v|e] s2 H2; cbn; eauto.
  - cbn. eauto.
Qed.

End Frame.

(* ================================================================== *)
(** * Token store *)
(* ================================================================== *)

Section TokenStore.

Variable ToString : json -> string.

Lemma exec_setAccessToken (srv : Server) (env : Interference)
      (token : json) (s : State) (n : nat) :
  exists s',
    exec srv env (setAccessToken ToString token) s n = Some (inl tt, s', []) /\
    accessToken s' = token /\
    user s' = user s /\ isLoading s' = isLoading s /\
    (truthy token = false -> sessionItem s' = None).
Proof.
  unfold setAccessToken, storeToken. cbn.
  destruct (window s) eqn:Hw; cbn.
  - destruct (truthy token); eexists; split; try reflexivity; cbn; auto.
    repeat split; auto. discriminate.
  - eexists; split; try reflexivity; cbn. repeat split; auto.
    intros _. unfold sessionItem. cbn. now rewrite Hw.
Qed.

End TokenStore.

(** C10, as amended: the token store is a set/get round trip for every
    non-empty string token: [getAccessToken()] after [setAccessToken(t)]
    returns [t]; and after [setAccessToken(null)] the in-memory slot and
    the session-storage mirror are both cleared and [getAccessToken()]
    returns [null], so the fallback cannot bring a cleared token back. *)
Theorem token_store_roundtrip :
  forall (ToString : json -> string) (srv : Server) (env : Interference)
         (t : string) (s : State) (n : nat),
    t <> "" ->
    (exists s1,
        exec srv env (setAccessToken ToString (JStr t) ;;; getAccessToken) s n
        = Some (inl (JStr t), s1, []) /\
        accessToken s1 = JStr t)
    /\
    (exists s2,
        exec srv env (setAccessToken ToString JNull ;;; getAccessToken) s n
        = Some (inl JNull, s2, []) /\
        accessToken s2 = JNull /\ sessionItem s2 = None).
Proof.
  intros ToString srv env t s n Ht.
  apply String.eqb_neq in Ht.
  unfold setAccessToken, storeToken, getAccessToken. split.
  - cbn. destruct (window s); cbn; rewrite Ht; cbn; rewrite ?Ht; cbn;
      eexists; split; reflexivity.
  - cbn. unfold sessionItem.
    destruct (window s) eqn:Hw; cbn; rewrite ?Hw; cbn;
      eexists; repeat split; cbn; rewrite ?Hw; reflexivity.
Qed.

(** The token "access-1", set and cleared on a signed-in provider. *)
Lemma token_store_roundtrip_witness :
  "access-1" <> "" /\
  (exists s1,
      exec deadServer alone
           (setAccessToken exampleToString (JStr "access-1") ;;; getAccessToken)
           signedIn 0
      = Some (inl (JStr "access-1"), s1, []) /\
      accessToken s1 = JStr "access-1")
  /\
  (exists s2,
      exec deadServer alone
           (setAccessToken exampleToString JNull ;;; getAccessToken) signedIn 0
      = Some (inl JNull, s2, []) /\
      accessToken s2 = JNull /\ sessionItem s2 = None).
Proof.
  split; [discriminate|].
  apply (token_store_roundtrip exampleToString deadServer alone
           "access-1" signedIn 0).
  discriminate.
Defined.

(** C10, as stated, fails on the empty string: it is stored as a falsy
    token, the mirror is removed, and [getAccessToken()] answers [null]. *)
Lemma token_store_roundtrip_fails_on_empty_string :
  ~ (forall t : string,
        exists s1,
          exec deadServer alone
               (setAccessToken exampleToString (JStr t) ;;; getAccessToken)
               initialState 0
          = Some (inl (JStr t), s1, [])).
Proof.
  intros H. destruct (H "") as [s1 E]. vm_compute in E. discriminate E.
Qed.

(* ================================================================== *)
(** * [logout], [refreshToken], [isAuthenticated] *)
(* ================================================================== *)

(** [apiClient.post] always settles: it resolves or rejects, it never
    hangs on an exhausted replay budget. *)
Lemma apiClient_post_settles (ToString : json -> string) (srv : Server)
      (env : Interference) (u : string) (body : json) (s : State) (n : nat) :
  exists r s' log, exec srv env (apiClient_post ToString u body) s n = Some (r, s', log).
Proof.
  destruct (wp_exec anything any_event srv env
              (apiClient_post ToString u body) (fun _ _ => True)
              (fun _ _ => Logic.I) s n) as (r & s' & log & E & _).
  - apply (apiClient_post_keeps ToString anything (fun _ => True)); auto.
  - eauto.
Qed.

Lemma apiClient_get_settles (ToString : json -> string) (srv : Server)
      (env : Interference) (u : string) (s : State) (n : nat) :
  exists r s' log, exec srv env (apiClient_get ToString u) s n = Some (r, s', log).
Proof.
  destruct (wp_exec anything any_event srv env
              (apiClient_get ToString u) (fun _ _ => True)
              (fun _ _ => Logic.I) s n) as (r & s' & log & E & _).
  - apply (apiClient_get_keeps ToString anything (fun _ => True)); auto.
  - eauto.
Qed.

(** C5: every execution of [logout()] ends with the current user [null],
    the in-memory access token [null] and no token in the session store,
    whatever the server does and also when the notification call
    throws. *)
Theorem logout_always_clears :
  forall (ToString : json -> string) (srv : Server) (env : Interference)
         (s : State) (n : nat),
  exists s' log,
    exec srv env (logout ToString) s n = Some (inl tt, s', log) /\
    user s' = JNull /\ accessToken s' = JNull /\ sessionItem s' = None.
Proof.
  intros ToString srv env s n. unfold logout.
  rewrite exec_finally, exec_try_catch, exec_bind.
  destruct (apiClient_post_settles ToString srv env "/api/auth/logout" JUndef s n)
    as (r & s1 & log1 & ->).
  assert (Hfin : forall s0,
    exists s',
      (forall k, exec srv env (setUser JNull ;;; setAccessToken ToString JNull) s0 k
                 = Some (inl tt, s', [])) /\
      user s' = JNull /\ accessToken s' = JNull /\ sessionItem s' = None).
  { intros s0. unfold setUser, setAccessToken, storeToken, sessionItem. cbn.
    destruct (window s0) eqn:Hw; cbn; rewrite ?Hw; cbn; eexists; repeat split.
    cbn. now rewrite Hw. }
  destruct r as [response|e]; cbn [exec shift_log];
    destruct (Hfin s1) as (s' & E & Hs'); rewrite E; cbn; eauto.
Qed.

Lemma logout_notification_can_throw :
  (exists e s1 log1,
      exec brokenLogoutServer alone
           (apiClient_post exampleToString "/api/auth/logout" JUndef) signedIn 0
      = Some (inr e, s1, log1)) /\
  (exists s' log,
      exec brokenLogoutServer alone (logout exampleToString) signedIn 0
      = Some (inl tt, s', log) /\
      user s' = JNull /\ accessToken s' = JNull /\ sessionItem s' = None).
Proof.
  split.
  - do 3 eexists. vm_compute. reflexivity.
  - do 2 eexists. vm_compute. repeat split.
Qed.

(** C7: [isAuthenticated] is true exactly when [isLoading] is false and a
    current user is present; in particular it is false whenever
    [isLoading] is true, whatever [user] holds. *)
Theorem isAuthenticated_iff_loaded_user :
  forall s : State,
    (isAuthenticated s = true <-> isLoading s = false /\ truthy (user s) = true)
    /\ (isLoading s = true -> isAuthenticated s = false).
Proof.
  intros s. unfold isAuthenticated. split.
  - rewrite andb_true_iff, negb_true_iff. reflexivity.
  - intros ->. reflexivity.
Qed.

(** A state that holds a user while loading is not authenticated. *)
Lemma isAuthenticated_iff_loaded_user_witness :
  isLoading (with_isLoading true signedIn) = true /\
  truthy (user (with_isLoading true signedIn)) = true /\
  isAuthenticated (with_isLoading true signedIn) = false.
Proof.
  split; [reflexivity|]. split; [reflexivity|].
  apply (proj2 (isAuthenticated_iff_loaded_user (with_isLoading true signedIn))).
  reflexivity.
Defined.

(** C4: the code does not clear the user on an ordinary failed refresh.
    Signed in, with a server that answers 401 "Invalid refresh token" to
    everything, [refreshToken()] returns [false] and the current user is
    still there: [apiClient.post] turns the failure into an envelope, so
    the [catch] block that calls [setUser(null)] is not reached. *)
Theorem refreshToken_failure_keeps_user :
  exists s' log,
    exec expiredServer alone (refreshToken exampleToString) signedIn 0
    = Some (inl (JBool false), s', log) /\
    user s' = alice /\ user s' <> JNull.
Proof.
  do 2 eexists. split; [vm_compute; reflexivity|].
  split; [reflexivity|discriminate].
Qed.

(** [refreshToken] clears the user exactly on the exits through its
    [catch] block, that is when [apiClient.post] itself throws or
    resolves to [null]/[undefined]. *)
Lemma refreshToken_outcomes (ToString : json -> string) (srv : Server)
      (env : Interference) (s : State) (n : nat) :
  exists r s1 log,
    exec srv env (apiClient_post ToString "/api/auth/refresh" JUndef) s n
    = Some (r, s1, log) /\
    exec srv env (refreshToken ToString) s n
    = match r with
      | inl response =>
          match get "success" response with
          | inl success => Some (inl (js_or success (JBool false)), s1, log)
          | inr _ => Some (inl (JBool false), with_user JNull s1, log)
          end
      | inr _ => Some (inl (JBool false), with_user JNull s1, log)
      end.
Proof.
  destruct (apiClient_post_settles ToString srv env "/api/auth/refresh" JUndef s n)
    as (r & s1 & log & E).
  exists r, s1, log. split; [exact E|].
  unfold refreshToken. rewrite exec_try_catch, exec_bind, E.
  destruct r as [response|e]; cbn.
  - destruct (get "success" response) as [success|e]; cbn;
      now rewrite ?app_nil_r.
  - now rewrite app_nil_r.
Qed.

(* ================================================================== *)
(** * [checkAuth] *)
(* ================================================================== *)

Lemma exec_checkAuth_handle (srv : Server) (env : Interference)
      (response : json) (s : State) (n : nat) :
  exists r s',
    exec srv env (checkAuth_handle response) s n = Some (r, s', []) /\
    (r = inl tt ->
     user s' = if is_true (prop "success" response)
                  && truthy (prop "user" (prop "data" response))
               then prop "user" (prop "data" response)
               else JNull) /\
    (r <> inl tt ->
     is_true (prop "success" response)
     && truthy (prop "user" (prop "data" response)) = false).
Proof.
  unfold checkAuth_handle. rewrite exec_bind.
  destruct (get "success" response) as [success|e] eqn:Hget.
  - assert (Hs : success = prop "success" response).
    { destruct response; cbn in Hget; inversion Hget; reflexivity. }
    subst success. cbn [lift exec shift_log length].
    destruct (is_true (prop "success" response)
              && truthy (prop "user" (prop "data" response))) eqn:Hc.
    + cbn. do 2 eexists. split; [reflexivity|]. split; [reflexivity|].
      intros N; now elim N.
    + rewrite exec_bind.
      match goal with
      | |- context [lift ?x] => destruct x as [b|e]
      end; cbn; do 2 eexists; (split; [reflexivity|]); split; auto;
        discriminate.
  - assert (Hs : prop "success" response = JUndef).
    { destruct response; cbn in Hget; try discriminate; reflexivity. }
    rewrite Hs. cbn. do 2 eexists. split; [reflexivity|]. split; auto.
    discriminate.
Qed.

(** C6, as amended: [checkAuth] sets the current user only when the
    response of the "who am I" request has [success === true] and a
    truthy [data.user], and then to that value as it is, object or not;
    for every other response (so for every one with [success: false],
    with or without an error message) and for every thrown error the
    current user ends up [null]. *)
Theorem checkAuth_sets_user_only_on_success :
  forall (ToString : json -> string) (srv : Server) (env : Interference)
         (s : State) (n : nat),
    isCheckingAuth s = false ->
    exists r s1 log1 s' log,
      exec srv env (apiClient_get ToString "/api/auth/me")
           (with_isLoading true (with_isCheckingAuth true s)) n
      = Some (r, s1, log1) /\
      exec srv env (checkAuth ToString) s n = Some (inl tt, s', log) /\
      user s' =
        match r with
        | inl response =>
            if is_true (prop "success" response)
               && truthy (prop "user" (prop "data" response))
            then prop "user" (prop "data" response)
            else JNull
        | inr _ => JNull
        end.
Proof.
  intros ToString srv env s n Hguard.
  destruct (apiClient_get_settles ToString srv env "/api/auth/me"
              (with_isLoading true (with_isCheckingAuth true s)) n)
    as (r & s1 & log1 & E).
  exists r, s1, log1.
  unfold checkAuth. cbn [exec]. rewrite Hguard.
  rewrite exec_finally, exec_try_catch.
  cbn [bind modify setIsLoading exec]. rewrite exec_bind, E.
  destruct r as [response|e].
  - destruct (exec_checkAuth_handle srv env response s1 (n + length log1))
      as (r' & s2 & -> & Hok & Hko).
    destruct r' as [[]|e]; cbn.
    + do 2 eexists. split; [reflexivity|]. split; [reflexivity|].
      cbn. now apply Hok.
    + do 2 eexists. split; [reflexivity|]. split; [reflexivity|].
      cbn. rewrite Hko; [reflexivity|discriminate].
  - cbn. do 2 eexists. split; [reflexivity|]. split; reflexivity.
Qed.

(** C6, as stated, fails on a success answer whose [data.user] is not an
    object: [checkAuth] tests it for truthiness only, stores the number
    and the provider ends authenticated. *)
Lemma checkAuth_stores_a_user_that_is_no_object :
  exists s' log,
    exec numberUserServer alone (checkAuth exampleToString) initialState 0
    = Some (inl tt, s', log) /\
    user s' = JNum (inject_Z 5) /\
    is_object (user s') = false /\
    isAuthenticated s' = true.
Proof.
  do 2 eexists. split; [vm_compute; reflexivity|].
  split; [reflexivity|]. split; reflexivity.
Qed.

(* ================================================================== *)
(** * Re-entrancy guards of [login] and [signup] *)
(* ================================================================== *)

Lemma login_guarded (ToString : json -> string) (email password : string)
      (s : State) :
  isLoggingIn s = false ->
  wp keeps_isLoggingIn (fun ev => isLoggingIn (snapshot ev) = true)
     (login ToString email password)
     (fun r s' => isLoggingIn s' = false /\ exists v, r = inl v) s.
Proof.
  intros Hs. unfold login. cbn [wp]. rewrite Hs.
  apply wp_finally. cbn [bind modify wp try_catch].
  generalize (login_body_keeps ToString keeps_isLoggingIn
                (fun st => isLoggingIn st = true)
                (fun a b (Hab : keeps_isLoggingIn a b) Ha => eq_trans Hab Ha)
                (fun _ _ H => H) (fun _ _ H => H) (fun _ _ H => H)
                (fun _ _ H => H) (fun _ _ H => H)
                email password (with_isLoggingIn true s) eq_refl).
  apply wp_mono. intros r s1 [_ Hv]. cbn. auto.
Qed.

Lemma signup_guarded (ToString : json -> string)
      (email username password : string) (s : State) :
  isSigningUp s = false ->
  wp keeps_isSigningUp (fun ev => isSigningUp (snapshot ev) = true)
     (signup ToString email username password)
     (fun r s' => isSigningUp s' = false /\ exists v, r = inl v) s.
Proof.
  intros Hs. unfold signup. cbn [wp]. rewrite Hs.
  apply wp_finally. cbn [bind modify wp try_catch].
  generalize (signup_body_keeps ToString keeps_isSigningUp
                (fun st => isSigningUp st = true)
                (fun a b (Hab : keeps_isSigningUp a b) Ha => eq_trans Hab Ha)
                (fun _ _ H => H) (fun _ _ H => H) (fun _ _ H => H)
                (fun _ _ H => H) (fun _ _ H => H)
                email username password (with_isSigningUp true s) eq_refl).
  apply wp_mono. intros r s1 [_ Hv]. cbn. auto.
Qed.

Lemma login_rejected_while_pending (ToString : json -> string) (srv : Server)
      (env : Interference) (email password : string) (st : State) (m : nat) :
  isLoggingIn st = true ->
  exec srv env (login ToString email password) st m
  = Some (inl (failure (JStr "Login already in progress")), st, []).
Proof. intros H. unfold login. cbn [exec]. now rewrite H. Qed.

Lemma signup_rejected_while_pending (ToString : json -> string) (srv : Server)
      (env : Interference) (email username password : string)
      (st : State) (m : nat) :
  isSigningUp st = true ->
  exec srv env (signup ToString email username password) st m
  = Some (inl (failure (JStr "Signup already in progress")), st, []).
Proof. intros H. unfold signup. cbn [exec]. now rewrite H. Qed.

(** Other code is assumed below not to write the guard of a pending
    call.  The other operations meet this: none of them writes the guard
    of [login] ... *)
Lemma leaves_of_wp {A : Type} (flag : State -> bool) (t : Task A) :
  (forall b s, flag s = b ->
               wp (fun s0 s1 => flag s1 = flag s0)
                  (fun ev => flag (snapshot ev) = b) t
                  (fun _ s' => flag s' = b) s) ->
  leaves flag t.
Proof.
  intros H srv env s n Henv.
  destruct (wp_exec _ _ srv env t _ Henv s n (H (flag s) s eq_refl))
    as (r & s' & log & E & Hs' & Hlog).
  eauto 6.
Qed.

Lemma others_leave_isLoggingIn (ToString : json -> string) :
  leaves isLoggingIn (checkAuth ToString) /\
  leaves isLoggingIn (logout ToString) /\
  leaves isLoggingIn (refreshToken ToString) /\
  forall email username password,
    leaves isLoggingIn (signup ToString email username password).
Proof.
  assert (PR : forall b a c, isLoggingIn c = isLoggingIn a ->
                             isLoggingIn a = b -> isLoggingIn c = b)
    by (intros; congruence).
  repeat split; try intros email username password;
    apply leaves_of_wp; intros b s Hb.
  - generalize (checkAuth_keeps ToString _ (fun st => isLoggingIn st = b) (PR b)
                  (fun _ _ H => H) (fun _ _ H => H) (fun _ _ H => H)
                  (fun _ _ H => H) (fun _ _ H => H) s Hb).
    apply wp_mono. intros r s' [H _]. exact H.
  - apply (logout_keeps ToString _ (fun st => isLoggingIn st = b) (PR b)
             (fun _ _ H => H) (fun _ _ H => H) (fun _ _ H => H) s Hb).
  - apply (refreshToken_keeps ToString _ (fun st => isLoggingIn st = b) (PR b)
             (fun _ _ H => H) (fun _ _ H => H) (fun _ _ H => H) s Hb).
  - unfold signup. cbn [wp]. destruct (isSigningUp s); [exact Hb|].
    apply wp_finally. cbn [bind modify wp try_catch].
    generalize (signup_body_keeps ToString _ (fun st => isLoggingIn st = b) (PR b)
                  (fun _ _ H => H) (fun _ _ H => H) (fun _ _ H => H)
                  (fun _ _ H => H) (fun _ _ H => H)
                  email username password (with_isSigningUp true s) Hb).
    apply wp_mono. intros r s1 [H1 _]. cbn. exact H1.
Qed.

(** ... nor that of [signup]. *)
Lemma others_leave_isSigningUp (ToString : json -> string) :
  leaves isSigningUp (checkAuth ToString) /\
  leaves isSigningUp (logout ToString) /\
  leaves isSigningUp (refreshToken ToString) /\
  forall email password,
    leaves isSigningUp (login ToString email password).
Proof.
  assert (PR : forall b a c, isSigningUp c = isSigningUp a ->
                             isSigningUp a = b -> isSigningUp c = b)
    by (intros; congruence).
  repeat split; try intros email password;
    apply leaves_of_wp; intros b s Hb.
  - generalize (checkAuth_keeps ToString _ (fun st => isSigningUp st = b) (PR b)
                  (fun _ _ H => H) (fun _ _ H => H) (fun _ _ H => H)
                  (fun _ _ H => H) (fun _ _ H => H) s Hb).
    apply wp_mono. intros r s' [H _]. exact H.
  - apply (logout_keeps ToString _ (fun st => isSigningUp st = b) (PR b)
             (fun _ _ H => H) (fun _ _ H => H) (fun _ _ H => H) s Hb).
  - apply (refreshToken_keeps ToString _ (fun st => isSigningUp st = b) (PR b)
             (fun _ _ H => H) (fun _ _ H => H) (fun _ _ H => H) s Hb).
  - unfold login. cbn [wp]. destruct (isLoggingIn s); [exact Hb|].
    apply wp_finally. cbn [bind modify wp try_catch].
    generalize (login_body_keeps ToString _ (fun st => isSigningUp st = b) (PR b)
                  (fun _ _ H => H) (fun _ _ H => H) (fun _ _ H => H)
                  (fun _ _ H => H) (fun _ _ H => H)
                  email password (with_isLoggingIn true s) Hb).
    apply wp_mono. intros r s1 [H1 _]. cbn. exact H1.
Qed.

(* ================================================================== *)
(** * The refresh-and-replay cycle of the dispatcher *)
(* ================================================================== *)

Section Dispatcher.

Variable ToString : json -> string.
Variable srv : Server.
Variable env : Interference.

Lemma sent_same (c c' : Config) (retry : bool) :
  same_request c c' -> sent c' retry = sent c retry.
Proof. intros (Hu & Hm & Hd). unfold sent. now rewrite Hu, Hm, Hd. Qed.

Lemma exec_getAccessToken (s : State) (n : nat) :
  exists v s', exec srv env getAccessToken s n = Some (inl v, s', []).
Proof.
  unfold getAccessToken. cbn [exec].
  destruct (truthy (accessToken s)); [cbn; eauto|].
  destruct (window s) as [[tok|]|]; [|cbn; eauto..].
  destruct (truthy (JStr tok)); cbn; eauto.
Qed.

Lemma exec_requestInterceptor (cfg : Config) (s : State) (n : nat) :
  exists cfg1 s1,
    exec srv env (requestInterceptor ToString cfg) s n = Some (inl cfg1, s1, []) /\
    same_request cfg cfg1 /\ _retry cfg1 = _retry cfg.
Proof.
  unfold requestInterceptor. rewrite exec_bind.
  destruct (exec_getAccessToken s n) as (v & s' & ->). cbn.
  destruct (truthy v); do 2 eexists; split; try reflexivity;
    unfold same_request; auto.
Qed.

Lemma exec_setAccessToken_total (token : json) (s : State) (n : nat) :
  exists s', exec srv env (setAccessToken ToString token) s n = Some (inl tt, s', []).
Proof.
  destruct (exec_setAccessToken ToString srv env token s n) as (s' & E & _); eauto.
Qed.

Lemma exec_onFulfilled (response : Response) (s : State) (n : nat) :
  exists s',
    exec srv env (onFulfilled ToString response) s n = Some (inl response, s', []).
Proof.
  unfold onFulfilled. rewrite exec_bind.
  destruct (truthy (extractToken (data response))).
  - destruct (exec_setAccessToken_total (extractToken (data response)) s n)
      as (s' & ->). cbn. eauto.
  - cbn. eauto.
Qed.

Lemma exec_storeRefreshedToken (d : json) (s : State) (n : nat) :
  exists s',
    exec srv env (storeRefreshedToken ToString d) s n = Some (inl tt, s', []).
Proof.
  unfold storeRefreshedToken.
  case_if; try apply exec_setAccessToken_total.
  cbn. eauto.
Qed.

(** An error of a request that was already replayed passes through. *)
Lemma exec_onRejected_retried (self : Config -> Task Response) (error : exn)
      (s : State) (n : nat) :
  retried error = true ->
  exec srv env (onRejected ToString self error) s n = Some (inr error, s, []).
Proof.
  unfold onRejected. destruct error as [msg cfg [resp|]|msg]; cbn; auto.
  intros ->. now rewrite andb_false_r.
Qed.

(** A replay is one request and nothing more, whatever comes back. *)
Lemma exec_replay (fuel : nat) (cfg : Config) (s : State) (n : nat) :
  _retry cfg = true ->
  exists r s' cfg1 s1,
    exec srv env (axiosInstance_fuel ToString (S fuel) cfg) s n
    = Some (r, s', [EvNet (ViaInstance cfg1) s1]) /\
    same_request cfg cfg1 /\ _retry cfg1 = true.
Proof.
  intros Hretry. cbn [axiosInstance_fuel]. rewrite exec_bind.
  destruct (exec_requestInterceptor cfg s n) as (cfg1 & s1 & -> & Hurl & Hr).
  cbn [length shift_log exec]. rewrite Nat.add_0_r.
  rewrite Hretry in Hr.
  destruct (settle cfg1 (srv n (ViaInstance cfg1))) as [resp|err] eqn:Hs.
  - destruct (exec_onFulfilled resp (env n s1) (S n)) as (s' & ->).
    cbn. eauto 10.
  - rewrite exec_onRejected_retried.
    + cbn. eauto 10.
    + apply settle_retried in Hs. congruence.
Qed.

Lemma includes_any_none (text : string) (subs : list string) :
  (forall m, In m subs -> str_includes m text = false) ->
  includes_any includes (JStr text) subs = inl false.
Proof.
  induction subs as [|m subs IH]; intros H; cbn; [reflexivity|].
  rewrite (H m (or_introl eq_refl)). apply IH. intros m' Hm'. apply H. now right.
Qed.

(** The suspensions of the [try] block of the rejection handler: the
    refresh call, and whether the block reaches the replay. *)
Lemma exec_refresh_attempt (error : exn) (s : State) (n : nat) :
  exists r s',
    exec srv env
      (try_catch
         (Net RefreshPost (fun reply =>
            refreshResponse <- lift (settle refreshConfig reply) ;;
            success <- lift (get "success" (data refreshResponse)) ;;
            if truthy success then
              storeRefreshedToken ToString (data refreshResponse) ;;; Ret true
            else Ret false))
         (fun _ => Throw error)) s n
    = Some (r, s', [EvNet RefreshPost s]) /\
    (refresh_succeeds (srv n RefreshPost) = true -> r = inl true) /\
    (refresh_succeeds (srv n RefreshPost) = false -> r = inl false \/ r = inr error).
Proof.
  rewrite exec_try_catch. cbn [exec]. rewrite exec_bind.
  unfold refresh_succeeds.
  destruct (srv n RefreshPost) as [rr|]; cbn [settle].
  - destruct ((200 <=? status rr) && (status rr <? 300)); cbn [andb lift exec].
    + cbn [length shift_log]. rewrite exec_bind.
      destruct (data rr) eqn:Hd; cbn [get lift exec prop truthy length shift_log];
        try (cbn; do 2 eexists; split; [reflexivity|]; split;
             [discriminate|auto]; fail).
      all: match goal with
           | |- context [if ?b then _ else _] => destruct b eqn:Hb
           end.
      all: try (cbn; do 2 eexists; split; [reflexivity|]; split;
                [congruence|auto]; fail).
      all: rewrite exec_bind;
        match goal with
        | |- context [exec srv env (storeRefreshedToken ToString ?d) ?s0 ?k] =>
            destruct (exec_storeRefreshedToken d s0 k) as (s' & ->)
        end; cbn; do 2 eexists; split; [reflexivity|]; split; auto; congruence.
    + cbn. do 2 eexists. split; [reflexivity|]. split; [discriminate|auto].
  - cbn. do 2 eexists. split; [reflexivity|]. split; [discriminate|auto].
Qed.

(** The rejection handler on an error of a request that was not yet
    replayed. *)
Lemma exec_onRejected_first (fuel : nat) (msg : string) (cfg1 : Config)
      (response : option Response) (s : State) (n : nat) :
  _retry cfg1 = false ->
  exists r s' rest,
    exec srv env
         (onRejected ToString (axiosInstance_fuel ToString (S fuel))
                     (AxiosErr msg cfg1 response)) s n
    = Some (r, s', rest) /\
    (steps rest = [] \/ steps rest = [Refreshed] \/
     steps rest = [Refreshed; sent cfg1 true]) /\
    (forall resp text,
        response = Some resp -> status resp = 401 ->
        js_or (prop "error" (data resp)) (JStr "") = JStr text ->
        (forall m, In m noTokenMarkers -> str_includes m text = false) ->
        steps rest =
          Refreshed :: (if refresh_succeeds (srv n RefreshPost)
                        then [sent cfg1 true] else [])).
Proof.
  intros Hretry. unfold onRejected.
  destruct response as [resp|];
    [|cbn; do 3 eexists; split; [reflexivity|]; split; [auto|];
      intros; discriminate].
  rewrite Hretry. cbn [negb]. rewrite andb_true_r.
  destruct (status resp =? 401) eqn:H401.
  2:{ cbn. do 3 eexists. split; [reflexivity|]. split; [auto|].
      intros resp0 text E Hst. inversion E; subst.
      rewrite Hst in H401. discriminate. }
  rewrite exec_bind.
  destruct (includes_any includes (js_or (prop "error" (data resp)) (JStr ""))
                         noTokenMarkers) as [[|]|e] eqn:Hinc;
    cbn [lift exec length shift_log negb].
  - do 3 eexists. split; [reflexivity|]. split; [auto|].
    intros resp0 text E _ Htext Hnone. inversion E; subst.
    rewrite Htext, (includes_any_none text _ Hnone) in Hinc. discriminate.
  - rewrite exec_bind.
    match goal with
    | |- context [exec srv env (try_catch _ (fun _ => Throw ?err)) ?s0 ?k] =>
        destruct (exec_refresh_attempt err s0 k) as (r & s' & -> & Hok & Hko)
    end.
    destruct r as [[|]|e].
    + destruct (exec_replay fuel (with_retry true cfg1) s' (n + 0 + 1)%nat eq_refl)
        as (r2 & s2 & cfg2 & s3 & E2 & Hurl & Hr2).
      cbn [length shift_log app]. rewrite E2. cbn [shift_log app].
      do 3 eexists. split; [reflexivity|].
      assert (Hsteps : steps [EvNet RefreshPost s; EvNet (ViaInstance cfg2) s3]
                       = [Refreshed; sent cfg1 true]).
      { cbn. rewrite Hr2. now rewrite (sent_same _ _ _ Hurl). }
      split; [auto|]. intros resp0 text _ _ _ _.
      destruct (refresh_succeeds (srv (n + 0)%nat RefreshPost)) eqn:Hrs.
      * rewrite Nat.add_0_r in Hrs. now rewrite Hrs.
      * destruct (Hko eq_refl); discriminate.
    + cbn. do 3 eexists. split; [reflexivity|]. split; [auto|].
      intros resp0 text _ _ _ _.
      destruct (refresh_succeeds (srv (n + 0)%nat RefreshPost)) eqn:Hrs.
      * specialize (Hok eq_refl). discriminate.
      * rewrite Nat.add_0_r in Hrs. now rewrite Hrs.
    + cbn. do 3 eexists. split; [reflexivity|]. split; [auto|].
      intros resp0 text _ _ _ _.
      destruct (refresh_succeeds (srv (n + 0)%nat RefreshPost)) eqn:Hrs.
      * specialize (Hok eq_refl). discriminate.
      * rewrite Nat.add_0_r in Hrs. now rewrite Hrs.
  - do 3 eexists. split; [reflexivity|]. split; [auto|].
    intros resp0 text E _ Htext Hnone. inversion E; subst.
    rewrite Htext, (includes_any_none text _ Hnone) in Hinc. discriminate.
Qed.

Lemma axiosInstance_fuel_S (fuel : nat) (cfg : Config) :
  axiosInstance_fuel ToString (S fuel) cfg =
  (config' <- requestInterceptor ToString cfg ;;
   Net (ViaInstance config') (fun reply =>
     match settle config' reply with
     | inl response => onFulfilled ToString response
     | inr error => onRejected ToString (axiosInstance_fuel ToString fuel) error
     end)).
Proof. reflexivity. Qed.

(** The suspensions of a request that is not a replay, with a budget of
    two levels or more. *)
Lemma exec_axiosInstance_fuel (fuel : nat) (cfg : Config) (s : State) (n : nat) :
  _retry cfg = false ->
  exists r s' cfg1 s1 rest,
    exec srv env (axiosInstance_fuel ToString (S (S fuel)) cfg) s n
    = Some (r, s', EvNet (ViaInstance cfg1) s1 :: rest) /\
    same_request cfg cfg1 /\ _retry cfg1 = false /\
    (steps rest = [] \/ steps rest = [Refreshed] \/
     steps rest = [Refreshed; sent cfg true]) /\
    (expired_401 (srv n (ViaInstance cfg1)) ->
     steps rest =
       Refreshed :: (if refresh_succeeds (srv (S n) RefreshPost)
                     then [sent cfg true] else [])).
Proof.
  intros Hretry. rewrite axiosInstance_fuel_S, exec_bind.
  destruct (exec_requestInterceptor cfg s n) as (cfg1 & s1 & -> & Hurl & Hr).
  rewrite Hretry in Hr.
  cbn [length shift_log exec]. rewrite Nat.add_0_r.
  destruct (srv n (ViaInstance cfg1)) as [resp|] eqn:Hreply; cbn [settle].
  - destruct ((200 <=? status resp) && (status resp <? 300)) eqn:H2xx.
    + destruct (exec_onFulfilled resp (env n s1) (S n)) as (s' & ->).
      cbn. do 5 eexists. split; [reflexivity|].
      split; [exact Hurl|]. split; [exact Hr|]. split; [auto|].
      intros (r0 & text & E & Hst & _). rewrite Hreply in E. injection E as <-.
      rewrite Hst in H2xx. discriminate.
    + destruct (exec_onRejected_first fuel
                  ("Request failed with status code " ++ string_of_Z (status resp))
                  cfg1 (Some resp) (env n s1) (S n) Hr)
        as (r & s' & rest & -> & Hshape & Hexp).
      cbn. do 5 eexists. split; [reflexivity|].
      rewrite <- (sent_same _ _ true Hurl).
      split; [exact Hurl|]. split; [exact Hr|]. split; [exact Hshape|].
      intros (r0 & text & E & Hst & Htext & Hnone).
      rewrite Hreply in E. injection E as <-.
      eapply Hexp; eauto.
  - destruct (exec_onRejected_first fuel "Network Error"
                cfg1 None (env n s1) (S n) Hr)
      as (r & s' & rest & -> & Hshape & Hexp).
    cbn. do 5 eexists. split; [reflexivity|].
    rewrite <- (sent_same _ _ true Hurl).
    split; [exact Hurl|]. split; [exact Hr|]. split; [exact Hshape|].
    intros (r0 & text & E & _). rewrite Hreply in E. discriminate.
Qed.

(** ** Two levels of replay budget are enough *)

Lemma exec_replay_fuel (fuel : nat) (cfg : Config) (s : State) (n : nat) :
  _retry cfg = true ->
  exec srv env (axiosInstance_fuel ToString (S fuel) cfg) s n
  = exec srv env (axiosInstance_fuel ToString 1 cfg) s n.
Proof.
  intros Hretry. rewrite !axiosInstance_fuel_S, !exec_bind.
  destruct (exec_requestInterceptor cfg s n) as (cfg1 & s1 & -> & Hurl & Hr).
  cbn [length shift_log exec]. rewrite Hretry in Hr.
  destruct (settle cfg1 (srv (n + 0)%nat (ViaInstance cfg1))) as [resp|err] eqn:Hs.
  - reflexivity.
  - apply settle_retried in Hs. rewrite Hr in Hs.
    now rewrite !exec_onRejected_retried.
Qed.

Lemma exec_onRejected_ext (self1 self2 : Config -> Task Response) (error : exn)
      (s : State) (n : nat) :
  (forall cfg s0 k, _retry cfg = true ->
                    exec srv env (self1 cfg) s0 k = exec srv env (self2 cfg) s0 k) ->
  exec srv env (onRejected ToString self1 error) s n
  = exec srv env (onRejected ToString self2 error) s n.
Proof.
  intros Hself. unfold onRejected.
  destruct error as [msg cfg [resp|]|msg]; try reflexivity.
  destruct ((status resp =? 401) && negb (_retry cfg)); try reflexivity.
  rewrite !exec_bind.
  destruct (exec srv env (lift (includes_any includes
              (js_or (prop "error" (data resp)) (JStr "")) noTokenMarkers)) s n)
    as [[[[[|]|e] s1] l1]|]; try reflexivity.
  cbn [negb]. rewrite !exec_bind.
  match goal with
  | |- context [exec srv env (try_catch ?t ?h) ?s0 ?k] =>
      destruct (exec srv env (try_catch t h) s0 k) as [[[[[|]|e] s2] l2]|]
  end; try reflexivity.
  now rewrite Hself.
Qed.

(** More budget than the two levels of [axiosInstance] changes nothing:
    a request has the same outcome, state and log. *)
Lemma axiosInstance_fuel_enough (fuel : nat) (cfg : Config) (s : State) (n : nat) :
  exec srv env (axiosInstance_fuel ToString (S (S fuel)) cfg) s n
  = exec srv env (axiosInstance ToString cfg) s n.
Proof.
  unfold axiosInstance. rewrite !axiosInstance_fuel_S, !exec_bind.
  destruct (exec_requestInterceptor cfg s n) as (cfg1 & s1 & -> & _).
  cbn [length shift_log exec].
  destruct (settle cfg1 (srv (n + 0)%nat (ViaInstance cfg1))) as [resp|err];
    [reflexivity|].
  rewrite (exec_onRejected_ext (axiosInstance_fuel ToString (S fuel))
                               (axiosInstance_fuel ToString 1)); [reflexivity|].
  intros c s0 k Hc. now apply exec_replay_fuel.
Qed.

End Dispatcher.

(** C2: every execution of a request that is not itself a replay is the
    request, followed by nothing, or by one refresh attempt, or by one
    refresh attempt and one replay of the same request (same URL, method
    and body, marked as a retry): never a second
    replay, and never a second refresh, whatever the replay gets back (a
    401 included).  When the first answer is a 401 whose error text shows
    no no-token/not-authenticated marker, there is exactly one refresh
    attempt, and it is followed by exactly one replay if the refresh
    succeeded and by none otherwise. *)
Theorem refresh_once_replay_once :
  forall (ToString : json -> string) (srv : Server) (env : Interference)
         (cfg : Config) (s : State) (n : nat),
    _retry cfg = false ->
    exists r s' cfg1 s1 rest,
      exec srv env (axiosInstance ToString cfg) s n
      = Some (r, s', EvNet (ViaInstance cfg1) s1 :: rest) /\
      same_request cfg cfg1 /\ _retry cfg1 = false /\
      (steps rest = [] \/ steps rest = [Refreshed] \/
       steps rest = [Refreshed; sent cfg true]) /\
      (expired_401 (srv n (ViaInstance cfg1)) ->
       steps rest =
         Refreshed :: (if refresh_succeeds (srv (S n) RefreshPost)
                       then [sent cfg true] else [])).
Proof.
  intros ToString srv env cfg s n Hretry.
  exact (exec_axiosInstance_fuel ToString srv env 0 cfg s n Hretry).
Qed.

Section Layouts.

Variable ToString : json -> string.
Variable srv : Server.
Variable env : Interference.

Lemma exec_srv_ext {A : Type} (t : Task A) :
  forall (srv1 srv2 : Server) (s : State) (n : nat),
    (forall k c, (n <= k)%nat -> srv1 k c = srv2 k c) ->
    exec srv1 env t s n = exec srv2 env t s n.
Proof.
  induction t as [a|e| |k IH|s0 k IH|c k IH|ms k IH]; intros srv1 srv2 s n H;
    cbn; auto.
  - rewrite (H n c (le_n n)).
    rewrite (IH (srv2 n c) srv1 srv2 (env n s) (S n)); [reflexivity|].
    intros k' c' Hk. apply H. lia.
  - rewrite (IH srv1 srv2 (env n s) (S n)); [reflexivity|].
    intros k' c' Hk. apply H. lia.
Qed.

Lemma exec_silent {A : Type} (t : Task A) :
  silent t ->
  forall (srv1 srv2 : Server) (s : State) (n1 n2 : nat),
    exec srv1 env t s n1 = exec srv2 env t s n2.
Proof.
  induction t as [a|e| |k IH|s0 k IH|c k IH|ms k IH]; cbn; intros H; auto;
    contradiction.
Qed.

Lemma silent_requestInterceptor (cfg : Config) :
  silent (requestInterceptor ToString cfg).
Proof.
  unfold requestInterceptor, getAccessToken. cbn. intros s.
  destruct (truthy (accessToken s)); cbn; auto.
  destruct (window s) as [[tok|]|]; cbn; auto.
  destruct (negb (tok =? "")%string); cbn; auto.
Qed.

Lemma storeToken_twice (token : json) (s : State) :
  storeToken ToString token (storeToken ToString token s)
  = storeToken ToString token s.
Proof.
  unfold storeToken. destruct s as [u l c li su a [w|]]; cbn;
    destruct (truthy token); reflexivity.
Qed.

Lemma exec_storeTokens_state (srv0 : Server) (tokens : json) (s : State) (n : nat) :
  exec srv0 env (storeTokens ToString tokens) s n
  = Some (inl tt, tokensStored ToString tokens s, []).
Proof.
  unfold storeTokens, tokensStored, setAccessToken.
  destruct (truthy (prop "accessToken" tokens)); reflexivity.
Qed.

Lemma exec_onFulfilled_state (srv0 : Server) (response : Response)
      (s : State) (n : nat) :
  exec srv0 env (onFulfilled ToString response) s n
  = Some (inl response,
          (if truthy (extractToken (data response))
           then storeToken ToString (extractToken (data response)) s else s),
          []).
Proof.
  unfold onFulfilled, setAccessToken.
  destruct (truthy (extractToken (data response))); reflexivity.
Qed.

(** [login] finds the same canonical user under the three layouts and
    stores the same access token. *)
Lemma login_locate_layouts (srv0 : Server) (u : UserFields) (tokens : json)
      (s : State) (n : nat) :
  truthy (f_email u) = true -> truthy (f_username u) = true ->
  truthy tokens = true ->
  let found := Some (inl (Some (canonicalOf u,
                                authSuccess (canonicalOf u) tokens)),
                     tokensStored ToString tokens s, []) in
  exec srv0 env (login_locate ToString (layoutTop u tokens)) s n = found /\
  exec srv0 env (login_locate ToString (layoutFlat u tokens)) s n = found /\
  exec srv0 env (login_locate ToString (layoutUnderData u tokens)) s n = found.
Proof.
  intros He Hu Ht. cbv zeta.
  unfold login_locate, locateUser.
  repeat split.
  - cbn [layoutTop prop assoc String.eqb Ascii.eqb Bool.eqb fieldList truthy
           is_object andb].
    rewrite exec_bind, exec_storeTokens_state. reflexivity.
  - cbn [layoutFlat prop assoc String.eqb Ascii.eqb Bool.eqb fieldList truthy
           is_object andb app].
    unfold js_and. rewrite He, Hu.
    rewrite exec_bind, exec_storeTokens_state. reflexivity.
  - cbn [layoutUnderData prop assoc String.eqb Ascii.eqb Bool.eqb fieldList
           truthy is_object andb js_and].
    assert (Hor : js_or tokens JUndef = tokens) by (unfold js_or; now rewrite Ht).
    rewrite !Hor, exec_bind, exec_storeTokens_state. reflexivity.
Qed.

(** [signup] does so under the first two layouts only: under the third
    it finds no user and touches nothing. *)
Lemma signup_locate_layouts (srv0 : Server) (u : UserFields) (tokens : json)
      (s : State) (n : nat) :
  truthy (f_email u) = true -> truthy (f_username u) = true ->
  let found := Some (inl (Some (canonicalOf u,
                                authSuccess (canonicalOf u) tokens)),
                     tokensStored ToString tokens s, []) in
  exec srv0 env (signup_locate ToString (layoutTop u tokens)) s n = found /\
  exec srv0 env (signup_locate ToString (layoutFlat u tokens)) s n = found /\
  exec srv0 env (signup_locate ToString (layoutUnderData u tokens)) s n
  = Some (inl None, s, []).
Proof.
  intros He Hu. cbv zeta.
  unfold signup_locate, locateUser.
  repeat split.
  - cbn [layoutTop prop assoc String.eqb Ascii.eqb Bool.eqb fieldList truthy
           is_object andb].
    rewrite exec_bind, exec_storeTokens_state. reflexivity.
  - cbn [layoutFlat prop assoc String.eqb Ascii.eqb Bool.eqb fieldList truthy
           is_object andb app].
    unfold js_and. rewrite He, Hu.
    rewrite exec_bind, exec_storeTokens_state. reflexivity.
Qed.

(** [apiClient.post] when the request is answered 200 with [body]: one
    suspension, [body] is returned, and the response interceptor has
    stored the token it found in [body], if any. *)
Lemma exec_apiClient_post_answered (u : string) (b : json) (s : State) (n : nat) :
  exists cfg1 s1,
    forall body,
      exec (answering n body srv) env (apiClient_post ToString u b) s n
      = Some (inl body,
              (if truthy (extractToken body)
               then storeToken ToString (extractToken body) (env n s1)
               else env n s1),
              [EvNet (ViaInstance cfg1) s1]).
Proof.
  destruct (exec_requestInterceptor ToString srv env
              (mkConfig u "post" b false None) s n) as (cfg1 & s1 & E & _).
  exists cfg1, s1. intros body.
  unfold apiClient_post, axiosInstance.
  rewrite exec_try_catch, exec_bind, axiosInstance_fuel_S, exec_bind.
  rewrite (exec_silent _ (silent_requestInterceptor _) _ srv s n n), E.
  cbn [length shift_log exec]. rewrite Nat.add_0_r.
  replace (answering n body srv n (ViaInstance cfg1)) with (ok body)
    by (unfold answering; now rewrite Nat.eqb_refl).
  change (settle cfg1 (ok body)) with (@inl Response exn (mkResponse 200 "OK" body)).
  cbv iota. rewrite exec_onFulfilled_state. reflexivity.
Qed.

Lemma extractToken_layouts (u : UserFields) (tokens : json) :
  truthy tokens = true ->
  let tok := prop "accessToken" tokens in
  extractToken (successBody (layoutTop u tokens))
  = (if truthy tok then tok else JUndef) /\
  extractToken (successBody (layoutFlat u tokens))
  = (if truthy tok then tok else JUndef) /\
  extractToken (successBody (layoutUnderData u tokens)) = JUndef.
Proof.
  intros Ht tok. unfold extractToken, successBody, layoutTop, layoutFlat,
    layoutUnderData, fieldList.
  cbn [prop assoc String.eqb Ascii.eqb Bool.eqb app].
  fold tok. unfold js_or, js_and. cbn [truthy].
  destruct (truthy tok) eqn:Htok; rewrite ?Htok; cbn; rewrite ?Htok; auto.
Qed.

Lemma exec_checkAuth_total (srv0 : Server) (s : State) (n : nat) :
  exists s' log, exec srv0 env (checkAuth ToString) s n = Some (inl tt, s', log).
Proof.
  assert (Hwp : wp (fun _ _ => True) (fun _ => True) (checkAuth ToString)
                   (fun r _ => r = inl tt) s).
  { generalize (checkAuth_keeps ToString (fun _ _ => True) (fun _ => True)
                  (fun _ _ _ H => H) (fun _ _ H => H) (fun _ _ H => H)
                  (fun _ _ H => H) (fun _ _ H => H) (fun _ _ H => H) s Logic.I).
    apply wp_mono. intros r s1 [_ H]. exact H. }
  destruct (wp_exec _ _ srv0 env _ _ (fun _ _ => Logic.I) s n Hwp)
    as (r & s' & log & E & -> & _).
  eauto.
Qed.

(** [login] on a success answer with such a payload: the outcome, the
    final state and the log depend on the payload through [userData] and
    [tokens] only; the answer returned is the locally parsed one; and
    when the call sleeps before confirming, the user is set and the token
    stored. *)
Lemma login_answered (userData tokens : json) (email password : string)
      (s : State) (n : nat) :
  isLoggingIn s = false ->
  exists s' ev1 st rest,
    (forall payload,
        located ToString env payload userData tokens ->
        exec (answering n (successBody payload) srv) env
             (login ToString email password) s n
        = Some (inl (authSuccess userData tokens), s',
                ev1 :: EvSleep 200 st :: rest)) /\
    user st = userData /\
    (truthy (prop "accessToken" tokens) = true ->
     accessToken st = prop "accessToken" tokens).
Proof.
  intros Hs.
  destruct (exec_apiClient_post_answered "/api/auth/login"
              (JObj [("email", JStr email); ("password", JStr password)])
              (with_isLoading true (with_isLoggingIn true s)) n)
    as (cfg1 & s1 & Hpost).
  set (s4 := with_user userData (tokensStored ToString tokens (env n s1))).
  destruct (exec_checkAuth_total srv (env (S n) s4) (S (S n)))
    as (s6 & log6 & Echeck).
  exists (with_isLoggingIn false (with_isLoading false s6)),
         (EvNet (ViaInstance cfg1) s1), s4, log6.
  split; [|split].
  - intros payload (Htruthy & Hlocate & Hstore).
    unfold login. cbn [exec]. rewrite Hs.
    rewrite exec_finally, exec_try_catch.
    cbn [bind modify setIsLoading exec]. rewrite exec_bind, Hpost.
    cbn [length shift_log Nat.add].
    unfold login_handle. rewrite exec_bind.
    cbn [successBody get prop assoc String.eqb Ascii.eqb Bool.eqb lift exec
           truthy length shift_log].
    rewrite Htruthy, exec_bind, Hlocate, Hstore.
    cbn [length shift_log]. unfold establish.
    cbn [bind modify setUser exec]. fold s4.
    rewrite !Nat.add_0_r, Nat.add_1_r.
    rewrite exec_bind.
    rewrite (exec_srv_ext _ (answering n (successBody payload) srv) srv
               (env (S n) s4) (S (S n))).
    2:{ intros k c Hk. unfold answering.
        destruct (Nat.eqb_spec k n); [lia|reflexivity]. }
    rewrite Echeck. cbn. now rewrite !app_nil_r.
  - reflexivity.
  - intros Htok. unfold s4, tokensStored. rewrite Htok.
    unfold storeToken. cbn. destruct (window (env n s1)); cbn;
      rewrite ?Htok; reflexivity.
Qed.

(** The three layouts are such payloads, for the same canonical user and
    the same tokens. *)
Lemma layouts_located (u : UserFields) (tokens : json) :
  truthy (f_email u) = true -> truthy (f_username u) = true ->
  truthy tokens = true ->
  located ToString env (layoutTop u tokens) (canonicalOf u) tokens /\
  located ToString env (layoutFlat u tokens) (canonicalOf u) tokens /\
  located ToString env (layoutUnderData u tokens) (canonicalOf u) tokens.
Proof.
  intros He Hu Ht.
  destruct (extractToken_layouts u tokens Ht) as (E1 & E2 & E3).
  assert (Hstore : forall st,
    tokensStored ToString tokens
      (if truthy (if truthy (prop "accessToken" tokens)
                  then prop "accessToken" tokens else JUndef)
       then storeToken ToString
              (if truthy (prop "accessToken" tokens)
               then prop "accessToken" tokens else JUndef) st
       else st)
    = tokensStored ToString tokens st).
  { intros st. unfold tokensStored.
    destruct (truthy (prop "accessToken" tokens)) eqn:Htok; rewrite ?Htok;
      [apply storeToken_twice|reflexivity]. }
  assert (Hloc := fun srv0 st k =>
            login_locate_layouts srv0 u tokens st k He Hu Ht).
  cbv zeta in Hloc.
  split; [|split]; (split; [reflexivity|split]).
  - intros srv0 st k. apply (proj1 (Hloc srv0 st k)).
  - intros st. rewrite E1. apply Hstore.
  - intros srv0 st k. apply (proj1 (proj2 (Hloc srv0 st k))).
  - intros st. rewrite E2. apply Hstore.
  - intros srv0 st k. apply (proj2 (proj2 (Hloc srv0 st k))).
  - intros st. rewrite E3. reflexivity.
Qed.

(** X12: [login] treats the three layouts alike: against the same server
    otherwise, it returns the same answer, ends in the same state and
    leaves the same log; the answer is the canonical user with the tokens,
    and user and token are in place before the confirming check. *)
Lemma login_layouts_agree (u : UserFields) (tokens : json)
      (email password : string) (s : State) (n : nat) :
  truthy (f_email u) = true -> truthy (f_username u) = true ->
  truthy tokens = true ->
  isLoggingIn s = false ->
  exists s' ev1 st rest,
    (forall payload,
        In payload [layoutTop u tokens; layoutFlat u tokens;
                    layoutUnderData u tokens] ->
        exec (answering n (successBody payload) srv) env
             (login ToString email password) s n
        = Some (inl (authSuccess (canonicalOf u) tokens), s',
                ev1 :: EvSleep 200 st :: rest)) /\
    user st = canonicalOf u /\
    (truthy (prop "accessToken" tokens) = true ->
     accessToken st = prop "accessToken" tokens).
Proof.
  intros He Hu Ht Hs.
  destruct (login_answered (canonicalOf u) tokens email password s n Hs)
    as (s' & ev1 & st & rest & Hrun & Huser & Htok).
  destruct (layouts_located u tokens He Hu Ht) as (L1 & L2 & L3).
  exists s', ev1, st, rest. split; [|auto].
  intros payload [<-|[<-|[<-|[]]]]; apply Hrun; assumption.
Qed.

End Layouts.

(* ================================================================== *)
(** * Theorems on timestamps and validation *)
(* ================================================================== *)

Lemma assoc_set_field (k : string) (v : json) (l : list (string * json)) :
  assoc k (set_field k v l) = v.
Proof.
  induction l as [|[k' v'] l IH]; cbn.
  - now rewrite String.eqb_refl.
  - destruct (String.eqb k k') eqn:E; cbn.
    + now rewrite String.eqb_refl.
    + now rewrite E.
Qed.

Lemma assoc_set_field_other (k k' : string) (v : json) (l : list (string * json)) :
  k <> k' -> assoc k (set_field k' v l) = assoc k l.
Proof.
  intros Hk. induction l as [|[k0 v0] l IH]; cbn.
  - destruct (String.eqb_spec k k'); [contradiction|reflexivity].
  - destruct (String.eqb_spec k' k0) as [->|Hk0]; cbn.
    + destruct (String.eqb_spec k k0); [contradiction|reflexivity].
    + destruct (String.eqb_spec k k0); [reflexivity|exact IH].
Qed.

Lemma length_loadedMessages (Date_parse : string -> option Z) (clock : nat -> Z)
      (msgs : list (list (string * json))) :
  forall i, length (loadedMessages Date_parse clock i msgs) = length msgs.
Proof.
  induction msgs as [|msg rest IH]; intros i; cbn; [reflexivity|].
  now rewrite IH.
Qed.

(** Entry [k] of the loaded history is entry [k] of the answer, mapped
    at its own time. *)
Lemma nth_error_loadedMessages (Date_parse : string -> option Z) (clock : nat -> Z)
      (msgs : list (list (string * json))) :
  forall i k,
    nth_error (loadedMessages Date_parse clock i msgs) k
    = option_map (fun msg => loadedMessage Date_parse msg (clock (i + k)%nat))
                 (nth_error msgs k).
Proof.
  induction msgs as [|msg rest IH]; intros i k.
  - now destruct k.
  - destruct k as [|k]; cbn [loadedMessages nth_error option_map].
    + now rewrite Nat.add_0_r.
    + rewrite IH. now rewrite Nat.add_succ_comm.
Qed.

(** C8: the numeric timestamps 1700000000 (seconds) and 1700000000000
    (milliseconds) are normalised to the same instant; a value that does
    not yield a valid instant (missing, of an unrecognised type, or an
    invalid date) is replaced by the current time; and no entry is
    dropped: each one comes out with a valid date as its [timestamp].

    This is so for the entries of the history, not only for the values:
    every entry comes out with the normalised [createdAt || timestamp]
    as its [timestamp] and with its other fields as they were; an entry
    dated 1700000000 or 1700000000000 gets the instant 1700000000000;
    an entry whose date is missing or invalid gets the current time;
    and entry [k] of the result is entry [k] of the answer, so
    normalised. *)
Theorem timestamps_normalised :
  forall Date_parse : string -> option Z,
    (forall now now',
        validTimestamp Date_parse (JNum (inject_Z 1700000000)) now = 1700000000000
        /\ validTimestamp Date_parse (JNum (inject_Z 1700000000000)) now'
           = 1700000000000
        /\ assoc "timestamp"
                 (loadedMessage Date_parse
                    [("timestamp", JNum (inject_Z 1700000000))] now)
           = assoc "timestamp"
                   (loadedMessage Date_parse
                      [("timestamp", JNum (inject_Z 1700000000000))] now'))
    /\ (forall dateValue now,
           firstDate Date_parse dateValue now = None ->
           validTimestamp Date_parse dateValue now = now)
    /\ (forall now b items fields,
           validTimestamp Date_parse JUndef now = now
           /\ validTimestamp Date_parse JNull now = now
           /\ validTimestamp Date_parse (JBool b) now = now
           /\ validTimestamp Date_parse (JArr items) now = now
           /\ validTimestamp Date_parse (JObj fields) now = now
           /\ validTimestamp Date_parse (JDate None) now = now)
    /\ (forall msg now,
           exists t,
             assoc "timestamp" (loadedMessage Date_parse msg now) = JDate (Some t))
    /\ (forall clock i msgs,
           length (loadedMessages Date_parse clock i msgs) = length msgs)
    /\ (forall msg now,
           assoc "timestamp" (loadedMessage Date_parse msg now)
           = JDate (Some (validTimestamp Date_parse
                            (js_or (assoc "createdAt" msg) (assoc "timestamp" msg))
                            now))
           /\ forall k, k <> "timestamp" ->
                        assoc k (loadedMessage Date_parse msg now) = assoc k msg)
    /\ (forall msg now,
           js_or (assoc "createdAt" msg) (assoc "timestamp" msg)
           = JNum (inject_Z 1700000000) \/
           js_or (assoc "createdAt" msg) (assoc "timestamp" msg)
           = JNum (inject_Z 1700000000000) ->
           assoc "timestamp" (loadedMessage Date_parse msg now)
           = JDate (Some 1700000000000))
    /\ (forall msg now,
           firstDate Date_parse
                     (js_or (assoc "createdAt" msg) (assoc "timestamp" msg)) now
           = None ->
           assoc "timestamp" (loadedMessage Date_parse msg now) = JDate (Some now))
    /\ (forall clock i msgs k,
           nth_error (loadedMessages Date_parse clock i msgs) k
           = option_map (fun msg => loadedMessage Date_parse msg (clock (i + k)%nat))
                        (nth_error msgs k)).
Proof.
  intros Date_parse.
  assert (Hentry : forall msg now,
             assoc "timestamp" (loadedMessage Date_parse msg now)
             = JDate (Some (validTimestamp Date_parse
                              (js_or (assoc "createdAt" msg) (assoc "timestamp" msg))
                              now))).
  { intros msg now. unfold loadedMessage. apply assoc_set_field. }
  split; [intros now now'; repeat split|].
  split; [unfold validTimestamp; intros dateValue now ->; reflexivity|].
  split; [intros now b items fields; repeat split|].
  split; [intros msg now; rewrite Hentry; eauto|].
  split; [intros clock i msgs; apply length_loadedMessages|].
  split.
  { intros msg now. split; [apply Hentry|].
    intros k Hk. unfold loadedMessage. now apply assoc_set_field_other. }
  split.
  { intros msg now [E|E]; rewrite Hentry, E; reflexivity. }
  split.
  { intros msg now E. rewrite Hentry. unfold validTimestamp. now rewrite E. }
  intros clock i msgs k. apply nth_error_loadedMessages.
Qed.

(** The history of four entries, loaded at the times 42, 43, 44 and 45:
    the two numeric dates come out as the same instant, the missing and
    the unparsable one as the time of loading, and the other fields are
    kept.  An unparsable string and a number beyond the range of dates
    are no valid instants. *)
Lemma timestamps_normalised_witness :
  firstDate (fun _ => None) (JStr "soon") 42 = None /\
  validTimestamp (fun _ => None) (JStr "soon") 42 = 42 /\
  firstDate (fun _ => None) (JNum (inject_Z 9000000000000000)) 42 = None /\
  validTimestamp (fun _ => None) (JNum (inject_Z 9000000000000000)) 42 = 42 /\
  map (assoc "timestamp")
      (loadedMessages (fun _ => None) (fun i => 42 + Z.of_nat i) 0 history)
  = [JDate (Some 1700000000000); JDate (Some 1700000000000);
     JDate (Some 44); JDate (Some 45)] /\
  map (assoc "content")
      (loadedMessages (fun _ => None) (fun i => 42 + Z.of_nat i) 0 history)
  = [JStr "hi"; JStr "hello"; JStr "more"; JStr "sure"] /\
  nth_error (loadedMessages (fun _ => None) (fun i => 42 + Z.of_nat i) 0 history) 3
  = Some (loadedMessage (fun _ => None)
            [("role", JStr "assistant"); ("content", JStr "sure");
             ("timestamp", JStr "soon")] 45).
Proof.
  pose proof (timestamps_normalised (fun _ => None))
    as (_ & H & _ & _ & _ & _ & _ & _ & Hnth).
  split; [reflexivity|]. split; [apply H; reflexivity|].
  split; [reflexivity|]. split; [apply H; reflexivity|].
  split; [reflexivity|]. split; [reflexivity|].
  rewrite Hnth. reflexivity.
Defined.

Import Sync.

Lemma app_nil_inv {A : Type} (l1 l2 : list A) :
  (l1 ++ l2)%list = [] -> l1 = [] /\ l2 = [].
Proof. destruct l1; cbn; [auto|discriminate]. Qed.

(** C9, as amended: validation succeeds only when exactly one of
    [username] (after [anilistUsername] has stood in for a missing
    [username]) and [userId] is provided.  For an input whose fields pass
    their own rules: with both set it is rejected with the message
    "Cannot provide both username and userId", with neither set it is
    rejected with the message "Either username or userId must be provided
    to sync a public profile", and in both cases the route answers 400
    with that message without reaching the part that calls the network. *)
Theorem sync_validation_exactly_one :
  forall input : Input,
    (forall value,
        syncRequestSchema input = Success value ->
        value = transform input /\
        xorb (str_truthy (username value)) (num_truthy (userId value)) = true)
    /\
    (fieldIssues input = [] ->
     (str_truthy (username (transform input)) = true ->
      num_truthy (userId input) = true ->
      syncRequestSchema input
      = Failure [mkIssue "Cannot provide both username and userId" ["userId"]]
      /\ forall fetchAndAnswer,
          POST fetchAndAnswer input
          = Ret (400, failure (JStr "Cannot provide both username and userId")))
     /\
     (str_truthy (username (transform input)) = false ->
      num_truthy (userId input) = false ->
      syncRequestSchema input
      = Failure [mkIssue
                   "Either username or userId must be provided to sync a public profile"
                   ["username"]]
      /\ forall fetchAndAnswer,
          POST fetchAndAnswer input
          = Ret (400, failure (JStr
                   "Either username or userId must be provided to sync a public profile")))
     /\
     (xorb (str_truthy (username (transform input))) (num_truthy (userId input)) = true ->
      syncRequestSchema input = Success (transform input))).
Proof.
  intros input.
  assert (Hid : userId (transform input) = userId input).
  { unfold transform. case_if; reflexivity. }
  split.
  - intros value. unfold syncRequestSchema.
    destruct (fieldIssues input) as [|i base] eqn:Hbase; cbn [app];
      [|discriminate].
    unfold notBoth, atLeastOne. rewrite Hid.
    destruct (str_truthy (username (transform input))) eqn:Hu,
             (num_truthy (userId input)) eqn:Hn; cbn; try discriminate;
      intros E; injection E as <-; rewrite Hid, Hu, Hn; auto.
  - intros Hbase. unfold POST, syncRequestSchema. rewrite Hbase. cbn [app].
    unfold notBoth, atLeastOne. rewrite Hid.
    split; [|split].
    + intros Hu Hn. rewrite Hu, Hn. cbn. auto.
    + intros Hu Hn. rewrite Hu, Hn. cbn. auto.
    + destruct (str_truthy (username (transform input))),
               (num_truthy (userId input)); cbn; auto; discriminate.
Qed.

(** A request with both, and one with neither. *)
Lemma sync_validation_exactly_one_witness :
  fieldIssues bothInput = [] /\
  str_truthy (username (transform bothInput)) = true /\
  num_truthy (userId bothInput) = true /\
  syncRequestSchema bothInput
  = Failure [mkIssue "Cannot provide both username and userId" ["userId"]] /\
  fieldIssues neitherInput = [] /\
  syncRequestSchema neitherInput
  = Failure [mkIssue
               "Either username or userId must be provided to sync a public profile"
               ["username"]].
Proof.
  split; [reflexivity|]. split; [reflexivity|]. split; [reflexivity|].
  split.
  - apply (proj2 (sync_validation_exactly_one bothInput)); reflexivity.
  - split; [reflexivity|].
    apply (proj2 (sync_validation_exactly_one neitherInput)); reflexivity.
Defined.

(** C9, as stated, fails on the message for an input with neither field:
    the schema does not answer "Either username or userId must be
    provided." *)
Lemma sync_neither_message_is_longer :
  exists issues,
    syncRequestSchema neitherInput = Failure issues /\
    ~ In "Either username or userId must be provided." (map message issues).
Proof.
  eexists. split; [reflexivity|].
  cbn. intros [H|[]]. discriminate H.
Qed.

(* ================================================================== *)
(** * Worked executions *)
(* ================================================================== *)

(** C1: on the success response that nests user and tokens one level
    under [data], [login] extracts the canonical user and stores the access
    token, while [signup] fails with "Signup failed - no user data
    received", sets no user and stores no token: its code has no third
    case. *)
Theorem signup_misses_layout_under_data :
  (exists s' log,
      exec underDataServer alone
           (login exampleToString "alice@example.com" "Passw0rd") initialState 0
      = Some (inl (authSuccess (canonicalOf aliceU) aliceTokens), s', log) /\
      user s' = canonicalOf aliceU /\
      accessToken s' = JStr "access-1" /\ sessionItem s' = Some "access-1")
  /\
  (exists s' log,
      exec underDataServer alone
           (signup exampleToString "alice@example.com" "alice" "Passw0rd")
           initialState 0
      = Some (inl (failure (JStr "Signup failed - no user data received")), s', log) /\
      user s' = JNull /\ accessToken s' = JNull /\ sessionItem s' = None).
Proof.
  split; do 2 eexists; (split; [vm_compute; reflexivity|]); repeat split.
Qed.

(** A 401 "jwt expired", a refresh that succeeds, and a replay that is
    answered 401 again: one refresh, one replay, nothing more. *)
Lemma refresh_once_replay_once_witness :
  _retry historyRequest = false /\
  exists r s' cfg1 s1 rest,
    exec expiredThenRefreshed alone (axiosInstance exampleToString historyRequest)
         signedIn 0
    = Some (r, s', EvNet (ViaInstance cfg1) s1 :: rest) /\
    expired_401 (expiredThenRefreshed 0%nat (ViaInstance cfg1)) /\
    refresh_succeeds (expiredThenRefreshed 1%nat RefreshPost) = true /\
    steps rest = [Refreshed; Sent "/api/chat/history" "get" JUndef true].
Proof.
  split; [reflexivity|].
  destruct (refresh_once_replay_once exampleToString expiredThenRefreshed alone
              historyRequest signedIn 0 eq_refl)
    as (r & s' & cfg1 & s1 & rest & E & _ & _ & _ & H).
  assert (Hexp : expired_401 (expiredThenRefreshed 0%nat (ViaInstance cfg1))).
  { eexists _, "jwt expired". split; [reflexivity|]. split; [reflexivity|].
    split; [reflexivity|].
    intros m [<-|[<-|[<-|[<-|[]]]]]; reflexivity. }
  exists r, s', cfg1, s1, rest.
  split; [exact E|]. split; [exact Hexp|]. split; [reflexivity|].
  exact (H Hexp).
Defined.

(** The overlap itself: the first [login] is suspended three times (its
    request, the 200 ms delay, the confirming "who am I" request); a
    second [login] made at the first of them is turned away with no
    network call. *)
Lemma login_overlap_example :
  exists v s' ev1 ev2 ev3,
    exec underDataServer alone
         (login exampleToString "alice@example.com" "Passw0rd") initialState 0
    = Some (inl v, s', [ev1; ev2; ev3]) /\
    steps [ev1; ev2; ev3]
    = [Sent "/api/auth/login" "post"
            (JObj [("email", JStr "alice@example.com");
                   ("password", JStr "Passw0rd")]) false;
       Slept;
       Sent "/api/auth/me" "get" JUndef false] /\
    isLoggingIn (snapshot ev1) = true /\
    exec underDataServer alone
         (login exampleToString "bob@example.com" "Passw0rd") (snapshot ev1) 1
    = Some (inl (failure (JStr "Login already in progress")), snapshot ev1, []).
Proof.
  do 5 eexists. split; [vm_compute; reflexivity|].
  split; [reflexivity|]. split; reflexivity.
Qed.

(** [checkAuth] on a fresh provider. *)
Lemma checkAuth_sets_user_only_on_success_witness :
  isCheckingAuth initialState = false /\
  exists r s1 log1 s' log,
    exec meServer alone (apiClient_get exampleToString "/api/auth/me")
         (with_isLoading true (with_isCheckingAuth true initialState)) 0
    = Some (r, s1, log1) /\
    exec meServer alone (checkAuth exampleToString) initialState 0
    = Some (inl tt, s', log) /\
    user s' =
      match r with
      | inl response =>
          if is_true (prop "success" response)
             && truthy (prop "user" (prop "data" response))
          then prop "user" (prop "data" response)
          else JNull
      | inr _ => JNull
      end.
Proof.
  split; [reflexivity|].
  apply (checkAuth_sets_user_only_on_success exampleToString meServer alone
           initialState 0).
  reflexivity.
Defined.

(** [checkAuth] on a success answer with a user, on [success: false]
    with and without an error message, and on a dead network. *)
Lemma checkAuth_examples :
  (exists s' log,
      exec meServer alone (checkAuth exampleToString) initialState 0
      = Some (inl tt, s', log) /\ user s' = canonicalOf aliceU) /\
  (exists s' log,
      exec expiredServer alone (checkAuth exampleToString) signedIn 0
      = Some (inl tt, s', log) /\ user s' = JNull) /\
  (exists s' log,
      exec (fun _ _ => ok (JObj [("success", JBool false)])) alone
           (checkAuth exampleToString) signedIn 0
      = Some (inl tt, s', log) /\ user s' = JNull) /\
  (exists s' log,
      exec deadServer alone (checkAuth exampleToString) signedIn 0
      = Some (inl tt, s', log) /\ user s' = JNull).
Proof.
  repeat split; do 2 eexists; (split; [vm_compute; reflexivity|reflexivity]).
Qed.

(** The [catch] block of [apiClient.post] can throw: on a 401 whose
    [error] is [false], a request to a URL without "/auth/" is rejected
    with the [TypeError] of [error.response?.data?.error?.includes],
    while a request to an authentication URL, and the same request made
    with [apiClient.get], resolve to a failure envelope. *)
Lemma apiClient_post_can_throw :
  (exists s' log,
      exec falseErrorServer alone
           (apiClient_post exampleToString "/api/chat" chatRequest) signedIn 0
      = Some (inr (JsErr "error.response?.data?.error?.includes is not a function"),
              s', log)) /\
  (exists s' log,
      exec falseErrorServer alone
           (apiClient_post exampleToString "/api/auth/refresh" JUndef) signedIn 0
      = Some (inl (failure (JStr "Authentication required. Please log in.")),
              s', log)) /\
  (exists s' log,
      exec falseErrorServer alone
           (apiClient_get exampleToString "/api/chat") signedIn 0
      = Some (inl (failure (JStr "Authentication required. Please log in.")),
              s', log)).
Proof.
  repeat split; do 2 eexists; vm_compute; reflexivity.
Qed.

(** A fractional number of seconds is multiplied as a double: the double
    nearest to 1700000000.001, whose exact product with 1000 lies just
    below 1700000000001, is read as that instant. *)
Lemma fractional_seconds_are_rounded :
  (Qfloor ((3565158400002097 # 2097152) * 1000) = 1700000000000) /\
  forall Date_parse now,
    validTimestamp Date_parse (JNum (3565158400002097 # 2097152)) now
    = 1700000000001.
Proof.
  split; [reflexivity|]. intros Date_parse now. vm_compute. reflexivity.
Qed.

(* ================================================================== *)
(** * The client: tokens on requests and responses *)
(* ================================================================== *)

Section Client.

Variable ToString : json -> string.
Variable srv : Server.
Variable env : Interference.

(** The request interceptor, case by case: the header it sets and the
    state it leaves. *)
Lemma exec_requestInterceptor_token (cfg : Config) (s : State) (n : nat) :
  exists cfg1 s1,
    exec srv env (requestInterceptor ToString cfg) s n = Some (inl cfg1, s1, []) /\
    same_request cfg cfg1 /\ _retry cfg1 = _retry cfg /\
    (truthy (accessToken s) = true ->
     Authorization cfg1 = Some ("Bearer " ++ js_String ToString (accessToken s)) /\
     s1 = s) /\
    (truthy (accessToken s) = false ->
     forall t, sessionItem s = Some t -> t <> "" ->
     Authorization cfg1 = Some ("Bearer " ++ t) /\
     s1 = with_accessToken (JStr t) s) /\
    (truthy (accessToken s) = false ->
     sessionItem s = None \/ sessionItem s = Some "" ->
     Authorization cfg1 = Authorization cfg /\ s1 = s).
Proof.
  unfold requestInterceptor, getAccessToken, sessionItem.
  cbn [bind exec].
  destruct (truthy (accessToken s)) eqn:Hmem.
  - cbn. rewrite Hmem. do 2 eexists. split; [reflexivity|].
    unfold same_request. cbn. repeat split; auto; discriminate.
  - destruct (window s) as [[tok|]|] eqn:Hw.
    + cbn [truthy]. destruct (String.eqb_spec tok "") as [->|Hne]; cbn.
      * do 2 eexists. split; [reflexivity|].
        unfold same_request.
        split; [auto|]. split; [auto|]. split; [discriminate|].
        split; [|auto].
        intros _ t E Ht. injection E as <-. contradiction.
      * destruct (String.eqb_spec tok "") as [->|_]; [contradiction|]. cbn.
        do 2 eexists. split; [reflexivity|].
        unfold same_request. cbn.
        split; [auto|]. split; [auto|]. split; [discriminate|].
        split.
        -- intros _ t E Ht. injection E as <-. auto.
        -- intros _ [E|E]; [discriminate|]. injection E as ->. contradiction.
    + cbn. do 2 eexists. split; [reflexivity|].
      unfold same_request.
      split; [auto|]. split; [auto|]. split; [discriminate|].
      split; [|auto]. intros _ t E. discriminate.
    + cbn. do 2 eexists. split; [reflexivity|].
      unfold same_request.
      split; [auto|]. split; [auto|]. split; [discriminate|].
      split; [|auto]. intros _ t E. discriminate.
Qed.

(** A request begins with the request interceptor and one call. *)
Lemma exec_axiosInstance_first (cfg cfg1 : Config) (s s1 : State) (n : nat) :
  exec srv env (requestInterceptor ToString cfg) s n = Some (inl cfg1, s1, []) ->
  exists r s' rest,
    exec srv env (axiosInstance ToString cfg) s n
    = Some (r, s', EvNet (ViaInstance cfg1) s1 :: rest).
Proof.
  intros Hreq.
  assert (Hwp : wp anything any_event (axiosInstance ToString cfg)
                   (fun _ _ => True) s).
  { apply (axiosInstance_keeps ToString anything (fun _ => True)); auto. }
  destruct (wp_exec anything any_event srv env (axiosInstance ToString cfg)
              (fun _ _ => True) (fun _ _ => I) s n Hwp) as (r & s' & log & E & _).
  revert E. unfold axiosInstance.
  rewrite axiosInstance_fuel_S, exec_bind, Hreq. cbn [length shift_log exec].
  match goal with
  | |- context [match ?x with Some _ => _ | None => _ end] => destruct x as [[[r0 s0] l0]|]
  end; [|discriminate].
  intros _. cbn. eauto.
Qed.

End Client.

(** X1: every request made through the client begins with one call to
    the server that carries the token held at that moment.  With a token
    in memory the header is "Bearer " followed by it; with none in memory
    and a non-empty one in [sessionStorage], that one is put back into
    memory and sent; with neither, the [Authorization] header is left as
    the caller set it.  Url, method and body are those of the caller. *)
Theorem request_carries_current_token :
  forall (ToString : json -> string) (srv : Server) (env : Interference)
         (cfg : Config) (s : State) (n : nat),
  exists r s' cfg1 s1 rest,
    exec srv env (axiosInstance ToString cfg) s n
    = Some (r, s', EvNet (ViaInstance cfg1) s1 :: rest) /\
    same_request cfg cfg1 /\
    (truthy (accessToken s) = true ->
     Authorization cfg1 = Some ("Bearer " ++ js_String ToString (accessToken s)) /\
     s1 = s) /\
    (truthy (accessToken s) = false ->
     forall t, sessionItem s = Some t -> t <> "" ->
     Authorization cfg1 = Some ("Bearer " ++ t) /\
     s1 = with_accessToken (JStr t) s) /\
    (truthy (accessToken s) = false ->
     sessionItem s = None \/ sessionItem s = Some "" ->
     Authorization cfg1 = Authorization cfg /\ s1 = s).
Proof.
  intros ToString srv env cfg s n.
  destruct (exec_requestInterceptor_token ToString srv env cfg s n)
    as (cfg1 & s1 & Hreq & Hsame & _ & H1 & H2 & H3).
  destruct (exec_axiosInstance_first ToString srv env cfg cfg1 s s1 n Hreq)
    as (r & s' & rest & E).
  exists r, s', cfg1, s1, rest. auto.
Qed.

(** ** The token found in a response body *)

Lemma extractToken_find (d : json) :
  extractToken d =
  match find truthy [prop "accessToken" (prop "tokens" (prop "data" d));
                     prop "accessToken" (prop "tokens" d);
                     prop "accessToken" (prop "data" d);
                     prop "accessToken" d] with
  | Some token => token
  | None => extractToken d
  end /\
  (find truthy [prop "accessToken" (prop "tokens" (prop "data" d));
                prop "accessToken" (prop "tokens" d);
                prop "accessToken" (prop "data" d);
                prop "accessToken" d] = None ->
   truthy (extractToken d) = false).
Proof.
  unfold extractToken. cbn [find].
  set (a := prop "accessToken" (prop "tokens" (prop "data" d))).
  set (b := prop "accessToken" (prop "tokens" d)).
  set (c := prop "accessToken" (prop "data" d)).
  set (e := prop "accessToken" d).
  set (u1 := prop "user" (prop "data" d)).
  set (u2 := prop "user" d).
  unfold js_or, js_and.
  destruct (truthy a) eqn:Ha; [rewrite ?Ha; split; [reflexivity|discriminate]|].
  destruct (truthy b) eqn:Hb; [rewrite ?Hb; split; [reflexivity|discriminate]|].
  destruct (truthy c) eqn:Hc; [rewrite ?Hc; split; [reflexivity|discriminate]|].
  destruct (truthy e) eqn:He; [rewrite ?He; split; [reflexivity|discriminate]|].
  split; [reflexivity|]. intros _.
  destruct (truthy u1) eqn:Hu1; rewrite ?Ha, ?Hu1;
    destruct (truthy u2) eqn:Hu2; rewrite ?Hb, ?Hu2; reflexivity.
Qed.

Section Stores.

Variable ToString : json -> string.
Variable srv : Server.
Variable env : Interference.

Lemma exec_setAccessToken_state (token : json) (s : State) (n : nat) :
  exec srv env (setAccessToken ToString token) s n
  = Some (inl tt, storeToken ToString token s, []).
Proof. reflexivity. Qed.

(** The [if / else if] chain of the refresh handler stores the first
    truthy of the four candidates. *)
Lemma exec_storeRefreshedToken_state (d : json) (s : State) (n : nat) :
  exec srv env (storeRefreshedToken ToString d) s n
  = Some (inl tt,
          match find truthy [prop "accessToken" (prop "tokens" (prop "data" d));
                             prop "accessToken" (prop "tokens" d);
                             prop "accessToken" (prop "data" d);
                             prop "accessToken" d] with
          | Some token => storeToken ToString token s
          | None => s
          end, []).
Proof.
  unfold storeRefreshedToken. cbn [find].
  repeat match goal with
         | |- context [if truthy ?v then _ else _] =>
             destruct (truthy v); [apply exec_setAccessToken_state|]
         end.
  reflexivity.
Qed.

End Stores.

(** X5: the response interceptor and the refresh handler look for the
    new access token in the same places and store the same one: the first
    truthy of [data.tokens.accessToken], [tokens.accessToken],
    [data.accessToken] and [accessToken] of the body.  When none of these
    is truthy the token store is left as it is (the two remaining
    alternatives of [extractToken] can never deliver a token). *)
Theorem interceptors_store_same_token :
  forall (ToString : json -> string) (srv : Server) (env : Interference)
         (response : Response) (s : State) (n : nat),
    let d := data response in
    let s' := match find truthy [prop "accessToken" (prop "tokens" (prop "data" d));
                                 prop "accessToken" (prop "tokens" d);
                                 prop "accessToken" (prop "data" d);
                                 prop "accessToken" d] with
              | Some token => storeToken ToString token s
              | None => s
              end in
    exec srv env (onFulfilled ToString response) s n = Some (inl response, s', []) /\
    exec srv env (storeRefreshedToken ToString (data response)) s n
    = Some (inl tt, s', []).
Proof.
  intros ToString srv env response s n d s'. split.
  - rewrite exec_onFulfilled_state.
    destruct (extractToken_find (data response)) as [Hfind Hnone].
    subst s' d.
    destruct (find truthy _) as [token|] eqn:Hf.
    + rewrite Hfind.
      apply find_some in Hf. destruct Hf as [_ ->]. reflexivity.
    + now rewrite (Hnone eq_refl).
  - apply exec_storeRefreshedToken_state.
Qed.

Section Replay.

Variable ToString : json -> string.
Variable srv : Server.
Variable env : Interference.

(** One level of [axiosInstance]: the request, then one of the two
    response handlers. *)
Lemma exec_axiosInstance_unfold (fuel : nat) (cfg cfg1 : Config)
      (s s1 : State) (n : nat) :
  exec srv env (requestInterceptor ToString cfg) s n = Some (inl cfg1, s1, []) ->
  exec srv env (axiosInstance_fuel ToString (S fuel) cfg) s n
  = shift_log [EvNet (ViaInstance cfg1) s1]
      (match settle cfg1 (srv n (ViaInstance cfg1)) with
       | inl response =>
           exec srv env (onFulfilled ToString response) (env n s1) (S n)
       | inr error =>
           exec srv env (onRejected ToString (axiosInstance_fuel ToString fuel) error)
                (env n s1) (S n)
       end).
Proof.
  intros Hreq. rewrite axiosInstance_fuel_S, exec_bind, Hreq.
  cbn [length shift_log exec]. rewrite Nat.add_0_r.
  destruct (settle cfg1 (srv n (ViaInstance cfg1)));
    match goal with
    | |- context [match ?x with Some _ => _ | None => _ end] =>
        destruct x as [[[r0 s0] l0]|]
    end; reflexivity.
Qed.

Lemma includes_any_some (inc : json -> string -> result bool) (text : string)
      (subs : list string) (m : string) :
  (forall sub, inc (JStr text) sub = inl (str_includes sub text)) ->
  In m subs -> str_includes m text = true ->
  includes_any inc (JStr text) subs = inl true.
Proof.
  intros Hinc. induction subs as [|m' subs IH]; intros Hin Hm; [destruct Hin|].
  cbn [includes_any]. rewrite Hinc.
  destruct (str_includes m' text) eqn:Hm'; [reflexivity|].
  destruct Hin as [->|Hin]; [congruence|auto].
Qed.

Lemma includes_any_text (inc : json -> string -> result bool) (text : string)
      (subs : list string) :
  (forall sub, inc (JStr text) sub = inl (str_includes sub text)) ->
  exists b, includes_any inc (JStr text) subs = inl b.
Proof.
  intros Hinc. induction subs as [|m subs [b IH]]; cbn [includes_any]; eauto.
  rewrite Hinc. destruct (str_includes m text); eauto.
Qed.

(** A text that shows a no-token marker is not empty. *)
Lemma marker_text_not_empty (text m : string) :
  In m noTokenMarkers -> str_includes m text = true -> text <> "".
Proof.
  intros Hin Hm ->. cbn in Hin.
  destruct Hin as [<-|[<-|[<-|[<-|[]]]]]; discriminate.
Qed.

(** The rejection handler lets a 401 that shows a no-token marker
    through, with no refresh attempt. *)
Lemma exec_onRejected_noToken (self : Config -> Task Response) (msg : string)
      (cfg1 : Config) (resp : Response) (text m : string) (s : State) (n : nat) :
  prop "error" (data resp) = JStr text ->
  In m noTokenMarkers -> str_includes m text = true ->
  exec srv env (onRejected ToString self (AxiosErr msg cfg1 (Some resp))) s n
  = Some (inr (AxiosErr msg cfg1 (Some resp)), s, []).
Proof.
  intros Htext Hin Hm. unfold onRejected.
  destruct ((status resp =? 401) && negb (_retry cfg1)); [|reflexivity].
  rewrite Htext. unfold js_or. cbn [truthy].
  destruct (String.eqb_spec text "") as [E|_];
    [now apply (marker_text_not_empty text m) in E|].
  cbn [negb]. rewrite (includes_any_some includes text noTokenMarkers m); auto.
Qed.

(** The [try] block of the rejection handler, with the state it leaves. *)
Lemma exec_refresh_attempt_state (error : exn) (s : State) (n : nat) :
  exists r s',
    exec srv env
      (try_catch
         (Net RefreshPost (fun reply =>
            refreshResponse <- lift (settle refreshConfig reply) ;;
            success <- lift (get "success" (data refreshResponse)) ;;
            if truthy success then
              storeRefreshedToken ToString (data refreshResponse) ;;; Ret true
            else Ret false))
         (fun _ => Throw error)) s n
    = Some (r, s', [EvNet RefreshPost s]) /\
    (refresh_succeeds (srv n RefreshPost) = false ->
     (r = inl false \/ r = inr error) /\ s' = env n s) /\
    (forall rr,
        srv n RefreshPost = Responded rr ->
        refresh_succeeds (Responded rr) = true ->
        r = inl true /\
        exec srv env (storeRefreshedToken ToString (data rr)) (env n s) (S n)
        = Some (inl tt, s', [])).
Proof.
  rewrite exec_try_catch. cbn [exec]. rewrite exec_bind.
  unfold refresh_succeeds.
  destruct (srv n RefreshPost) as [rr|]; cbn [settle].
  - destruct ((200 <=? status rr) && (status rr <? 300)) eqn:H2xx;
      cbn [andb lift exec].
    + cbn [length shift_log]. rewrite exec_bind.
      destruct (get "success" (data rr)) as [success|e] eqn:Hget.
      * assert (Hs : success = prop "success" (data rr)).
        { destruct (data rr); cbn in Hget; inversion Hget; reflexivity. }
        cbn [lift exec length shift_log]. rewrite <- Hs.
        destruct (truthy success) eqn:Hb.
        -- rewrite exec_bind, exec_storeRefreshedToken_state.
           cbn. do 2 eexists. split; [reflexivity|].
           split; [discriminate|].
           intros rr0 E _. injection E as <-. split; [reflexivity|].
           apply exec_storeRefreshedToken_state.
        -- cbn. do 2 eexists. split; [reflexivity|].
           split; [auto|]. intros rr0 E H. injection E as <-.
           cbn in H. rewrite <- Hs, Hb, andb_false_r in H. discriminate.
      * assert (Hs : truthy (prop "success" (data rr)) = false).
        { destruct (data rr); cbn in Hget; try discriminate; reflexivity. }
        rewrite Hs.
        cbn. do 2 eexists. split; [reflexivity|].
        split; [auto|]. intros rr0 E H. injection E as <-.
        cbn in H. rewrite Hs, andb_false_r in H. discriminate.
    + cbn. do 2 eexists. split; [reflexivity|].
      split; [auto|]. intros rr0 E H. injection E as <-.
      rewrite H2xx in H. discriminate.
  - cbn. do 2 eexists. split; [reflexivity|].
    split; [auto|]. discriminate.
Qed.

(** The rejection handler on an expired 401: the refresh attempt, and
    then either the original error or the replay. *)
Lemma exec_onRejected_expired (fuel : nat) (msg : string) (cfg1 : Config)
      (resp : Response) (text : string) (s : State) (n : nat) :
  _retry cfg1 = false -> status resp = 401 ->
  js_or (prop "error" (data resp)) (JStr "") = JStr text ->
  (forall m, In m noTokenMarkers -> str_includes m text = false) ->
  (refresh_succeeds (srv n RefreshPost) = false ->
   exec srv env
        (onRejected ToString (axiosInstance_fuel ToString (S fuel))
                    (AxiosErr msg cfg1 (Some resp))) s n
   = Some (inr (AxiosErr msg (with_retry true cfg1) (Some resp)), env n s,
           [EvNet RefreshPost s])) /\
  (forall rr,
      srv n RefreshPost = Responded rr ->
      refresh_succeeds (Responded rr) = true ->
      exists st,
        exec srv env (storeRefreshedToken ToString (data rr)) (env n s) (S n)
        = Some (inl tt, st, []) /\
        exec srv env
             (onRejected ToString (axiosInstance_fuel ToString (S fuel))
                         (AxiosErr msg cfg1 (Some resp))) s n
        = shift_log [EvNet RefreshPost s]
            (exec srv env
                  (axiosInstance_fuel ToString (S fuel) (with_retry true cfg1))
                  st (S n))).
Proof.
  intros Hretry H401 Htext Hnone. unfold onRejected.
  rewrite Hretry, H401. cbn [Z.eqb Pos.eqb negb andb].
  rewrite exec_bind, Htext, (includes_any_none text _ Hnone).
  cbn [lift exec length shift_log negb]. rewrite exec_bind.
  match goal with
  | |- context [exec srv env (try_catch _ (fun _ => Throw ?err)) ?s0 ?k] =>
      destruct (exec_refresh_attempt_state err s0 k) as (r & s' & -> & Hko & Hok)
  end.
  rewrite Nat.add_0_r in *.
  split.
  - intros Hfail. destruct (Hko Hfail) as [[->| ->] ->]; reflexivity.
  - intros rr Hrr Hsucc. destruct (Hok rr Hrr Hsucc) as [-> Hst].
    exists s'. split; [exact Hst|].
    cbn [length Nat.add]. replace (n + 1)%nat with (S n) by lia.
    now rewrite shift_log_nil.
Qed.

(** A replay: one request, sent as the interceptor left it. *)
Lemma exec_replay_sent (fuel : nat) (cfg cfg2 : Config) (s s2 : State) (n : nat) :
  _retry cfg = true ->
  exec srv env (requestInterceptor ToString cfg) s n = Some (inl cfg2, s2, []) ->
  exists r s',
    exec srv env (axiosInstance_fuel ToString (S fuel) cfg) s n
    = Some (r, s', [EvNet (ViaInstance cfg2) s2]) /\
    forall resp2,
      srv n (ViaInstance cfg2) = Responded resp2 ->
      (200 <=? status resp2) && (status resp2 <? 300) = true ->
      r = inl resp2.
Proof.
  intros Hretry Hreq.
  rewrite (exec_axiosInstance_unfold fuel cfg cfg2 s s2 n Hreq).
  assert (Hr2 : _retry cfg2 = true).
  { destruct (exec_requestInterceptor ToString srv env cfg s n)
      as (c & s0 & E & _ & Hr). rewrite Hreq in E. injection E as <- <-.
    congruence. }
  destruct (settle cfg2 (srv n (ViaInstance cfg2))) as [resp|err] eqn:Hs.
  - rewrite exec_onFulfilled_state. cbn. do 2 eexists. split; [reflexivity|].
    intros resp2 E H2xx. rewrite E in Hs. cbn in Hs. rewrite H2xx in Hs.
    congruence.
  - rewrite exec_onRejected_retried.
    + cbn. do 2 eexists. split; [reflexivity|].
      intros resp2 E H2xx. rewrite E in Hs. cbn in Hs. rewrite H2xx in Hs.
      discriminate.
    + apply settle_retried in Hs. congruence.
Qed.

End Replay.

(** ** [handleError] *)

Lemma includes_opt_text (text sub : string) :
  includes_opt (JStr text) sub = inl (str_includes sub text).
Proof. reflexivity. Qed.

Lemma includes_text (text sub : string) :
  includes (JStr text) sub = inl (str_includes sub text).
Proof. reflexivity. Qed.

(** A server's error text is passed on as it is, whatever the status. *)
Lemma handleError_text (msg : string) (cfg : Config) (resp : Response)
      (text : string) :
  prop "error" (data resp) = JStr text -> text <> "" ->
  handleError (AxiosErr msg cfg (Some resp)) = inl (failure (JStr text)).
Proof.
  intros Htext Hne. unfold handleError. rewrite Htext.
  assert (Hor : forall v, js_or (JStr text) v = JStr text).
  { intros v. unfold js_or. cbn [truthy].
    destruct (String.eqb_spec text ""); [contradiction|reflexivity]. }
  rewrite !Hor.
  destruct (includes_any_text includes_opt text noTokenMarkers
              (includes_opt_text text)) as [b ->].
  assert (Ht : truthy (JStr text) = true).
  { cbn. destruct (String.eqb_spec text ""); [contradiction|reflexivity]. }
  rewrite Ht. cbn [negb].
  destruct b; case_if; reflexivity.
Qed.

(** With no text in the body, a 401 reads "Authentication required". *)
Lemma handleError_401_no_text (msg : string) (cfg : Config) (resp : Response) :
  status resp = 401 ->
  prop "error" (data resp) = JUndef -> prop "message" (data resp) = JUndef ->
  handleError (AxiosErr msg cfg (Some resp))
  = inl (failure (JStr "Authentication required. Please log in.")).
Proof.
  intros H401 He Hm. unfold handleError. now rewrite He, Hm, H401.
Qed.

(** The test in the [catch] block of [apiClient.post] throws only on an
    [error] field that is there and has no [includes]. *)
Lemma isExpected401_settles (u msg : string) (cfg : Config) (resp : Response) :
  nullish (prop "error" (data resp)) = true \/
  has_includes (prop "error" (data resp)) = true ->
  exists b, isExpected401 u (AxiosErr msg cfg (Some resp)) = inl b.
Proof.
  intros H. unfold isExpected401.
  destruct (status resp =? 401); [|eauto].
  destruct (str_includes "/auth/" u); [eauto|].
  destruct (prop "error" (data resp)); cbn in *; eauto;
    destruct H; discriminate.
Qed.

Lemma isExpected401_no_response (u : string) (error : exn) :
  (forall msg cfg resp, error <> AxiosErr msg cfg (Some resp)) ->
  isExpected401 u error = inl false.
Proof.
  intros H. destruct error as [msg cfg [resp|]|msg]; try reflexivity.
  now elim (H msg cfg resp).
Qed.

Section Calls.

Variable ToString : json -> string.
Variable srv : Server.
Variable env : Interference.

(** [apiClient.get/post] around a request: the body of the response, or
    what [handleError] makes of the error. *)
Lemma exec_apiClient_of (cfg : Config) (r : result Response) (s s' : State)
      (log : list event) (n : nat) :
  exec srv env (axiosInstance ToString cfg) s n = Some (r, s', log) ->
  exec srv env
       (try_catch (response <- axiosInstance ToString cfg ;; Ret (data response))
                  (fun error => lift (handleError error))) s n
  = Some (match r with
          | inl response => inl (data response)
          | inr error => handleError error
          end, s', log).
Proof.
  intros E. rewrite exec_try_catch, exec_bind, E.
  destruct r as [response|error]; cbn [shift_log exec].
  - now rewrite app_nil_r.
  - destruct (handleError error); cbn; now rewrite app_nil_r.
Qed.

(** [apiClient.post] around its request: an error goes through the test
    of the [catch] block first. *)
Lemma exec_apiClient_post_of (u : string) (body : json) (r : result Response)
      (s s' : State) (log : list event) (n : nat) :
  exec srv env (axiosInstance ToString (mkConfig u "post" body false None)) s n
  = Some (r, s', log) ->
  exec srv env (apiClient_post ToString u body) s n
  = Some (match r with
          | inl response => inl (data response)
          | inr error =>
              match isExpected401 u error with
              | inl _ => handleError error
              | inr e => inr e
              end
          end, s', log).
Proof.
  intros E. unfold apiClient_post. rewrite exec_try_catch, exec_bind, E.
  destruct r as [response|error]; cbn [shift_log exec].
  - now rewrite app_nil_r.
  - destruct (isExpected401 u error); cbn;
      [destruct (handleError error); cbn|]; now rewrite app_nil_r.
Qed.

(** When that test does not throw, [apiClient.post] is like
    [apiClient.get]. *)
Lemma exec_apiClient_post_handled (u : string) (body : json) (r : result Response)
      (s s' : State) (log : list event) (n : nat) :
  exec srv env (axiosInstance ToString (mkConfig u "post" body false None)) s n
  = Some (r, s', log) ->
  (forall error, r = inr error -> exists b, isExpected401 u error = inl b) ->
  exec srv env (apiClient_post ToString u body) s n
  = Some (match r with
          | inl response => inl (data response)
          | inr error => handleError error
          end, s', log).
Proof.
  intros E Hr. rewrite (exec_apiClient_post_of u body r s s' log n E).
  destruct r as [response|error]; [reflexivity|].
  destruct (Hr error eq_refl) as [b ->]. reflexivity.
Qed.

(** A request answered by a 401 that shows a no-token marker. *)
Lemma exec_axiosInstance_noToken (cfg : Config) (s : State) (n : nat) :
  exists cfg1 s1,
    same_request cfg cfg1 /\
    forall resp text marker,
      srv n (ViaInstance cfg1) = Responded resp -> status resp = 401 ->
      prop "error" (data resp) = JStr text ->
      In marker noTokenMarkers -> str_includes marker text = true ->
      exec srv env (axiosInstance ToString cfg) s n
      = Some (inr (AxiosErr "Request failed with status code 401" cfg1 (Some resp)),
              env n s1, [EvNet (ViaInstance cfg1) s1]).
Proof.
  destruct (exec_requestInterceptor ToString srv env cfg s n)
    as (cfg1 & s1 & Hreq & Hsame & _).
  exists cfg1, s1. split; [exact Hsame|].
  intros resp text marker Hreply H401 Htext Hin Hm.
  unfold axiosInstance.
  rewrite (exec_axiosInstance_unfold ToString srv env 1 cfg cfg1 s s1 n Hreq).
  rewrite Hreply. cbn [settle]. rewrite H401. cbn [Z.leb Z.ltb Z.compare Pos.compare
    Pos.compare_cont andb string_of_Z].
  change (string_of_Z 401) with "401". cbn [append].
  now rewrite (exec_onRejected_noToken ToString srv env _ _ cfg1 resp text marker
                 _ _ Htext Hin Hm).
Qed.

(** A request answered by an expired 401, the refresh failing. *)
Lemma exec_axiosInstance_refresh_failed (cfg : Config) (s : State) (n : nat) :
  _retry cfg = false ->
  exists cfg1 s1,
    same_request cfg cfg1 /\
    forall resp text,
      srv n (ViaInstance cfg1) = Responded resp -> status resp = 401 ->
      js_or (prop "error" (data resp)) (JStr "") = JStr text ->
      (forall m, In m noTokenMarkers -> str_includes m text = false) ->
      refresh_succeeds (srv (S n) RefreshPost) = false ->
      exec srv env (axiosInstance ToString cfg) s n
      = Some (inr (AxiosErr "Request failed with status code 401"
                            (with_retry true cfg1) (Some resp)),
              env (S n) (env n s1),
              [EvNet (ViaInstance cfg1) s1; EvNet RefreshPost (env n s1)]).
Proof.
  intros Hretry.
  destruct (exec_requestInterceptor ToString srv env cfg s n)
    as (cfg1 & s1 & Hreq & Hsame & Hr).
  exists cfg1, s1. split; [exact Hsame|].
  intros resp text Hreply H401 Htext Hnone Hfail.
  unfold axiosInstance.
  rewrite (exec_axiosInstance_unfold ToString srv env 1 cfg cfg1 s s1 n Hreq).
  rewrite Hreply. cbn [settle]. rewrite H401. cbn [Z.leb Z.ltb Z.compare Pos.compare
    Pos.compare_cont andb].
  change (string_of_Z 401) with "401". cbn [append].
  rewrite Hretry in Hr.
  destruct (exec_onRejected_expired ToString srv env 0
              "Request failed with status code 401" cfg1 resp text
              (env n s1) (S n) Hr H401 Htext Hnone) as [Hko _].
  now rewrite (Hko Hfail).
Qed.

End Calls.

(** X2: a 401 whose error text contains one of the markers "No refresh
    token", "No token", "Token not found" or "Not authenticated" is not
    followed by a refresh: [apiClient.get] and [apiClient.post] make the
    one call and resolve to [{success: false, error: text}]. *)
Theorem no_token_401_is_not_refreshed :
  forall (ToString : json -> string) (srv : Server) (env : Interference)
         (s : State) (n : nat),
    (forall u,
        exists cfg1 s1,
          same_request (mkConfig u "get" JUndef false None) cfg1 /\
          forall resp text marker,
            srv n (ViaInstance cfg1) = Responded resp -> status resp = 401 ->
            prop "error" (data resp) = JStr text ->
            In marker noTokenMarkers -> str_includes marker text = true ->
            exec srv env (apiClient_get ToString u) s n
            = Some (inl (failure (JStr text)), env n s1,
                    [EvNet (ViaInstance cfg1) s1]))
    /\
    (forall u body,
        exists cfg1 s1,
          same_request (mkConfig u "post" body false None) cfg1 /\
          forall resp text marker,
            srv n (ViaInstance cfg1) = Responded resp -> status resp = 401 ->
            prop "error" (data resp) = JStr text ->
            In marker noTokenMarkers -> str_includes marker text = true ->
            exec srv env (apiClient_post ToString u body) s n
            = Some (inl (failure (JStr text)), env n s1,
                    [EvNet (ViaInstance cfg1) s1])).
Proof.
  intros ToString srv env s n. split.
  - intros u.
    destruct (exec_axiosInstance_noToken ToString srv env
                (mkConfig u "get" JUndef false None) s n)
      as (cfg1 & s1 & Hsame & H).
    exists cfg1, s1. split; [exact Hsame|].
    intros resp text marker Hreply H401 Htext Hin Hm.
    unfold apiClient_get.
    rewrite (exec_apiClient_of ToString srv env _ _ _ _ _ _
               (H resp text marker Hreply H401 Htext Hin Hm)).
    rewrite (handleError_text _ _ _ text Htext
               (marker_text_not_empty text marker Hin Hm)).
    reflexivity.
  - intros u body.
    destruct (exec_axiosInstance_noToken ToString srv env
                (mkConfig u "post" body false None) s n)
      as (cfg1 & s1 & Hsame & H).
    exists cfg1, s1. split; [exact Hsame|].
    intros resp text marker Hreply H401 Htext Hin Hm.
    rewrite (exec_apiClient_post_handled ToString srv env _ _ _ _ _ _ _
               (H resp text marker Hreply H401 Htext Hin Hm)).
    + rewrite (handleError_text _ _ _ text Htext
                 (marker_text_not_empty text marker Hin Hm)).
      reflexivity.
    + intros error E. injection E as <-.
      apply isExpected401_settles. right. now rewrite Htext.
Qed.

Section FailedRefresh.

Variable ToString : json -> string.
Variable srv : Server.
Variable env : Interference.

Lemma failed_refresh_envelope (u : string) (body : json) (s : State) (n : nat) :
  exists cfg1 s1,
    same_request (mkConfig u "post" body false None) cfg1 /\
    forall resp,
      srv n (ViaInstance cfg1) = Responded resp -> status resp = 401 ->
      refresh_succeeds (srv (S n) RefreshPost) = false ->
      (forall text,
          prop "error" (data resp) = JStr text -> text <> "" ->
          (forall m, In m noTokenMarkers -> str_includes m text = false) ->
          exec srv env (apiClient_post ToString u body) s n
          = Some (inl (failure (JStr text)), env (S n) (env n s1),
                  [EvNet (ViaInstance cfg1) s1; EvNet RefreshPost (env n s1)]))
      /\
      (prop "error" (data resp) = JUndef -> prop "message" (data resp) = JUndef ->
       exec srv env (apiClient_post ToString u body) s n
       = Some (inl (failure (JStr "Authentication required. Please log in.")),
               env (S n) (env n s1),
               [EvNet (ViaInstance cfg1) s1; EvNet RefreshPost (env n s1)])).
Proof.
  destruct (exec_axiosInstance_refresh_failed ToString srv env
              (mkConfig u "post" body false None) s n eq_refl)
    as (cfg1 & s1 & Hsame & H).
  exists cfg1, s1. split; [exact Hsame|].
  intros resp Hreply H401 Hfail. split.
  - intros text Htext Hne Hnone.
    assert (Hor : js_or (prop "error" (data resp)) (JStr "") = JStr text).
    { rewrite Htext. unfold js_or. cbn [truthy].
      destruct (String.eqb_spec text ""); [contradiction|reflexivity]. }
    rewrite (exec_apiClient_post_handled ToString srv env _ _ _ _ _ _ _
               (H resp text Hreply H401 Hor Hnone Hfail)).
    + now rewrite (handleError_text _ _ _ text Htext Hne).
    + intros error E. injection E as <-.
      apply isExpected401_settles. right. now rewrite Htext.
  - intros He Hm.
    assert (Hor : js_or (prop "error" (data resp)) (JStr "") = JStr "").
    { now rewrite He. }
    assert (Hnone : forall m, In m noTokenMarkers -> str_includes m "" = false).
    { intros m [<-|[<-|[<-|[<-|[]]]]]; reflexivity. }
    rewrite (exec_apiClient_post_handled ToString srv env _ _ _ _ _ _ _
               (H resp "" Hreply H401 Hor Hnone Hfail)).
    + now rewrite (handleError_401_no_text _ _ _ H401 He Hm).
    + intros error E. injection E as <-.
      apply isExpected401_settles. left. now rewrite He.
Qed.

End FailedRefresh.

(** X3: when a 401 without such a marker is followed by a refresh that
    fails, [apiClient.post] makes the request and the refresh, no replay,
    and resolves to the failure envelope of the original 401: its error
    text, or "Authentication required. Please log in." when the body has
    neither [error] nor [message]. *)
Theorem failed_refresh_reports_the_401 :
  forall (ToString : json -> string) (srv : Server) (env : Interference)
         (u : string) (body : json) (s : State) (n : nat),
    exists cfg1 s1,
      same_request (mkConfig u "post" body false None) cfg1 /\
      forall resp,
        srv n (ViaInstance cfg1) = Responded resp -> status resp = 401 ->
        refresh_succeeds (srv (S n) RefreshPost) = false ->
        (forall text,
            prop "error" (data resp) = JStr text -> text <> "" ->
            (forall m, In m noTokenMarkers -> str_includes m text = false) ->
            exec srv env (apiClient_post ToString u body) s n
            = Some (inl (failure (JStr text)), env (S n) (env n s1),
                    [EvNet (ViaInstance cfg1) s1; EvNet RefreshPost (env n s1)]))
        /\
        (prop "error" (data resp) = JUndef ->
         prop "message" (data resp) = JUndef ->
         exec srv env (apiClient_post ToString u body) s n
         = Some (inl (failure (JStr "Authentication required. Please log in.")),
                 env (S n) (env n s1),
                 [EvNet (ViaInstance cfg1) s1; EvNet RefreshPost (env n s1)])).
Proof.
  intros ToString srv env u body s n.
  exact (failed_refresh_envelope ToString srv env u body s n).
Qed.

Section RefreshedReplay.

Variable ToString : json -> string.
Variable srv : Server.
Variable env : Interference.

Lemma storeToken_accessToken (token : json) (s : State) :
  accessToken (storeToken ToString token s) = token.
Proof.
  unfold storeToken. cbn. destruct (window s); [|reflexivity].
  destruct (truthy token); reflexivity.
Qed.

End RefreshedReplay.

(** X4: after a refresh that succeeds and delivers a token, the replay
    is sent with that token in its [Authorization] header, marked as a
    retry, and with the token already in the store; a 2xx answer to the
    replay is the result of the request. *)
Theorem replay_carries_refreshed_token :
  forall (ToString : json -> string) (srv : Server) (env : Interference)
         (cfg : Config) (s : State) (n : nat),
    _retry cfg = false ->
    exists cfg1 s1,
      same_request cfg cfg1 /\
      forall rr t,
        expired_401 (srv n (ViaInstance cfg1)) ->
        srv (S n) RefreshPost = Responded rr ->
        refresh_succeeds (Responded rr) = true ->
        extractToken (data rr) = JStr t -> t <> "" ->
        exists r s' cfg2,
          exec srv env (axiosInstance ToString cfg) s n
          = Some (r, s',
                  [EvNet (ViaInstance cfg1) s1;
                   EvNet RefreshPost (env n s1);
                   EvNet (ViaInstance cfg2)
                         (storeToken ToString (JStr t) (env (S n) (env n s1)))]) /\
          same_request cfg cfg2 /\ _retry cfg2 = true /\
          Authorization cfg2 = Some ("Bearer " ++ t) /\
          (forall resp2,
              srv (S (S n)) (ViaInstance cfg2) = Responded resp2 ->
              (200 <=? status resp2) && (status resp2 <? 300) = true ->
              r = inl resp2).
Proof.
  intros ToString srv env cfg s n Hretry.
  destruct (exec_requestInterceptor ToString srv env cfg s n)
    as (cfg1 & s1 & Hreq & Hsame & Hr).
  rewrite Hretry in Hr.
  exists cfg1, s1. split; [exact Hsame|].
  intros rr t (resp & text & Hreply & H401 & Htext & Hnone) Hrr Hsucc Htok Hne.
  assert (Htruthy : truthy (JStr t) = true).
  { cbn. destruct (String.eqb_spec t ""); [contradiction|reflexivity]. }
  unfold axiosInstance.
  rewrite (exec_axiosInstance_unfold ToString srv env 1 cfg cfg1 s s1 n Hreq).
  rewrite Hreply. cbn [settle]. rewrite H401.
  cbn [Z.leb Z.ltb Z.compare Pos.compare Pos.compare_cont andb].
  destruct (exec_onRejected_expired ToString srv env 0
              ("Request failed with status code " ++ string_of_Z 401)
              cfg1 resp text (env n s1) (S n) Hr H401 Htext Hnone) as [_ Hok].
  destruct (Hok rr Hrr Hsucc) as (st & Hst & ->). clear Hok.
  rewrite exec_storeRefreshedToken_state in Hst.
  assert (Est : st = storeToken ToString (JStr t) (env (S n) (env n s1))).
  { destruct (extractToken_find (data rr)) as [Hfind Hnone'].
    destruct (find truthy _) as [token|] eqn:Hf.
    - rewrite Htok in Hfind. subst token. now injection Hst as <-.
    - rewrite Htok in Hnone'. specialize (Hnone' eq_refl). congruence. }
  subst st.
  destruct (exec_requestInterceptor_token ToString srv env (with_retry true cfg1)
              (storeToken ToString (JStr t) (env (S n) (env n s1))) (S (S n)))
    as (cfg2 & s2 & Hreq2 & Hsame2 & Hr2 & Hmem & _).
  rewrite storeToken_accessToken in Hmem.
  destruct (Hmem Htruthy) as [Hauth ->].
  destruct (exec_replay_sent ToString srv env 0 (with_retry true cfg1) cfg2 _ _
              (S (S n)) eq_refl Hreq2)
    as (r & s' & -> & Hres).
  exists r, s', cfg2. cbn [shift_log app].
  split; [reflexivity|].
  split.
  { destruct Hsame as (Hu & Hm & Hd), Hsame2 as (Hu2 & Hm2 & Hd2).
    unfold same_request. cbn in Hu2, Hm2, Hd2. repeat split; congruence. }
  split; [exact Hr2|]. split; [exact Hauth|]. exact Hres.
Qed.

(** The history request of a signed-in user: the session has expired,
    the refresh delivers the token "access-2", and the replay carries
    it. *)
Lemma replay_carries_refreshed_token_witness :
  _retry historyRequest = false /\
  exists r s' ev1 ev2 cfg2 s2,
    exec expiredThenRefreshed alone (axiosInstance exampleToString historyRequest)
         signedIn 0
    = Some (r, s', [ev1; ev2; EvNet (ViaInstance cfg2) s2]) /\
    Authorization cfg2 = Some "Bearer access-2" /\
    accessToken s2 = JStr "access-2".
Proof.
  split; [reflexivity|].
  destruct (replay_carries_refreshed_token exampleToString expiredThenRefreshed
              alone historyRequest signedIn 0 eq_refl)
    as (cfg1 & s1 & _ & H).
  destruct (H (mkResponse 200 "OK"
                 (JObj [("success", JBool true); ("accessToken", JStr "access-2")]))
              "access-2")
    as (r & s' & cfg2 & E & _ & _ & Hauth & _).
  - eexists _, "jwt expired". split; [reflexivity|]. split; [reflexivity|].
    split; [reflexivity|].
    intros m [<-|[<-|[<-|[<-|[]]]]]; reflexivity.
  - reflexivity.
  - reflexivity.
  - reflexivity.
  - discriminate.
  - exists r, s'. do 4 eexists. split; [exact E|]. split; [exact Hauth|].
    apply storeToken_accessToken.
Defined.

(** A visitor without a session asks who they are: one call, no
    refresh. *)
Lemma no_token_401_is_not_refreshed_witness :
  exists cfg1 s1,
    exec notSignedInServer alone (apiClient_get exampleToString "/api/auth/me")
         initialState 0
    = Some (inl (failure (JStr "Not authenticated")), s1,
            [EvNet (ViaInstance cfg1) s1]).
Proof.
  destruct (proj1 (no_token_401_is_not_refreshed exampleToString notSignedInServer
                     alone initialState 0) "/api/auth/me")
    as (cfg1 & s1 & _ & H).
  exists cfg1, s1.
  apply (H _ "Not authenticated" "Not authenticated" eq_refl eq_refl eq_refl);
    [cbn; tauto|reflexivity].
Defined.

(** A signed-in user posts a chat message when the session and the
    refresh token have both expired. *)
Lemma failed_refresh_reports_the_401_witness :
  exists s' ev1 ev2,
    exec expiredServer alone (apiClient_post exampleToString "/api/chat" chatRequest)
         signedIn 0
    = Some (inl (failure (JStr "Invalid refresh token")), s', [ev1; ev2]) /\
    step_of ev2 = Refreshed.
Proof.
  destruct (failed_refresh_reports_the_401 exampleToString expiredServer alone
              "/api/chat" chatRequest signedIn 0)
    as (cfg1 & s1 & _ & H).
  destruct (H _ eq_refl eq_refl eq_refl) as [Htext _].
  do 3 eexists. split.
  - apply (Htext "Invalid refresh token"); [reflexivity|discriminate|].
    intros m [<-|[<-|[<-|[<-|[]]]]]; reflexivity.
  - reflexivity.
Defined.

(* ================================================================== *)
(** * [handleError] and what [apiClient] resolves to *)
(* ================================================================== *)

Lemma includes_any_opt_true_truthy (v : json) :
  includes_any includes_opt v noTokenMarkers = inl true -> truthy v = true.
Proof.
  intros H. destruct v as [| |b|q|text|l|l|t]; try reflexivity;
    try (cbn in H; discriminate H).
  cbn [truthy]. destruct (String.eqb_spec text "") as [->|]; [|reflexivity].
  cbn in H. discriminate H.
Qed.

Lemma includes_any_opt_outcome (v : json) (m : string) (subs : list string) :
  includes_any includes_opt v (m :: subs)
  = (if nullish v then inl false
     else if has_includes v then includes_any includes_opt v (m :: subs)
     else inr (JsErr "errorMessage.includes is not a function")).
Proof.
  destruct v; try reflexivity.
  - cbn. induction subs; cbn; auto.
  - cbn. induction subs; cbn; auto.
Qed.

Lemma includes_any_has (v : json) (subs : list string) :
  has_includes v = true -> exists b, includes_any includes_opt v subs = inl b.
Proof.
  intros Hv. induction subs as [|m subs [b IH]]; cbn [includes_any]; eauto.
  destruct v; try discriminate; cbn [includes_opt includes].
  - destruct (str_includes m s); eauto.
  - destruct (existsb _ items); eauto.
Qed.

Lemma js_or_truthy_r (a b : json) : truthy b = true -> truthy (js_or a b) = true.
Proof. intros Hb. unfold js_or. destruct (truthy a) eqn:Ha; auto. Qed.

(** The two ways out of [handleError]. *)
Lemma handleError_cases :
  forall error : exn,
    (forall v, handleError error = inl v ->
               exists m, v = failure m /\ truthy m = true)
    /\
    (forall e,
        handleError error = inr e <->
        e = JsErr "errorMessage.includes is not a function" /\
        exists msg cfg resp,
          error = AxiosErr msg cfg (Some resp) /\ status resp = 401 /\
          nullish (js_or (prop "error" (data resp)) (prop "message" (data resp)))
          = false /\
          has_includes (js_or (prop "error" (data resp)) (prop "message" (data resp)))
          = false).
Proof.
  intros [msg cfg [resp|]|msg].
  - unfold handleError.
    set (em := js_or (prop "error" (data resp)) (prop "message" (data resp))).
    destruct (status resp =? 401) eqn:H401.
    + apply Z.eqb_eq in H401.
      change noTokenMarkers
        with ("No refresh token" :: ["No token"; "Token not found";
                                     "Not authenticated"]).
      rewrite includes_any_opt_outcome.
      change ("No refresh token" :: ["No token"; "Token not found";
                                     "Not authenticated"])
        with noTokenMarkers.
      destruct (nullish em) eqn:Hn.
      * split.
        -- intros v E. injection E as <-. eexists. split; [reflexivity|].
           now apply js_or_truthy_r.
        -- intros e. split; [discriminate|].
           intros (_ & m0 & c0 & r0 & E & _ & Hn' & _).
           injection E as _ _ <-. fold em in Hn'. congruence.
      * destruct (has_includes em) eqn:Hh.
        -- destruct (includes_any_has em noTokenMarkers Hh) as [b Hb].
           rewrite Hb. split.
           ++ intros v E. destruct b; injection E as <-;
                eexists; (split; [reflexivity|]).
              ** eapply includes_any_opt_true_truthy; eauto.
              ** now apply js_or_truthy_r.
           ++ intros e. split; [destruct b; discriminate|].
              intros (_ & m0 & c0 & r0 & E & _ & _ & Hh').
              injection E as _ _ <-. fold em in Hh'. congruence.
        -- split; [discriminate|].
           intros e. split.
           ++ intros E. injection E as <-. split; [reflexivity|].
              exists msg, cfg, resp. auto.
           ++ intros [-> _]. reflexivity.
    + assert (Hno : forall e,
                 e = JsErr "errorMessage.includes is not a function" /\
                 (exists msg0 cfg0 resp0,
                     AxiosErr msg cfg (Some resp) = AxiosErr msg0 cfg0 (Some resp0) /\
                     status resp0 = 401 /\
                     nullish (js_or (prop "error" (data resp0))
                                    (prop "message" (data resp0))) = false /\
                     has_includes (js_or (prop "error" (data resp0))
                                         (prop "message" (data resp0))) = false) ->
                 False).
      { intros e (_ & m0 & c0 & r0 & E & Hst & _). injection E as _ _ <-.
        rewrite Hst in H401. discriminate. }
      destruct (status resp =? 403); [|destruct (status resp =? 404);
        [|destruct (status resp =? 500); [|destruct (truthy em) eqn:Hem]]];
        cbn [negb]; (split; [|intros e; split; [discriminate|intros H; destruct (Hno e H)]]);
        intros v E; injection E as <-; eexists; (split; [reflexivity|]);
        try (now apply js_or_truthy_r); auto.
  - cbn. split.
    + intros v E. injection E as <-. eauto.
    + intros e. split; [discriminate|].
      intros (_ & m0 & c0 & r0 & E & _). discriminate.
  - cbn. split.
    + intros v E. injection E as <-. eexists. split; [reflexivity|].
      now apply js_or_truthy_r.
    + intros e. split; [discriminate|].
      intros (_ & m0 & c0 & r0 & E & _). discriminate.
Qed.

(** X6: [handleError] returns a failure envelope with a truthy error, or
    throws.  It throws exactly for a 401 whose [error || message] is
    neither null or undefined nor a string or array: the call
    [errorMessage.includes] fails then. *)
Theorem handleError_envelope :
  forall error : exn,
    (forall v, handleError error = inl v ->
               exists m, v = failure m /\ truthy m = true)
    /\
    (forall e,
        handleError error = inr e <->
        e = JsErr "errorMessage.includes is not a function" /\
        exists msg cfg resp,
          error = AxiosErr msg cfg (Some resp) /\ status resp = 401 /\
          nullish (js_or (prop "error" (data resp)) (prop "message" (data resp)))
          = false /\
          has_includes (js_or (prop "error" (data resp)) (prop "message" (data resp)))
          = false).
Proof.
  intros error. destruct (handleError_cases error) as [Hreturns Hthrows].
  split; [exact Hreturns|exact Hthrows].
Qed.

Section Textual.

Variable ToString : json -> string.
Variable srv : Server.
Variable env : Interference.

Hypothesis srv_textual : forall k c, textual_reply (srv k c) = true.

Lemma settle_comes_from (cfg : Config) (k : nat) (c : NetCall) :
  comes_from srv (settle cfg (srv k c)).
Proof.
  unfold settle. specialize (srv_textual k c).
  destruct (srv k c) as [r|] eqn:E; [|reflexivity].
  destruct ((200 <=? status r) && (status r <? 300)) eqn:H2xx; cbn.
  - exists k, c. auto.
  - exact srv_textual.
Qed.

Lemma includes_any_error (v : json) (subs : list string) (e : exn) :
  includes_any includes v subs = inr e -> textual_error e = true.
Proof.
  induction subs as [|m subs IH]; cbn [includes_any]; [discriminate|].
  destruct (includes v m) as [[|]|e0] eqn:Hinc; try discriminate; auto.
  intros E. injection E as <-.
  destruct v; cbn in Hinc; try discriminate; injection Hinc as <-; reflexivity.
Qed.

Lemma onRejected_comes_from (self : Config -> Task Response) (error : exn)
      (s : State) (n : nat) (r : result Response) (s' : State) (log : list event) :
  textual_error error = true ->
  (forall cfg s0 k r0 s1 l0,
      exec srv env (self cfg) s0 k = Some (r0, s1, l0) -> comes_from srv r0) ->
  exec srv env (onRejected ToString self error) s n = Some (r, s', log) ->
  comes_from srv r.
Proof.
  intros Herr Hself. unfold onRejected.
  destruct error as [msg cfg [resp|]|msg];
    try (cbn; intros E; injection E as <- _ _; exact Herr).
  destruct ((status resp =? 401) && negb (_retry cfg));
    [|cbn; intros E; injection E as <- _ _; exact Herr].
  rewrite exec_bind.
  destruct (includes_any includes (js_or (prop "error" (data resp)) (JStr ""))
                         noTokenMarkers) as [[|]|e] eqn:Hinc;
    cbn [lift exec length shift_log negb].
  - intros E; injection E as <- _ _; exact Herr.
  - rewrite exec_bind.
    match goal with
    | |- context [exec srv env (try_catch _ (fun _ => Throw ?err)) ?s0 ?k] =>
        destruct (exec_refresh_attempt_state ToString srv env err s0 k)
          as (r1 & s1 & -> & Hko & Hok)
    end.
    assert (Hr1 : r1 = inl true \/ r1 = inl false \/
                  r1 = inr (AxiosErr msg (with_retry true cfg) (Some resp))).
    { destruct (refresh_succeeds (srv (n + 0)%nat RefreshPost)) eqn:Hrs.
      - destruct (srv (n + 0)%nat RefreshPost) as [rr|] eqn:Hrr;
          [|discriminate].
        destruct (Hok rr eq_refl Hrs) as [-> _]. auto.
      - destruct (Hko eq_refl) as [[->| ->] _]; auto. }
    destruct Hr1 as [->|[->| ->]].
    + destruct (exec srv env (self (with_retry true cfg)) s1 _)
        as [[[r2 s2] l2]|] eqn:E2; cbn [shift_log]; [|discriminate].
      intros E; injection E as <- _ _. eapply Hself; eauto.
    + cbn. intros E; injection E as <- _ _; exact Herr.
    + intros E; injection E as <- _ _; exact Herr.
  - intros E; injection E as <- _ _. eapply includes_any_error; eauto.
Qed.

Lemma axiosInstance_fuel_comes_from (fuel : nat) :
  forall cfg s n r s' log,
    exec srv env (axiosInstance_fuel ToString fuel cfg) s n = Some (r, s', log) ->
    comes_from srv r.
Proof.
  induction fuel as [|fuel IH]; intros cfg s n r s' log; [discriminate|].
  destruct (exec_requestInterceptor ToString srv env cfg s n)
    as (cfg1 & s1 & Hreq & _).
  rewrite (exec_axiosInstance_unfold ToString srv env fuel cfg cfg1 s s1 n Hreq).
  generalize (settle_comes_from cfg1 n (ViaInstance cfg1)).
  destruct (settle cfg1 (srv n (ViaInstance cfg1))) as [response|error].
  - rewrite exec_onFulfilled_state. cbn. intros H E. injection E as <- _ _. exact H.
  - intros H.
    destruct (exec srv env (onRejected ToString _ error) (env n s1) (S n))
      as [[[r2 s2] l2]|] eqn:E2; cbn [shift_log]; [|discriminate].
    intros E; injection E as <- _ _.
    eapply onRejected_comes_from; eauto.
Qed.

(** [handleError] on a textual error. *)
Lemma handleError_textual (error : exn) :
  textual_error error = true ->
  exists m, handleError error = inl (failure m) /\ truthy m = true.
Proof.
  intros Ht. destruct (handleError_cases error) as [Hl Hr].
  destruct (handleError error) as [v|e] eqn:E.
  - destruct (Hl v eq_refl) as (m & -> & Hm). eauto.
  - destruct (proj1 (Hr e) eq_refl) as (_ & msg & cfg & resp & -> & _ & Hn & Hh).
    cbn in Ht. apply andb_prop in Ht. destruct Ht as [H1 H2].
    unfold js_or in Hn, Hh.
    destruct (truthy (prop "error" (data resp)));
      [destruct (prop "error" (data resp))|destruct (prop "message" (data resp))];
      discriminate.
Qed.

Lemma apiClient_resolves (cfg : Config) (s : State) (n : nat) :
  exists v s' log,
    exec srv env
         (try_catch (response <- axiosInstance ToString cfg ;; Ret (data response))
                    (fun error => lift (handleError error))) s n
    = Some (inl v, s', log) /\
    ((exists response, answered_by srv response /\ v = data response) \/
     (exists m, v = failure m /\ truthy m = true)).
Proof.
  destruct (exec_requestInterceptor ToString srv env cfg s n)
    as (cfg1 & s1 & Hreq & _).
  destruct (exec_axiosInstance_first ToString srv env cfg cfg1 s s1 n Hreq)
    as (r & s' & rest & E).
  rewrite (exec_apiClient_of ToString srv env _ _ _ _ _ _ E).
  generalize (axiosInstance_fuel_comes_from 2 _ _ _ _ _ _ E).
  destruct r as [response|error]; cbn [comes_from]; intros H.
  - do 3 eexists. split; [reflexivity|]. left. eauto.
  - destruct (handleError_textual error H) as (m & -> & Hm).
    do 3 eexists. split; [reflexivity|]. right. eauto.
Qed.

(** The test in the [catch] block of [apiClient.post] on a textual
    error. *)
Lemma isExpected401_textual (u : string) (error : exn) :
  textual_error error = true -> exists b, isExpected401 u error = inl b.
Proof.
  intros Ht. destruct error as [msg cfg [resp|]|msg]; [|cbn; eauto..].
  apply (isExpected401_settles u msg cfg resp).
  cbn in Ht. apply andb_prop in Ht. destruct Ht as [H1 _].
  destruct (prop "error" (data resp)); cbn in *; auto; discriminate.
Qed.

Lemma apiClient_post_resolves (u : string) (body : json) (s : State) (n : nat) :
  exists v s' log,
    exec srv env (apiClient_post ToString u body) s n = Some (inl v, s', log) /\
    ((exists response, answered_by srv response /\ v = data response) \/
     (exists m, v = failure m /\ truthy m = true)).
Proof.
  destruct (exec_requestInterceptor ToString srv env
              (mkConfig u "post" body false None) s n)
    as (cfg1 & s1 & Hreq & _).
  destruct (exec_axiosInstance_first ToString srv env _ cfg1 s s1 n Hreq)
    as (r & s' & rest & E).
  generalize (axiosInstance_fuel_comes_from 2 _ _ _ _ _ _ E).
  destruct r as [response|error]; cbn [comes_from]; intros H.
  - rewrite (exec_apiClient_post_handled ToString srv env _ _ _ _ _ _ _ E);
      [|discriminate].
    do 3 eexists. split; [reflexivity|]. left. eauto.
  - rewrite (exec_apiClient_post_handled ToString srv env _ _ _ _ _ _ _ E).
    + destruct (handleError_textual error H) as (m & -> & Hm).
      do 3 eexists. split; [reflexivity|]. right. eauto.
    + intros error' E'. injection E' as <-. now apply isExpected401_textual.
Qed.

End Textual.

(** X7: against a server whose [error] and [message] fields are strings
    or absent, [apiClient.get] and [apiClient.post] never throw: they
    resolve to the body of a 2xx answer of the server, or to a failure
    envelope with a truthy error. *)
Theorem apiClient_resolves_on_textual_errors :
  forall (ToString : json -> string) (srv : Server) (env : Interference)
         (s : State) (n : nat),
    (forall k c, textual_reply (srv k c) = true) ->
    (forall u,
        exists v s' log,
          exec srv env (apiClient_get ToString u) s n = Some (inl v, s', log) /\
          ((exists response, answered_by srv response /\ v = data response) \/
           (exists m, v = failure m /\ truthy m = true)))
    /\
    (forall u body,
        exists v s' log,
          exec srv env (apiClient_post ToString u body) s n = Some (inl v, s', log) /\
          ((exists response, answered_by srv response /\ v = data response) \/
           (exists m, v = failure m /\ truthy m = true))).
Proof.
  intros ToString srv env s n Hsrv. split.
  - intros u. exact (apiClient_resolves ToString srv env Hsrv _ s n).
  - intros u body. exact (apiClient_post_resolves ToString srv env Hsrv u body s n).
Qed.

Lemma apiClient_resolves_on_textual_errors_witness :
  (forall k c, textual_reply (expiredServer k c) = true) /\
  exists v s' log,
    exec expiredServer alone (apiClient_get exampleToString "/api/auth/me") signedIn 0
    = Some (inl v, s', log) /\
    ((exists response, answered_by expiredServer response /\ v = data response) \/
     (exists m, v = failure m /\ truthy m = true)).
Proof.
  split; [reflexivity|].
  exact (proj1 (apiClient_resolves_on_textual_errors exampleToString expiredServer
                  alone signedIn 0 (fun _ _ => eq_refl)) "/api/auth/me").
Defined.

(* ================================================================== *)
(** * [checkAuth] and the mount effect *)
(* ================================================================== *)

Section AuthCalls.

Variable ToString : json -> string.
Variable srv : Server.
Variable env : Interference.

(** The request interceptor writes nothing but the in-memory token. *)
Lemma exec_requestInterceptor_state (cfg : Config) (s : State) (n : nat) :
  exists cfg1 s1,
    exec srv env (requestInterceptor ToString cfg) s n = Some (inl cfg1, s1, []) /\
    same_request cfg cfg1 /\
    (s1 = s \/ exists t, s1 = with_accessToken (JStr t) s).
Proof.
  destruct (exec_requestInterceptor ToString srv env cfg s n)
    as (cfg1 & s1 & E & Hsame & _).
  exists cfg1, s1. split; [exact E|]. split; [exact Hsame|].
  revert E. unfold requestInterceptor, getAccessToken. cbn [bind exec].
  destruct (truthy (accessToken s)); [cbn; intros E; injection E as _ <-; auto|].
  destruct (window s) as [[tok|]|];
    try (cbn; intros E; injection E as _ <-; auto; fail).
  destruct (truthy (JStr tok)); cbn; intros E; injection E as _ <-; eauto.
Qed.

(** [apiClient.get]: it settles, and its first suspension is the
    request, sent from a state that differs from the initial one in the
    in-memory token at most. *)
Lemma exec_apiClient_get_first (u : string) (s : State) (n : nat) :
  exists r s' cfg1 s1 rest,
    exec srv env (apiClient_get ToString u) s n
    = Some (r, s', EvNet (ViaInstance cfg1) s1 :: rest) /\
    same_request (mkConfig u "get" JUndef false None) cfg1 /\
    (s1 = s \/ exists t, s1 = with_accessToken (JStr t) s).
Proof.
  destruct (exec_requestInterceptor_state (mkConfig u "get" JUndef false None) s n)
    as (cfg1 & s1 & Hreq & Hsame & Hs1).
  destruct (exec_axiosInstance_first ToString srv env _ cfg1 s s1 n Hreq)
    as (r & s' & rest & E).
  unfold apiClient_get.
  rewrite (exec_apiClient_of ToString srv env _ _ _ _ _ _ E).
  eauto 10.
Qed.

(** [apiClient.get] when the request is answered 200 with [body]. *)
Lemma exec_apiClient_get_answered (u : string) (cfg1 : Config) (body : json)
      (s s1 : State) (n : nat) :
  exec srv env (requestInterceptor ToString (mkConfig u "get" JUndef false None)) s n
  = Some (inl cfg1, s1, []) ->
  srv n (ViaInstance cfg1) = ok body ->
  exec srv env (apiClient_get ToString u) s n
  = Some (inl body,
          (if truthy (extractToken body)
           then storeToken ToString (extractToken body) (env n s1)
           else env n s1),
          [EvNet (ViaInstance cfg1) s1]).
Proof.
  intros Hreq Hreply. unfold apiClient_get.
  rewrite (exec_apiClient_of ToString srv env _ (inl (mkResponse 200 "OK" body))
             _ (if truthy (extractToken body)
                then storeToken ToString (extractToken body) (env n s1)
                else env n s1)
             [EvNet (ViaInstance cfg1) s1]); [reflexivity|].
  unfold axiosInstance.
  rewrite (exec_axiosInstance_unfold ToString srv env 1 _ cfg1 s s1 n Hreq).
  rewrite Hreply.
  change (settle cfg1 (ok body)) with (@inl Response exn (mkResponse 200 "OK" body)).
  cbv iota. rewrite exec_onFulfilled_state. reflexivity.
Qed.

(** [checkAuth] when no check is pending. *)
Lemma exec_checkAuth_first (s : State) (n : nat) :
  isCheckingAuth s = false ->
  exists r s2 cfg1 s1 rest s',
    exec srv env
         (requestInterceptor ToString (mkConfig "/api/auth/me" "get" JUndef false None))
         (with_isLoading true (with_isCheckingAuth true s)) n
    = Some (inl cfg1, s1, []) /\
    exec srv env (apiClient_get ToString "/api/auth/me")
         (with_isLoading true (with_isCheckingAuth true s)) n
    = Some (r, s2, EvNet (ViaInstance cfg1) s1 :: rest) /\
    exec srv env (checkAuth ToString) s n
    = Some (inl tt, s', EvNet (ViaInstance cfg1) s1 :: rest) /\
    same_request (mkConfig "/api/auth/me" "get" JUndef false None) cfg1 /\
    isLoading s1 = true /\ isCheckingAuth s1 = true /\
    isLoading s' = false /\ isCheckingAuth s' = false /\
    user s' = match r with
              | inl response =>
                  if is_true (prop "success" response)
                     && truthy (prop "user" (prop "data" response))
                  then prop "user" (prop "data" response)
                  else JNull
              | inr _ => JNull
              end.
Proof.
  intros Hguard.
  destruct (exec_requestInterceptor_state
              (mkConfig "/api/auth/me" "get" JUndef false None)
              (with_isLoading true (with_isCheckingAuth true s)) n)
    as (cfg1 & s1 & Hreq & Hsame & Hs1).
  destruct (exec_axiosInstance_first ToString srv env _ cfg1 _ s1 n Hreq)
    as (r0 & s2 & rest & E0).
  assert (E : exec srv env (apiClient_get ToString "/api/auth/me")
                   (with_isLoading true (with_isCheckingAuth true s)) n
              = Some (match r0 with
                      | inl response => inl (data response)
                      | inr error => handleError error
                      end, s2, EvNet (ViaInstance cfg1) s1 :: rest)).
  { unfold apiClient_get. now apply exec_apiClient_of. }
  assert (Hflags : isLoading s1 = true /\ isCheckingAuth s1 = true).
  { destruct Hs1 as [->|[t ->]]; split; reflexivity. }
  destruct Hflags as [Hl Hc].
  exists (match r0 with
          | inl response => inl (data response)
          | inr error => handleError error
          end), s2, cfg1, s1, rest.
  unfold checkAuth. cbn [exec]. rewrite Hguard.
  rewrite exec_finally, exec_try_catch.
  cbn [bind modify setIsLoading exec]. rewrite exec_bind, E.
  destruct (match r0 with
            | inl response => inl (data response)
            | inr error => handleError error
            end) as [response|e].
  - destruct (exec_checkAuth_handle srv env response s2
                (n + length (EvNet (ViaInstance cfg1) s1 :: rest))%nat)
      as (r' & s3 & -> & Hok & Hko).
    destruct r' as [[]|e]; cbn; rewrite !app_nil_r;
      eexists; (split; [exact Hreq|]); (split; [reflexivity|]);
      (split; [reflexivity|]); (split; [exact Hsame|]);
      (split; [exact Hl|]); (split; [exact Hc|]);
      (split; [reflexivity|]); (split; [reflexivity|]); cbn.
    + now apply Hok.
    + rewrite Hko; [reflexivity|discriminate].
  - cbn. rewrite !app_nil_r.
    eexists; (split; [exact Hreq|]); (split; [reflexivity|]);
      (split; [reflexivity|]); (split; [exact Hsame|]);
      (split; [exact Hl|]); (split; [exact Hc|]);
      (split; [reflexivity|]); (split; reflexivity).
Qed.

End AuthCalls.

(** X8: [checkAuth] called while a check is pending returns at once:
    no request, no change of state.  Otherwise it begins with GET
    /api/auth/me, sent while [isLoading] and the guard are set, and it
    ends with both cleared, whatever the server does. *)
Theorem checkAuth_guard_and_loading :
  forall (ToString : json -> string) (srv : Server) (env : Interference)
         (s : State) (n : nat),
    (isCheckingAuth s = true ->
     exec srv env (checkAuth ToString) s n = Some (inl tt, s, []))
    /\
    (isCheckingAuth s = false ->
     exists s' cfg1 s1 rest,
       exec srv env (checkAuth ToString) s n
       = Some (inl tt, s', EvNet (ViaInstance cfg1) s1 :: rest) /\
       same_request (mkConfig "/api/auth/me" "get" JUndef false None) cfg1 /\
       isLoading s1 = true /\ isCheckingAuth s1 = true /\
       isLoading s' = false /\ isCheckingAuth s' = false).
Proof.
  intros ToString srv env s n. split; intros Hguard.
  - unfold checkAuth. cbn [exec]. now rewrite Hguard.
  - destruct (exec_checkAuth_first ToString srv env s n Hguard)
      as (r & s2 & cfg1 & s1 & rest & s' & _ & _ & E & Hsame & H).
    exists s', cfg1, s1, rest. intuition.
Qed.

(** X9: when the provider mounts with a non-empty token in
    [sessionStorage], the token is back in memory before the "who am I"
    request, which carries it; if the server answers that request with a
    user, the provider ends authenticated as that user, after this one
    call. *)
Theorem reload_restores_session :
  forall (ToString : json -> string) (srv : Server) (env : Interference)
         (t : string) (s : State) (n : nat),
    window s = Some (Some t) -> t <> "" -> isCheckingAuth s = false ->
    exists s' cfg1 s1 rest,
      exec srv env (mountEffect ToString) s n
      = Some (inl tt, s', EvNet (ViaInstance cfg1) s1 :: rest) /\
      same_request (mkConfig "/api/auth/me" "get" JUndef false None) cfg1 /\
      Authorization cfg1 = Some ("Bearer " ++ t) /\
      accessToken s1 = JStr t /\
      isLoading s' = false /\
      (forall u,
          srv n (ViaInstance cfg1) = ok (successBody (JObj [("user", u)])) ->
          truthy u = true ->
          rest = [] /\ user s' = u /\ isAuthenticated s' = true).
Proof.
  intros ToString srv env t s n Hwin Hne Hguard.
  assert (Htruthy : truthy (JStr t) = true).
  { cbn. destruct (String.eqb_spec t ""); [contradiction|reflexivity]. }
  unfold mountEffect. cbn [exec]. rewrite Hwin. cbv beta iota. rewrite Htruthy.
  rewrite exec_bind, exec_setAccessToken_state. cbn [shift_log length].
  set (s0 := storeToken ToString (JStr t) s).
  assert (Hguard0 : isCheckingAuth s0 = false).
  { unfold s0, storeToken. cbn. rewrite Hwin. case_if; exact Hguard. }
  destruct (exec_checkAuth_first ToString srv env s0 (n + 0)%nat Hguard0)
    as (r & s2 & cfg1 & s1 & rest & s' & Hreq & Eget & -> & Hsame & _ & _ & Hl & _ & Huser).
  rewrite Nat.add_0_r in *.
  destruct (exec_requestInterceptor_token ToString srv env
              (mkConfig "/api/auth/me" "get" JUndef false None)
              (with_isLoading true (with_isCheckingAuth true s0)) n)
    as (cfg1' & s1' & Hreq' & _ & _ & Hmem & _).
  rewrite Hreq in Hreq'. injection Hreq' as <- <-.
  assert (Htok : accessToken (with_isLoading true (with_isCheckingAuth true s0))
                 = JStr t).
  { cbn. unfold s0. apply storeToken_accessToken. }
  rewrite Htok in Hmem. destruct (Hmem Htruthy) as [Hauth ->].
  exists s', cfg1, (with_isLoading true (with_isCheckingAuth true s0)), rest.
  cbn [shift_log app].
  split; [reflexivity|]. split; [exact Hsame|]. split; [exact Hauth|].
  split; [exact Htok|]. split; [exact Hl|].
  intros u Hreply Hu.
  rewrite (exec_apiClient_get_answered ToString srv env _ cfg1 _ _ _ n Hreq Hreply)
    in Eget.
  injection Eget as <- _ <-.
  split; [reflexivity|].
  assert (Hu' : user s' = u).
  { rewrite Huser. cbn. now rewrite Hu. }
  split; [exact Hu'|].
  unfold isAuthenticated. now rewrite Hl, Hu', Hu.
Qed.

(** A tab is reloaded while signed in: the memory slot is empty again,
    the session store still holds "access-1". *)
Lemma reload_restores_session_witness :
  window (with_accessToken JNull signedIn) = Some (Some "access-1") /\
  "access-1" <> "" /\
  isCheckingAuth (with_accessToken JNull signedIn) = false /\
  exists s' cfg1 s1,
    exec meServer alone (mountEffect exampleToString)
         (with_accessToken JNull signedIn) 0
    = Some (inl tt, s', [EvNet (ViaInstance cfg1) s1]) /\
    Authorization cfg1 = Some "Bearer access-1" /\
    user s' = canonicalOf aliceU /\ isAuthenticated s' = true.
Proof.
  split; [reflexivity|]. split; [discriminate|]. split; [reflexivity|].
  destruct (reload_restores_session exampleToString meServer alone "access-1"
              (with_accessToken JNull signedIn) 0 eq_refl
              (fun E : "access-1" = "" => eq_ind "access-1"%string
                 (fun x => match x with EmptyString => False | _ => True end)
                 Logic.I _ E) eq_refl)
    as (s' & cfg1 & s1 & rest & E & _ & Hauth & _ & _ & H).
  destruct (H (canonicalOf aliceU) eq_refl eq_refl) as (-> & Hu & Ha).
  exists s', cfg1, s1. auto.
Defined.

(* ================================================================== *)
(** * Outcomes of [login] and [signup] *)
(* ================================================================== *)

Section Outcomes.

Variable ToString : json -> string.
Variable srv : Server.
Variable env : Interference.

(** [apiClient.post] never waits on a timer. *)
Lemma apiClient_post_no_sleep (u : string) (body : json) (s : State) (n : nat) :
  exists r s' log,
    exec srv env (apiClient_post ToString u body) s n = Some (r, s', log) /\
    ~ In Slept (steps log).
Proof.
  destruct (exec_axiosInstance_fuel ToString srv env 0
              (mkConfig u "post" body false None) s n eq_refl)
    as (r & s' & cfg1 & s1 & rest & E & _ & _ & Hshape & _).
  rewrite (exec_apiClient_post_of ToString srv env _ _ _ _ _ _ _ E).
  do 3 eexists. split; [reflexivity|].
  cbn. intros [H|H]; [discriminate|].
  destruct Hshape as [Hs|[Hs|Hs]]; unfold steps in Hs; rewrite Hs in H;
    cbn in H; intuition discriminate.
Qed.

(** [storeTokens], [locateUser]: no suspension, no exception; a user
    that is found comes with the answer [{success: true, user, tokens}]. *)
Lemma exec_locateUser (d : json) (otherwise : Task (option (json * json)))
      (s : State) (n : nat) :
  (exists found s',
      exec srv env otherwise s n = Some (inl found, s', []) /\
      forall userData authResponse,
        found = Some (userData, authResponse) ->
        exists tokens, authResponse = authSuccess userData tokens) ->
  exists found s',
    exec srv env (locateUser ToString d otherwise) s n = Some (inl found, s', []) /\
    forall userData authResponse,
      found = Some (userData, authResponse) ->
      exists tokens, authResponse = authSuccess userData tokens.
Proof.
  intros Ho. unfold locateUser.
  case_if; [| |exact Ho];
    rewrite exec_bind, exec_storeTokens_state; cbn;
    do 2 eexists; (split; [reflexivity|]);
    intros userData authResponse E; injection E as <- <-; eauto.
Qed.

Lemma exec_login_locate (d : json) (s : State) (n : nat) :
  exists found s',
    exec srv env (login_locate ToString d) s n = Some (inl found, s', []) /\
    forall userData authResponse,
      found = Some (userData, authResponse) ->
      exists tokens, authResponse = authSuccess userData tokens.
Proof.
  unfold login_locate. apply exec_locateUser.
  case_if.
  - rewrite exec_bind, exec_storeTokens_state; cbn.
    do 2 eexists; (split; [reflexivity|]).
    intros userData authResponse E; injection E as <- <-; eauto.
  - cbn. do 2 eexists; (split; [reflexivity|]). discriminate.
Qed.

Lemma exec_signup_locate (d : json) (s : State) (n : nat) :
  exists found s',
    exec srv env (signup_locate ToString d) s n = Some (inl found, s', []) /\
    forall userData authResponse,
      found = Some (userData, authResponse) ->
      exists tokens, authResponse = authSuccess userData tokens.
Proof.
  unfold signup_locate. apply exec_locateUser.
  cbn. do 2 eexists; (split; [reflexivity|]). discriminate.
Qed.

(** [establish]: it waits, confirms, and returns the parsed answer. *)
Lemma exec_establish (userData tokens : json) (s : State) (n : nat) :
  exists s' log,
    exec srv env (establish ToString userData (authSuccess userData tokens)) s n
    = Some (inl (authSuccess userData tokens), s', log) /\
    In Slept (steps log).
Proof.
  unfold establish. cbn [bind modify setUser exec].
  rewrite exec_bind.
  destruct (exec_checkAuth_total ToString env srv
              (env n (with_user userData s)) (S n)) as (s' & log & ->).
  cbn. do 2 eexists. split; [reflexivity|]. now left.
Qed.

Lemma login_handle_handles : handles srv env (login_handle ToString).
Proof.
  intros response s n. unfold login_handle. rewrite exec_bind.
  destruct (get "success" response) as [success|e];
    [|cbn; do 3 eexists; split; [reflexivity|reflexivity]].
  cbn [lift exec length shift_log].
  destruct (truthy success);
    [|cbn; do 3 eexists; split; [reflexivity|reflexivity]].
  rewrite exec_bind.
  assert (Hloc : exists found s',
             exec srv env (if truthy (prop "data" response)
                           then login_locate ToString (prop "data" response)
                           else Ret None) s (n + 0)%nat
             = Some (inl found, s', []) /\
             forall userData authResponse,
               found = Some (userData, authResponse) ->
               exists tokens, authResponse = authSuccess userData tokens).
  { destruct (truthy (prop "data" response)); [apply exec_login_locate|].
    cbn. do 2 eexists. split; [reflexivity|]. discriminate. }
  destruct Hloc as (found & s1 & -> & Hfound).
  destruct found as [[userData authResponse]|]; cbn [length shift_log app].
  - destruct (Hfound _ _ eq_refl) as [tokens ->].
    destruct (exec_establish userData tokens s1 (n + 0 + 0)%nat) as (s' & log & -> & Hs).
    cbn. do 3 eexists. split; [reflexivity|]. split; eauto.
  - cbn. do 3 eexists. split; [reflexivity|reflexivity].
Qed.

Lemma signup_handle_handles : handles srv env (signup_handle ToString).
Proof.
  intros response s n. unfold signup_handle. rewrite exec_bind.
  destruct (get "success" response) as [success|e];
    [|cbn; do 3 eexists; split; [reflexivity|reflexivity]].
  cbn [lift exec length shift_log].
  destruct (truthy (js_and success (prop "data" response)));
    [|cbn; do 3 eexists; split; [reflexivity|reflexivity]].
  rewrite exec_bind.
  destruct (exec_signup_locate (prop "data" response) s (n + 0)%nat)
    as (found & s1 & -> & Hfound).
  destruct found as [[userData authResponse]|]; cbn [length shift_log app].
  - destruct (Hfound _ _ eq_refl) as [tokens ->].
    destruct (exec_establish userData tokens s1 (n + 0 + 0)%nat) as (s' & log & -> & Hs).
    cbn. do 3 eexists. split; [reflexivity|]. split; eauto.
  - cbn. do 3 eexists. split; [reflexivity|reflexivity].
Qed.

(** The error text of the answer built in the [catch] block is never
    empty. *)
Lemma catch_text (m fallback : string) :
  fallback <> "" ->
  exists text,
    js_or (js_or (JStr m) JUndef) (JStr fallback) = JStr text /\ text <> "".
Proof.
  intros Hf. unfold js_or. cbn [truthy].
  destruct (String.eqb_spec m ""); cbn [negb truthy]; eauto.
  destruct (String.eqb_spec m ""); [contradiction|]. cbn. eauto.
Qed.

(** The body shared by [login] and [signup], once the guard is passed. *)
Lemma auth_call_outcomes (handle : json -> Task json)
      (setGuard : bool -> State -> State) (u fallback : string) (body : json)
      (s : State) (n : nat) :
  handles srv env handle -> fallback <> "" ->
  (forall b st, isLoading (setGuard b st) = isLoading st) ->
  (forall b st, user (setGuard b st) = user st) ->
  exists v s' log,
    exec srv env
         (finally
            (try_catch
               (modify (setGuard true) ;;;
                setIsLoading true ;;;
                response <- apiClient_post ToString u body ;;
                handle response)
               (fun error =>
                  setUser JNull ;;;
                  Ret (failure (js_or (js_or (JStr (message_of error)) JUndef)
                                      (JStr fallback)))))
            (setIsLoading false ;;; modify (setGuard false))) s n
    = Some (inl v, s', log) /\
    isLoading s' = false /\
    ((exists userData tokens,
         v = authSuccess userData tokens /\ In Slept (steps log)) \/
     (exists text,
         v = failure (JStr text) /\ text <> "" /\
         user s' = JNull /\ ~ In Slept (steps log))).
Proof.
  intros Hhandle Hfb HgL HgU.
  rewrite exec_finally, exec_try_catch.
  cbn [bind modify setIsLoading exec]. rewrite exec_bind.
  destruct (apiClient_post_no_sleep u body (with_isLoading true (setGuard true s)) n)
    as (r & s1 & log1 & -> & Hno).
  destruct r as [response|e].
  - destruct (Hhandle response s1 (n + length log1)%nat) as (out & s2 & log2 & -> & Hout).
    cbn [shift_log]. destruct out as [v|e].
    + destruct Hout as [(userData & tokens & ->) Hslept].
      cbn. do 3 eexists. split; [reflexivity|].
      split; [now rewrite HgL|]. left. do 2 eexists. split; [reflexivity|].
      rewrite app_nil_r. unfold steps in *. rewrite map_app. apply in_or_app. auto.
    + subst log2. destruct (catch_text (message_of e) fallback Hfb) as (text & -> & Hne).
      cbn. do 3 eexists. split; [reflexivity|].
      split; [now rewrite HgL|]. right. exists text.
      split; [reflexivity|]. split; [exact Hne|].
      split; [now rewrite HgU|]. now rewrite !app_nil_r.
  - destruct (catch_text (message_of e) fallback Hfb) as (text & -> & Hne).
    cbn. do 3 eexists. split; [reflexivity|].
    split; [now rewrite HgL|]. right. exists text.
    split; [reflexivity|]. split; [exact Hne|].
    split; [now rewrite HgU|]. now rewrite !app_nil_r.
Qed.

(** [apiClient.post] begins with its request. *)
Lemma exec_apiClient_post_first (u : string) (body : json) (s : State) (n : nat) :
  exists r s' cfg1 s1 rest,
    exec srv env (apiClient_post ToString u body) s n
    = Some (r, s', EvNet (ViaInstance cfg1) s1 :: rest) /\
    same_request (mkConfig u "post" body false None) cfg1.
Proof.
  destruct (exec_axiosInstance_fuel ToString srv env 0
              (mkConfig u "post" body false None) s n eq_refl)
    as (r & s' & cfg1 & s1 & rest & E & Hsame & _).
  rewrite (exec_apiClient_post_of ToString srv env _ _ _ _ _ _ _ E).
  do 5 eexists. split; [reflexivity|exact Hsame].
Qed.

(** So do [login] and [signup], once the guard is passed. *)
Lemma auth_call_first (handle : json -> Task json)
      (setGuard : bool -> State -> State) (u fallback : string) (body : json)
      (s : State) (n : nat) :
  handles srv env handle ->
  exists r s' cfg1 s1 rest,
    exec srv env
         (finally
            (try_catch
               (modify (setGuard true) ;;;
                setIsLoading true ;;;
                response <- apiClient_post ToString u body ;;
                handle response)
               (fun error =>
                  setUser JNull ;;;
                  Ret (failure (js_or (js_or (JStr (message_of error)) JUndef)
                                      (JStr fallback)))))
            (setIsLoading false ;;; modify (setGuard false))) s n
    = Some (r, s', EvNet (ViaInstance cfg1) s1 :: rest) /\
    same_request (mkConfig u "post" body false None) cfg1.
Proof.
  intros Hhandle.
  rewrite exec_finally, exec_try_catch.
  cbn [bind modify setIsLoading exec]. rewrite exec_bind.
  destruct (exec_apiClient_post_first u body (with_isLoading true (setGuard true s)) n)
    as (r & s1' & cfg1 & s1 & rest & -> & Hsame).
  destruct r as [response|e].
  - destruct (Hhandle response s1'
                (n + length (EvNet (ViaInstance cfg1) s1 :: rest))%nat)
      as (out & s2 & log2 & -> & _).
    cbn [shift_log]. destruct out as [v|e];
      cbn; do 5 eexists; (split; [reflexivity|exact Hsame]).
  - cbn. do 5 eexists. split; [reflexivity|exact Hsame].
Qed.

End Outcomes.

(** C3: a call to [login] that finds no login pending sets the guard
    before it begins: its first suspension is its own request, POST
    /api/auth/login with the credentials, and the guard is set then and
    at every later suspension; whenever it is suspended, a second call
    to [login] returns [{success:false, error:"Login already in
    progress"}] at once, with no network request and no change of state;
    and on every exit the guard is cleared again.  The same holds for
    [signup] with its own guard and "Signup already in progress".
    (Other code may run while the call is suspended; it is assumed not
    to write the guard, which the other operations do not:
    [others_leave_isLoggingIn], [others_leave_isSigningUp].) *)
Theorem reentrant_calls_rejected :
  forall (ToString : json -> string) (srv : Server) (env : Interference)
         (email username password : string) (s : State) (n : nat),
    ((forall k st, keeps_isLoggingIn st (env k st)) ->
     isLoggingIn s = false ->
     exists v s' cfg1 s1 rest,
       exec srv env (login ToString email password) s n
       = Some (inl v, s', EvNet (ViaInstance cfg1) s1 :: rest) /\
       same_request
         (mkConfig "/api/auth/login" "post"
                   (JObj [("email", JStr email); ("password", JStr password)])
                   false None) cfg1 /\
       isLoggingIn s1 = true /\
       isLoggingIn s' = false /\
       Forall (fun ev =>
                 isLoggingIn (snapshot ev) = true /\
                 forall st, keeps_isLoggingIn (snapshot ev) st ->
                 forall srv' env' email' password' m,
                   exec srv' env' (login ToString email' password') st m
                   = Some (inl (failure (JStr "Login already in progress")), st, []))
              (EvNet (ViaInstance cfg1) s1 :: rest))
    /\
    ((forall k st, keeps_isSigningUp st (env k st)) ->
     isSigningUp s = false ->
     exists v s' cfg1 s1 rest,
       exec srv env (signup ToString email username password) s n
       = Some (inl v, s', EvNet (ViaInstance cfg1) s1 :: rest) /\
       same_request
         (mkConfig "/api/auth/signup" "post"
                   (JObj [("email", JStr email); ("username", JStr username);
                          ("password", JStr password)])
                   false None) cfg1 /\
       isSigningUp s1 = true /\
       isSigningUp s' = false /\
       Forall (fun ev =>
                 isSigningUp (snapshot ev) = true /\
                 forall st, keeps_isSigningUp (snapshot ev) st ->
                 forall srv' env' email' username' password' m,
                   exec srv' env' (signup ToString email' username' password') st m
                   = Some (inl (failure (JStr "Signup already in progress")), st, []))
              (EvNet (ViaInstance cfg1) s1 :: rest)).
Proof.
  intros ToString srv env email username password s n. split; intros Henv Hs.
  - destruct (wp_exec _ _ srv env _ _ Henv s n
                (login_guarded ToString email password s Hs))
      as (r & s' & log & E & [Hflag [v ->]] & Hlog).
    assert (Hfirst : exists r0 s0 cfg1 s1 rest,
               exec srv env (login ToString email password) s n
               = Some (r0, s0, EvNet (ViaInstance cfg1) s1 :: rest) /\
               same_request
                 (mkConfig "/api/auth/login" "post"
                    (JObj [("email", JStr email); ("password", JStr password)])
                    false None) cfg1).
    { unfold login. cbn [exec]. rewrite Hs.
      apply (auth_call_first ToString srv env (login_handle ToString)
               with_isLoggingIn "/api/auth/login" "Login failed").
      apply login_handle_handles. }
    destruct Hfirst as (r0 & s0 & cfg1 & s1 & rest & E0 & Hsame).
    rewrite E in E0. injection E0 as _ _ ->.
    exists v, s', cfg1, s1, rest.
    split; [exact E|]. split; [exact Hsame|].
    split; [exact (Forall_inv Hlog)|]. split; [exact Hflag|].
    revert Hlog. apply Forall_impl. intros ev Hev. split; [exact Hev|].
    intros st Hst srv' env' email' password' m.
    apply login_rejected_while_pending. unfold keeps_isLoggingIn in Hst. congruence.
  - destruct (wp_exec _ _ srv env _ _ Henv s n
                (signup_guarded ToString email username password s Hs))
      as (r & s' & log & E & [Hflag [v ->]] & Hlog).
    assert (Hfirst : exists r0 s0 cfg1 s1 rest,
               exec srv env (signup ToString email username password) s n
               = Some (r0, s0, EvNet (ViaInstance cfg1) s1 :: rest) /\
               same_request
                 (mkConfig "/api/auth/signup" "post"
                    (JObj [("email", JStr email); ("username", JStr username);
                           ("password", JStr password)])
                    false None) cfg1).
    { unfold signup. cbn [exec]. rewrite Hs.
      apply (auth_call_first ToString srv env (signup_handle ToString)
               with_isSigningUp "/api/auth/signup" "Signup failed").
      apply signup_handle_handles. }
    destruct Hfirst as (r0 & s0 & cfg1 & s1 & rest & E0 & Hsame).
    rewrite E in E0. injection E0 as _ _ ->.
    exists v, s', cfg1, s1, rest.
    split; [exact E|]. split; [exact Hsame|].
    split; [exact (Forall_inv Hlog)|]. split; [exact Hflag|].
    revert Hlog. apply Forall_impl. intros ev Hev. split; [exact Hev|].
    intros st Hst srv' env' email' username' password' m.
    apply signup_rejected_while_pending. unfold keeps_isSigningUp in Hst. congruence.
Qed.

(** A first [login] on a fresh provider, with nothing else running: it
    is suspended three times, with the guard set each time. *)
Lemma reentrant_calls_rejected_witness :
  (forall k st, keeps_isLoggingIn st (alone k st)) /\
  isLoggingIn initialState = false /\
  exists v s' cfg1 s1 rest,
    exec underDataServer alone
         (login exampleToString "alice@example.com" "Passw0rd") initialState 0
    = Some (inl v, s', EvNet (ViaInstance cfg1) s1 :: rest) /\
    url cfg1 = "/api/auth/login" /\
    length rest = 2%nat /\
    isLoggingIn s1 = true /\
    isLoggingIn s' = false /\
    Forall (fun ev =>
              isLoggingIn (snapshot ev) = true /\
              forall st, keeps_isLoggingIn (snapshot ev) st ->
              forall srv' env' email' password' m,
                exec srv' env' (login exampleToString email' password') st m
                = Some (inl (failure (JStr "Login already in progress")), st, []))
           (EvNet (ViaInstance cfg1) s1 :: rest).
Proof.
  assert (Halone : forall k st, keeps_isLoggingIn st (alone k st))
    by (intros k st; reflexivity).
  split; [exact Halone|]. split; [reflexivity|].
  destruct (proj1 (reentrant_calls_rejected exampleToString underDataServer alone
                     "alice@example.com" "alice" "Passw0rd" initialState 0)
              Halone eq_refl)
    as (v & s' & cfg1 & s1 & rest & E & Hsame & Hset & Hclear & Hlog).
  exists v, s', cfg1, s1, rest.
  split; [exact E|]. split; [exact (proj1 Hsame)|].
  split; [|split; [exact Hset|split; [exact Hclear|exact Hlog]]].
  vm_compute in E. injection E as _ _ _ _ <-. reflexivity.
Defined.

(** X10: [login] and [signup], once past their guard, always resolve and
    leave [isLoading] false.  They resolve either to
    [{success: true, user, tokens}], after the delay has been waited, or
    to [{success: false, error}] with a non-empty error text, with the
    user set to null and without any delay. *)
Theorem login_and_signup_fail_closed :
  forall (ToString : json -> string) (srv : Server) (env : Interference)
         (email username password : string) (s : State) (n : nat),
    (isLoggingIn s = false ->
     exists v s' log,
       exec srv env (login ToString email password) s n = Some (inl v, s', log) /\
       isLoading s' = false /\
       ((exists userData tokens,
            v = authSuccess userData tokens /\ In Slept (steps log)) \/
        (exists text,
            v = failure (JStr text) /\ text <> "" /\
            user s' = JNull /\ ~ In Slept (steps log))))
    /\
    (isSigningUp s = false ->
     exists v s' log,
       exec srv env (signup ToString email username password) s n
       = Some (inl v, s', log) /\
       isLoading s' = false /\
       ((exists userData tokens,
            v = authSuccess userData tokens /\ In Slept (steps log)) \/
        (exists text,
            v = failure (JStr text) /\ text <> "" /\
            user s' = JNull /\ ~ In Slept (steps log)))).
Proof.
  intros ToString srv env email username password s n. split; intros Hguard.
  - unfold login. cbn [exec]. rewrite Hguard.
    apply (auth_call_outcomes ToString srv env (login_handle ToString)
             with_isLoggingIn "/api/auth/login" "Login failed");
      auto using login_handle_handles; discriminate.
  - unfold signup. cbn [exec]. rewrite Hguard.
    apply (auth_call_outcomes ToString srv env (signup_handle ToString)
             with_isSigningUp "/api/auth/signup" "Signup failed");
      auto using signup_handle_handles; discriminate.
Qed.

(** [login] treats the three layouts alike for Alice. *)
Lemma login_layouts_agree_witness :
  exists s' ev1 st rest,
    (forall payload,
        In payload [layoutTop aliceU aliceTokens; layoutFlat aliceU aliceTokens;
                    layoutUnderData aliceU aliceTokens] ->
        exec (answering 0 (successBody payload) meServer) alone
             (login exampleToString "alice@example.com" "Passw0rd") initialState 0
        = Some (inl (authSuccess alice aliceTokens), s',
                ev1 :: EvSleep 200 st :: rest)) /\
    user st = alice /\ accessToken st = JStr "access-1".
Proof.
  destruct (login_layouts_agree exampleToString meServer alone aliceU aliceTokens
              "alice@example.com" "Passw0rd" initialState 0
              eq_refl eq_refl eq_refl eq_refl)
    as (s' & ev1 & st & rest & Hrun & Huser & Htoken).
  exists s', ev1, st, rest.
  split; [exact Hrun|]. split; [exact Huser|]. exact (Htoken eq_refl).
Defined.

(** X13: each re-entrancy guard is written by its own operation only.
    [checkAuth], [logout], [refreshToken] and [signup] never get stuck
    and leave the guard of [login] as they find it, at each of their
    suspensions and at their end, if other code does; likewise
    [checkAuth], [logout], [refreshToken] and [login] for the guard of
    [signup].  So a pending login never blocks a signup, nor the other
    way round. *)
Theorem guards_written_by_their_owner_only :
  forall ToString : json -> string,
    (leaves isLoggingIn (checkAuth ToString) /\
     leaves isLoggingIn (logout ToString) /\
     leaves isLoggingIn (refreshToken ToString) /\
     forall email username password,
       leaves isLoggingIn (signup ToString email username password))
    /\
    (leaves isSigningUp (checkAuth ToString) /\
     leaves isSigningUp (logout ToString) /\
     leaves isSigningUp (refreshToken ToString) /\
     forall email password,
       leaves isSigningUp (login ToString email password)).
Proof.
  intros ToString. split.
  - apply others_leave_isLoggingIn.
  - apply others_leave_isSigningUp.
Qed.

(* ================================================================== *)
(** * The token in memory *)
(* ================================================================== *)

(** ** What survives every operation but [logout]

    A property [P] of the shared state that survives interference, the
    writes of a truthy token to the token store and the writes of the
    authentication context to its own cells survives every operation that
    does not clear the token. *)
Section TokenKept.

Variable ToString : json -> string.
Variable R : State -> State -> Prop.
Variable P : State -> Prop.

Hypothesis P_R : forall s s', R s s' -> P s -> P s'.
Hypothesis P_store :
  forall v s, truthy v = true -> P s -> P (storeToken ToString v s).
Hypothesis P_memory :
  forall v s, truthy v = true -> P s -> P (with_accessToken v s).

Local Abbreviation I := (fun ev : event => P (snapshot ev)).
Local Abbreviation keep := (fun _ (s : State) => P s).

Lemma setAccessToken_holds (v : json) (s : State) :
  truthy v = true -> P s -> wp R I (setAccessToken ToString v) keep s.
Proof. intros Hv H. unfold setAccessToken. cbn. auto. Qed.

Lemma getAccessToken_holds (s : State) :
  P s ->
  wp R I getAccessToken (fun r s1 => P s1 /\ exists v, r = inl v) s.
Proof.
  intros H. unfold getAccessToken. simpl.
  destruct (truthy (accessToken s)); simpl; eauto.
  destruct (window s) as [[tok|]|]; simpl; eauto.
  destruct (negb (tok =? "")%string) eqn:Htok; simpl; eauto.
Qed.

Lemma requestInterceptor_holds (cfg : Config) (s : State) :
  P s ->
  wp R I (requestInterceptor ToString cfg)
     (fun r s1 => P s1 /\ exists cfg', r = inl cfg' /\ _retry cfg' = _retry cfg) s.
Proof.
  intros H. unfold requestInterceptor. apply wp_bind.
  generalize (getAccessToken_holds s H). apply wp_mono.
  intros r s1 [H1 [tok ->]]. simpl. split; [exact H1|].
  destruct (truthy tok); eexists; split; reflexivity.
Qed.

Lemma onFulfilled_holds (r : Response) (s : State) :
  P s -> wp R I (onFulfilled ToString r) keep s.
Proof.
  intros H. unfold onFulfilled.
  apply wp_bind_keep; auto.
  destruct (truthy (extractToken (data r))) eqn:Ht;
    auto using setAccessToken_holds.
Qed.

Lemma storeRefreshedToken_holds (d : json) (s : State) :
  P s -> wp R I (storeRefreshedToken ToString d) keep s.
Proof.
  intros H. unfold storeRefreshedToken.
  repeat match goal with
         | |- context [if truthy ?v then _ else _] =>
             destruct (truthy v) eqn:?; [now apply setAccessToken_holds|]
         end.
  exact H.
Qed.

Lemma onRejected_holds (self : Config -> Task Response) (error : exn) (s : State) :
  (retried error = false ->
   forall cfg s1, _retry cfg = true -> P s1 -> wp R I (self cfg) keep s1) ->
  P s -> wp R I (onRejected ToString self error) keep s.
Proof.
  intros Hself H. unfold onRejected.
  destruct error as [msg cfg [resp|]|msg]; auto.
  destruct (_retry cfg) eqn:Hretry;
    [rewrite andb_false_r; exact H|].
  destruct (status resp =? 401); [|exact H]. simpl andb. cbv iota.
  apply wp_bind_keep; auto using lift_keeps.
  intros isNo s1 H1. destruct isNo; simpl negb; cbv iota; auto.
  apply wp_bind_keep; auto.
  - apply wp_try_catch_keep; auto.
    simpl. split; [exact H1|]. intros reply s2 Hr.
    apply wp_bind_keep; eauto using lift_keeps.
    intros rr s3 H3. apply wp_bind_keep; auto using lift_keeps.
    intros success s4 H4. destruct (truthy success); auto.
    apply wp_bind_keep; auto using storeRefreshedToken_holds.
  - intros [|] s2 H2; auto.
Qed.

Lemma axiosInstance_fuel_holds (fuel : nat) :
  forall cfg s,
    (fuel_needed cfg <= fuel)%nat -> P s ->
    wp R I (axiosInstance_fuel ToString fuel cfg) keep s.
Proof.
  induction fuel as [|fuel IH]; intros cfg s Hfuel H.
  - unfold fuel_needed in Hfuel. destruct (_retry cfg); lia.
  - cbn [axiosInstance_fuel]. apply wp_bind.
    generalize (requestInterceptor_holds cfg s H). apply wp_mono.
    intros r s1 [H1 (cfg' & -> & Hcfg')]. simpl. split; [exact H1|].
    intros reply s2 Hr.
    destruct (settle cfg' reply) as [resp|err] eqn:Hs.
    + apply onFulfilled_holds; eauto.
    + apply onRejected_holds; eauto.
      intros Herr c s3 Hc H3. apply IH; auto.
      apply settle_retried in Hs.
      unfold fuel_needed in *. rewrite Hc.
      rewrite <- Hcfg', <- Hs, Herr in Hfuel. lia.
Qed.

Lemma axiosInstance_holds (cfg : Config) (s : State) :
  P s -> wp R I (axiosInstance ToString cfg) keep s.
Proof.
  intros H. apply axiosInstance_fuel_holds; auto.
  unfold fuel_needed. destruct (_retry cfg); lia.
Qed.

Lemma apiClient_get_holds (u : string) (s : State) :
  P s -> wp R I (apiClient_get ToString u) keep s.
Proof.
  intros H. unfold apiClient_get.
  apply wp_try_catch_keep; auto using lift_keeps.
  apply wp_bind_keep; auto using axiosInstance_holds.
Qed.

Lemma apiClient_post_holds (u : string) (body : json) (s : State) :
  P s -> wp R I (apiClient_post ToString u body) keep s.
Proof.
  intros H. unfold apiClient_post.
  apply wp_try_catch_keep.
  - apply wp_bind_keep; auto using axiosInstance_holds.
  - intros e s1 H1. destruct (isExpected401 u e); [apply lift_keeps|]; exact H1.
Qed.

Hypothesis P_user : forall v s, P s -> P (with_user v s).
Hypothesis P_isLoading : forall b s, P s -> P (with_isLoading b s).
Hypothesis P_isCheckingAuth : forall b s, P s -> P (with_isCheckingAuth b s).

Lemma checkAuth_holds (s : State) :
  P s ->
  wp R I (checkAuth ToString) (fun r s1 => P s1 /\ r = inl tt) s.
Proof.
  intros H. unfold checkAuth. cbn.
  destruct (isCheckingAuth s); [cbn; auto|].
  apply wp_finally. apply wp_try_catch.
  cbn. apply wp_bind.
  assert (H0 : P (with_isLoading true (with_isCheckingAuth true s))) by auto.
  generalize (apiClient_get_holds "/api/auth/me" _ H0). apply wp_mono.
  intros [response|e] s1 H1; [|cbn; auto].
  unfold checkAuth_handle.
  apply wp_bind. destruct (get "success" response) as [success|e]; cbn; [|auto].
  destruct (is_true success && truthy (prop "user" (prop "data" response)));
    cbn; auto.
  apply wp_bind.
  match goal with
  | |- context [lift ?r] => destruct r; cbn; auto
  end.
Qed.

Lemma storeTokens_holds (tokens : json) (s : State) :
  P s -> wp R I (storeTokens ToString tokens) keep s.
Proof.
  intros H. unfold storeTokens.
  destruct (truthy (prop "accessToken" tokens)) eqn:Ht;
    auto using setAccessToken_holds.
Qed.

Lemma locateUser_holds (d : json) (otherwise : Task (option (json * json)))
      (s : State) :
  (forall s1, P s1 -> wp R I otherwise keep s1) ->
  P s -> wp R I (locateUser ToString d otherwise) keep s.
Proof.
  intros Ho H. unfold locateUser.
  case_if; auto; apply wp_bind_keep; auto using storeTokens_holds.
Qed.

Lemma login_locate_holds (d : json) (s : State) :
  P s -> wp R I (login_locate ToString d) keep s.
Proof.
  intros H. unfold login_locate. apply locateUser_holds; auto.
  intros s1 H1. case_if; auto.
  apply wp_bind_keep; auto using storeTokens_holds.
Qed.

Lemma signup_locate_holds (d : json) (s : State) :
  P s -> wp R I (signup_locate ToString d) keep s.
Proof.
  intros H. unfold signup_locate. apply locateUser_holds; auto.
Qed.

Lemma establish_holds (userData authResponse : json) (s : State) :
  P s -> wp R I (establish ToString userData authResponse) keep s.
Proof.
  intros H. unfold establish. cbn. split; [auto|].
  intros s' Hr. apply wp_bind.
  assert (H' : P s') by eauto.
  generalize (checkAuth_holds s' H'). apply wp_mono.
  intros r s1 [H1 ->]. exact H1.
Qed.

Lemma login_handle_holds (response : json) (s : State) :
  P s -> wp R I (login_handle ToString response) keep s.
Proof.
  intros H. unfold login_handle.
  apply wp_bind_keep; auto using lift_keeps.
  intros success s1 H1. destruct (truthy success); [|exact H1].
  apply wp_bind_keep; auto.
  - case_if; auto using login_locate_holds.
  - intros [[userData authResponse]|] s2 H2; auto using establish_holds.
Qed.

Lemma signup_handle_holds (response : json) (s : State) :
  P s -> wp R I (signup_handle ToString response) keep s.
Proof.
  intros H. unfold signup_handle.
  apply wp_bind_keep; auto using lift_keeps.
  intros success s1 H1. case_if; [|exact H1].
  apply wp_bind_keep; auto using signup_locate_holds.
  intros [[userData authResponse]|] s2 H2; auto using establish_holds.
Qed.

Lemma refreshToken_holds (s : State) :
  P s -> wp R I (refreshToken ToString) keep s.
Proof.
  intros H. unfold refreshToken. apply wp_try_catch.
  apply wp_bind.
  generalize (apiClient_post_holds "/api/auth/refresh" JUndef s H).
  apply wp_mono. intros [response|e] s1 H1; [|cbn; auto].
  apply wp_bind. destruct (get "success" response); cbn; auto.
Qed.

Hypothesis P_isLoggingIn : forall b s, P s -> P (with_isLoggingIn b s).
Hypothesis P_isSigningUp : forall b s, P s -> P (with_isSigningUp b s).

Lemma login_holds (email password : string) (s : State) :
  P s -> wp R I (login ToString email password) keep s.
Proof.
  intros H. unfold login. cbn [wp].
  destruct (isLoggingIn s); [exact H|].
  apply wp_finally. apply wp_try_catch. cbn [bind modify setIsLoading wp].
  apply wp_bind.
  generalize (apiClient_post_holds "/api/auth/login"
                (JObj [("email", JStr email); ("password", JStr password)])
                (with_isLoading true (with_isLoggingIn true s))
                (P_isLoading true _ (P_isLoggingIn true s H))).
  apply wp_mono. intros [response|e] s1 H1.
  - generalize (login_handle_holds response s1 H1).
    apply wp_mono. intros [v|e] s2 H2; cbn; auto.
  - cbn. auto.
Qed.

Lemma signup_holds (email username password : string) (s : State) :
  P s -> wp R I (signup ToString email username password) keep s.
Proof.
  intros H. unfold signup. cbn [wp].
  destruct (isSigningUp s); [exact H|].
  apply wp_finally. apply wp_try_catch. cbn [bind modify setIsLoading wp].
  apply wp_bind.
  generalize (apiClient_post_holds "/api/auth/signup"
                (JObj [("email", JStr email); ("username", JStr username);
                       ("password", JStr password)])
                (with_isLoading true (with_isSigningUp true s))
                (P_isLoading true _ (P_isSigningUp true s H))).
  apply wp_mono. intros [response|e] s1 H1.
  - generalize (signup_handle_holds response s1 H1).
    apply wp_mono. intros [v|e] s2 H2; cbn; auto.
  - cbn. auto.
Qed.

End TokenKept.

Lemma preserves_of_wp {A : Type} (P : State -> Prop) (t : Task A) :
  (forall s, P s ->
             wp (fun s0 s1 => P s0 -> P s1) (fun ev => P (snapshot ev)) t
                (fun _ s' => P s') s) ->
  preserves P t.
Proof.
  intros Hwp srv env s n Henv Hs.
  destruct (wp_exec (fun s0 s1 => P s0 -> P s1) (fun ev => P (snapshot ev))
              srv env t (fun _ s' => P s') Henv s n (Hwp s Hs))
    as (r & s' & log & E & HP & Hlog).
  exists r, s', log. auto.
Qed.

Lemma storeToken_hasToken (ToString : json -> string) (v : json) (s : State) :
  truthy v = true -> hasToken (storeToken ToString v s).
Proof. intros Hv. unfold hasToken. now rewrite storeToken_accessToken. Qed.

(** X11: a token held in memory survives every operation but [logout]:
    [checkAuth], [refreshToken], [login], [signup], [apiClient.get] and
    [apiClient.post] never get stuck and, if other code keeps a token in
    memory too, have one at each of their suspensions and at their end,
    whatever the server answers.  In particular a failed check or a
    failed refresh clears the user at most, never the token. *)
Theorem token_survives_all_but_logout :
  forall ToString : json -> string,
    preserves hasToken (checkAuth ToString) /\
    preserves hasToken (refreshToken ToString) /\
    (forall email password,
        preserves hasToken (login ToString email password)) /\
    (forall email username password,
        preserves hasToken (signup ToString email username password)) /\
    (forall u, preserves hasToken (apiClient_get ToString u)) /\
    (forall u body, preserves hasToken (apiClient_post ToString u body)).
Proof.
  intros ToString.
  assert (HR : forall s s' : State,
             (hasToken s -> hasToken s') -> hasToken s -> hasToken s') by auto.
  assert (Hstore : forall v s, truthy v = true -> hasToken s ->
                               hasToken (storeToken ToString v s))
    by (intros; now apply storeToken_hasToken).
  assert (Hmem : forall v s, truthy v = true -> hasToken s ->
                             hasToken (with_accessToken v s))
    by (intros v s Hv _; exact Hv).
  repeat split; intros; apply preserves_of_wp; intros s Hs.
  - generalize (checkAuth_holds ToString _ hasToken HR Hstore Hmem
                  (fun _ _ H => H) (fun _ _ H => H) (fun _ _ H => H) s Hs).
    apply wp_mono. intros r s1 [H _]. exact H.
  - apply (refreshToken_holds ToString _ hasToken HR Hstore Hmem
             (fun _ _ H => H)); auto.
  - apply (login_holds ToString _ hasToken HR Hstore Hmem
             (fun _ _ H => H) (fun _ _ H => H) (fun _ _ H => H)
             (fun _ _ H => H)); auto.
  - apply (signup_holds ToString _ hasToken HR Hstore Hmem
             (fun _ _ H => H) (fun _ _ H => H) (fun _ _ H => H)
             (fun _ _ H => H)); auto.
  - apply (apiClient_get_holds ToString _ hasToken HR Hstore Hmem); auto.
  - apply (apiClient_post_holds ToString _ hasToken HR Hstore Hmem); auto.
Qed.

(* ================================================================== *)
(** * The placeholder backend *)
(* ================================================================== *)

(** * The client against the placeholder routes *)

Section OnPlaceholder.

Variable ToString : json -> string.
Variable isEmail : string -> bool.
Variable parseError : json -> string.
Variable other : Server.
Variable env : Interference.

Local Abbreviation backend := (placeholderBackend isEmail parseError other).

Lemma step_of_request (cfg cfg1 : Config) (s1 : State) :
  same_request cfg cfg1 -> _retry cfg1 = _retry cfg ->
  step_of (EvNet (ViaInstance cfg1) s1) = sent cfg (_retry cfg).
Proof.
  intros (Hu & Hm & Hd) Hr. cbn. unfold sent. now rewrite Hu, Hm, Hd, Hr.
Qed.

(** [apiClient.post] when the request is answered 200 with [body]. *)
Lemma exec_apiClient_post_ok (srv : Server) (u : string) (b : json)
      (cfg1 : Config) (body : json) (s s1 : State) (n : nat) :
  exec srv env (requestInterceptor ToString (mkConfig u "post" b false None)) s n
  = Some (inl cfg1, s1, []) ->
  srv n (ViaInstance cfg1) = ok body ->
  exec srv env (apiClient_post ToString u b) s n
  = Some (inl body,
          (if truthy (extractToken body)
           then storeToken ToString (extractToken body) (env n s1)
           else env n s1),
          [EvNet (ViaInstance cfg1) s1]).
Proof.
  intros Hreq Hreply.
  rewrite (exec_apiClient_post_of ToString srv env u b
             (inl (mkResponse 200 "OK" body))
             _ (if truthy (extractToken body)
                then storeToken ToString (extractToken body) (env n s1)
                else env n s1)
             [EvNet (ViaInstance cfg1) s1]); [reflexivity|].
  unfold axiosInstance.
  rewrite (exec_axiosInstance_unfold ToString srv env 1 _ cfg1 s s1 n Hreq).
  rewrite Hreply.
  change (settle cfg1 (ok body)) with (@inl Response exn (mkResponse 200 "OK" body)).
  cbv iota. rewrite exec_onFulfilled_state. reflexivity.
Qed.

(** The "who am I" request on the placeholder route: a 401 "Not
    authenticated", which is not refreshed. *)
Lemma placeholder_checkAuth (s : State) (n : nat) :
  isCheckingAuth s = false ->
  exists s' ev,
    exec backend env (checkAuth ToString) s n = Some (inl tt, s', [ev]) /\
    step_of ev = Sent "/api/auth/me" "get" JUndef false /\
    user s' = JNull /\ isLoading s' = false.
Proof.
  intros Hguard.
  destruct (exec_checkAuth_first ToString backend env s n Hguard)
    as (r & s2 & cfg1 & s1 & rest & s' & Hreq & Eget & E & Hsame & _ & _ & Hl & _ & Hu).
  assert (Hr : _retry cfg1 = false).
  { destruct (exec_requestInterceptor ToString backend env
                (mkConfig "/api/auth/me" "get" JUndef false None)
                (with_isLoading true (with_isCheckingAuth true s)) n)
      as (c & s0 & E0 & _ & Hr). rewrite Hreq in E0. injection E0 as <- <-.
    exact Hr. }
  assert (Hreply : backend n (ViaInstance cfg1) = meRoute).
  { destruct Hsame as (Hurl & Hm & _). cbn in Hurl, Hm.
    unfold placeholderBackend. now rewrite Hurl, Hm. }
  assert (Hget : exec backend env (apiClient_get ToString "/api/auth/me")
                      (with_isLoading true (with_isCheckingAuth true s)) n
                 = Some (inl (failure (JStr "Not authenticated")), env n s1,
                         [EvNet (ViaInstance cfg1) s1])).
  { unfold apiClient_get.
    rewrite (exec_apiClient_of ToString backend env _
               (inr (AxiosErr "Request failed with status code 401" cfg1
                       (Some (mkResponse 401 "Unauthorized"
                                (failure (JStr "Not authenticated"))))))
               _ (env n s1) [EvNet (ViaInstance cfg1) s1]); [reflexivity|].
    unfold axiosInstance.
    rewrite (exec_axiosInstance_unfold ToString backend env 1 _ cfg1 _ s1 n Hreq).
    rewrite Hreply. cbn [meRoute unauthorized settle status].
    cbn [Z.leb Z.ltb Z.compare Pos.compare Pos.compare_cont andb].
    change (string_of_Z 401) with "401". cbn [append].
    rewrite (exec_onRejected_noToken ToString backend env _ _ cfg1 _
               "Not authenticated" "Not authenticated");
      [reflexivity|reflexivity|cbn; auto|reflexivity]. }
  rewrite Hget in Eget. injection Eget as <- _ <-.
  exists s', (EvNet (ViaInstance cfg1) s1).
  split; [exact E|]. split.
  - rewrite (step_of_request _ _ _ Hsame Hr). reflexivity.
  - split; [exact Hu|exact Hl].
Qed.

Lemma isCheckingAuth_storeToken (v : json) (s : State) :
  isCheckingAuth (storeToken ToString v s) = isCheckingAuth s.
Proof.
  unfold storeToken. cbn. destruct (window s); [|reflexivity].
  destruct (truthy v); reflexivity.
Qed.

Lemma placeholder_login (email password : string) (s : State) (n : nat) :
  loginSchema isEmail
    (JObj [("email", JStr email); ("password", JStr password)])
  = Some (email, password) ->
  isLoggingIn s = false -> isCheckingAuth s = false ->
  (forall k st, isCheckingAuth (env k st) = isCheckingAuth st) ->
  exists s' ev1 ev2 ev3,
    exec backend env (login ToString email password) s n
    = Some (inl (authSuccess (canonicalUser (mockUser email "mockuser")) mockTokens),
            s', [ev1; ev2; ev3]) /\
    steps [ev1; ev2; ev3]
    = [Sent "/api/auth/login" "post"
            (JObj [("email", JStr email); ("password", JStr password)]) false;
       Slept;
       Sent "/api/auth/me" "get" JUndef false] /\
    user (snapshot ev2) = canonicalUser (mockUser email "mockuser") /\
    user s' = JNull /\ isAuthenticated s' = false.
Proof.
  intros Hvalid Hs Hc Henv.
  set (body := JObj [("email", JStr email); ("password", JStr password)]) in *.
  set (s0 := with_isLoading true (with_isLoggingIn true s)).
  destruct (exec_requestInterceptor_state ToString backend env
              (mkConfig "/api/auth/login" "post" body false None) s0 n)
    as (cfg1 & s1 & Hreq & Hsame & Hs1).
  assert (Hr : _retry cfg1 = false).
  { destruct (exec_requestInterceptor ToString backend env
                (mkConfig "/api/auth/login" "post" body false None) s0 n)
      as (c & st & E0 & _ & Hr). rewrite Hreq in E0. injection E0 as <- <-.
    exact Hr. }
  assert (Hreply : backend n (ViaInstance cfg1) = ok (mockAuth email "mockuser")).
  { destruct Hsame as (Hurl & Hm & Hd). cbn in Hurl, Hm, Hd.
    unfold placeholderBackend. rewrite Hurl, Hm, Hd. cbn [String.eqb Ascii.eqb Bool.eqb andb].
    unfold loginRoute. now rewrite Hvalid. }
  pose proof (exec_apiClient_post_ok backend "/api/auth/login" body cfg1 _ s0 s1 n
                Hreq Hreply) as Hpost.
  assert (Htok : extractToken (mockAuth email "mockuser") = JStr "mock-access-token")
    by reflexivity.
  rewrite Htok in Hpost. cbn [truthy String.eqb negb] in Hpost.
  set (s2 := storeToken ToString (JStr "mock-access-token") (env n s1)) in *.
  set (u := canonicalUser (mockUser email "mockuser")).
  set (s3 := with_user u (storeToken ToString (JStr "mock-access-token") s2)).
  assert (Hc1 : isCheckingAuth s1 = false).
  { destruct Hs1 as [->|[t ->]]; exact Hc. }
  assert (Hc3 : isCheckingAuth (env (S n) s3) = false).
  { rewrite Henv. unfold s3, s2. cbn [isCheckingAuth with_user].
    now rewrite !isCheckingAuth_storeToken, Henv. }
  destruct (placeholder_checkAuth (env (S n) s3) (S (S n)) Hc3)
    as (s5 & ev3 & Echeck & Hstep3 & Hu5 & Hl5).
  exists (with_isLoggingIn false (with_isLoading false s5)),
         (EvNet (ViaInstance cfg1) s1), (EvSleep 200 s3), ev3.
  split; [|split; [|split; [|split]]].
  - unfold login. cbn [exec]. rewrite Hs.
    rewrite exec_finally, exec_try_catch.
    cbn [bind modify setIsLoading exec]. fold s0. fold body.
    rewrite exec_bind, Hpost.
    cbn [length shift_log Nat.add].
    unfold login_handle. rewrite exec_bind.
    cbn [mockAuth get prop assoc String.eqb Ascii.eqb Bool.eqb lift exec
           truthy length shift_log].
    rewrite exec_bind.
    unfold login_locate, locateUser.
    cbn [mockUser mockTokens prop assoc String.eqb Ascii.eqb Bool.eqb truthy
           is_object andb].
    rewrite exec_bind, exec_storeTokens_state.
    unfold tokensStored.
    cbn [prop assoc String.eqb Ascii.eqb Bool.eqb truthy negb
           length shift_log exec app].
    unfold establish. cbn [bind modify setUser exec].
    rewrite !Nat.add_0_r, Nat.add_1_r.
    rewrite exec_bind.
    change (truthy (prop "accessToken" mockTokens)) with true. cbv iota.
    change (prop "accessToken" mockTokens) with (JStr "mock-access-token").
    fold u. fold s3. rewrite Echeck.
    cbn. reflexivity.
  - cbn [steps map]. rewrite Hstep3.
    rewrite (step_of_request _ _ _ Hsame Hr). reflexivity.
  - reflexivity.
  - exact Hu5.
  - unfold isAuthenticated. cbn. rewrite Hu5. reflexivity.
Qed.

End OnPlaceholder.

(** X14: against the placeholder routes of this repository, [login]
    with credentials that pass [loginSchema] resolves to a success
    envelope for the mock user with the mock tokens, after the login
    request, the delay and the confirming "who am I" request; the user is
    set during the delay, but the confirming check, answered 401 "Not
    authenticated" by the placeholder, clears it again: the provider ends
    signed out although [login] reports success.  (Other code is assumed
    not to write the guard of [checkAuth].) *)
Theorem login_on_placeholder_backend_ends_signed_out :
  forall (ToString : json -> string) (isEmail : string -> bool)
         (parseError : json -> string) (other : Server) (env : Interference)
         (email password : string) (s : State) (n : nat),
    loginSchema isEmail
      (JObj [("email", JStr email); ("password", JStr password)])
    = Some (email, password) ->
    isLoggingIn s = false -> isCheckingAuth s = false ->
    (forall k st, isCheckingAuth (env k st) = isCheckingAuth st) ->
    exists s' ev1 ev2 ev3,
      exec (placeholderBackend isEmail parseError other) env
           (login ToString email password) s n
      = Some (inl (authSuccess (canonicalUser (mockUser email "mockuser"))
                               mockTokens),
              s', [ev1; ev2; ev3]) /\
      steps [ev1; ev2; ev3]
      = [Sent "/api/auth/login" "post"
              (JObj [("email", JStr email); ("password", JStr password)]) false;
         Slept;
         Sent "/api/auth/me" "get" JUndef false] /\
      user (snapshot ev2) = canonicalUser (mockUser email "mockuser") /\
      user s' = JNull /\ isAuthenticated s' = false.
Proof.
  intros. now apply placeholder_login.
Qed.

Lemma login_on_placeholder_backend_ends_signed_out_witness :
  loginSchema (fun _ => true)
    (JObj [("email", JStr "alice@example.com"); ("password", JStr "Passw0rd")])
  = Some ("alice@example.com", "Passw0rd") /\
  isLoggingIn initialState = false /\ isCheckingAuth initialState = false /\
  (forall k st, isCheckingAuth (alone k st) = isCheckingAuth st) /\
  exists v s' log,
    exec (placeholderBackend (fun _ => true) (fun _ => "invalid") deadServer) alone
         (login exampleToString "alice@example.com" "Passw0rd") initialState 0
    = Some (inl v, s', log) /\
    prop "success" v = JBool true /\ user s' = JNull /\
    isAuthenticated s' = false.
Proof.
  split; [reflexivity|]. split; [reflexivity|]. split; [reflexivity|].
  split; [reflexivity|].
  destruct (login_on_placeholder_backend_ends_signed_out exampleToString
              (fun _ => true) (fun _ => "invalid") deadServer alone
              "alice@example.com" "Passw0rd" initialState 0
              eq_refl eq_refl eq_refl (fun _ _ => eq_refl))
    as (s' & ev1 & ev2 & ev3 & E & _ & _ & Hu & Ha).
  do 3 eexists. split; [exact E|]. split; [reflexivity|]. split; assumption.
Defined.

(* ================================================================== *)
(** * The token read back from the header *)
(* ================================================================== *)

Lemma prefix_drop (p s : string) :
  String.prefix p s = true -> s = p ++ drop (String.length p) s.
Proof.
  revert s. induction p as [|a p IH]; intros s; [reflexivity|].
  destruct s as [|b s]; [discriminate|]. cbn.
  destruct (ascii_dec a b) as [->|]; [|discriminate].
  intros H. f_equal. now apply IH.
Qed.

Lemma drop_append (p s : string) : drop (String.length p) (p ++ s) = s.
Proof. induction p as [|a p IH]; [now destruct s|exact IH]. Qed.

Lemma prefix_append (p s : string) : String.prefix p (p ++ s) = true.
Proof.
  induction p as [|a p IH]; [now destruct s|]. cbn.
  destruct (ascii_dec a a); [exact IH|contradiction].
Qed.

(** X15: [extractTokenFromHeader] reads back what the client attaches:
    it returns the token of every header "Bearer " ++ token, returns a
    token for such headers only, and applied to the [Authorization]
    header of a request made while a non-empty string token is in memory
    it returns that token. *)
Theorem bearer_header_roundtrip :
  (forall token,
      extractTokenFromHeader (Some ("Bearer " ++ token)) = Some token)
  /\
  (forall authHeader token,
      extractTokenFromHeader authHeader = Some token ->
      authHeader = Some ("Bearer " ++ token))
  /\
  (forall (ToString : json -> string) (srv : Server) (env : Interference)
          (cfg : Config) (s : State) (n : nat) (token : string),
      accessToken s = JStr token -> token <> "" ->
      exists r s' cfg1 s1 rest,
        exec srv env (axiosInstance ToString cfg) s n
        = Some (r, s', EvNet (ViaInstance cfg1) s1 :: rest) /\
        extractTokenFromHeader (Authorization cfg1) = Some token).
Proof.
  assert (Hround : forall token,
             extractTokenFromHeader (Some ("Bearer " ++ token)) = Some token).
  { intros token. unfold extractTokenFromHeader.
    rewrite (prefix_append "Bearer " token).
    change (drop 7 ("Bearer " ++ token))
      with (drop (String.length "Bearer ") ("Bearer " ++ token)).
    now rewrite drop_append. }
  split; [exact Hround|]. split.
  - intros [header|] token; [|discriminate]. unfold extractTokenFromHeader.
    destruct (String.eqb header ""); [discriminate|]. cbn [orb].
    destruct (String.prefix "Bearer " header) eqn:Hp; [|discriminate].
    cbn [negb]. intros E. injection E as <-.
    f_equal. exact (prefix_drop "Bearer " header Hp).
  - intros ToString srv env cfg s n token Htok Hne.
    destruct (exec_requestInterceptor_token ToString srv env cfg s n)
      as (cfg1 & s1 & Hreq & _ & _ & Hmem & _).
    destruct (exec_axiosInstance_first ToString srv env cfg cfg1 s s1 n Hreq)
      as (r & s' & rest & E).
    exists r, s', cfg1, s1, rest. split; [exact E|].
    rewrite Htok in Hmem.
    assert (Ht : truthy (JStr token) = true).
    { cbn. destruct (String.eqb_spec token ""); [contradiction|reflexivity]. }
    destruct (Hmem Ht) as [-> _]. apply Hround.
Qed.

(* ================================================================== *)
(** * The sync route and the form in front of it *)
(* ================================================================== *)

(** * The sync form, the schema and the route *)

Lemma syncRequestSchema_success (input value : Input) :
  syncRequestSchema input = Success value ->
  fieldIssues input = [] /\ value = transform input /\
  notBoth value = true /\ atLeastOne value = true.
Proof.
  unfold syncRequestSchema.
  destruct (fieldIssues input) as [|i l] eqn:Hf; [|discriminate].
  cbn [app].
  destruct (notBoth (transform input)) eqn:Hn; [|discriminate].
  destruct (atLeastOne (transform input)) eqn:Ha; [|discriminate].
  cbn. intros E. injection E as <-. auto.
Qed.

Section Route.

Variable getUserIdByUsername : string -> result Q.
Variable fetchUserAnimeList : json -> result (list json).

Local Abbreviation answer := (fetchAndAnswer getUserIdByUsername fetchUserAnimeList).

(** A validated request is looked up on AniList: the answer is a 200, or
    the 404, 403 or 500 made of an error of AniList. *)
Lemma fetchAndAnswer_status (validated : Input) :
  atLeastOne validated = true ->
  In (fst (answer validated)) [200; 404; 403; 500].
Proof.
  unfold atLeastOne, str_truthy, num_truthy, fetchAndAnswer, fetchList.
  intros Hone.
  destruct (username validated) as [name|].
  - destruct (negb (name =? "")%string) eqn:Hname.
    + destruct (getUserIdByUsername name) as [id|e].
      * destruct (fetchUserAnimeList _) as [l|e]; cbn; auto.
        case_if; cbn; auto.
      * case_if; cbn; auto.
    + destruct (userId validated) as [id|]; [|discriminate].
      cbn in Hone. rewrite Hone.
      destruct (fetchUserAnimeList _) as [l|e]; cbn; auto.
      case_if; cbn; auto.
  - destruct (userId validated) as [id|]; [|discriminate].
    cbn in Hone. rewrite Hone.
    destruct (fetchUserAnimeList _) as [l|e]; cbn; auto.
    case_if; cbn; auto.
Qed.

Lemma syncRoute_validated (body value : Input) :
  syncRequestSchema body = Success value ->
  syncRoute getUserIdByUsername fetchUserAnimeList body = Ret (answer value) /\
  In (fst (answer value)) [200; 404; 403; 500].
Proof.
  intros Hs. unfold syncRoute, POST. rewrite Hs. split; [reflexivity|].
  apply fetchAndAnswer_status.
  now destruct (syncRequestSchema_success _ _ Hs) as (_ & _ & _ & H).
Qed.

End Route.

(** X16: the sync route answers 200, 400, 403, 404 or 500, and it
    answers 400 exactly when the validation of the body fails.  A body
    that passes has exactly one of a non-empty [username] and a non-zero
    [userId], so that the route's own 400 answer (neither given) is never
    sent. *)
Theorem sync_route_400_only_from_validation :
  forall (getUserIdByUsername : string -> result Q)
         (fetchUserAnimeList : json -> result (list json)) (body : Input),
  exists status answer,
    syncRoute getUserIdByUsername fetchUserAnimeList body = Ret (status, answer) /\
    In status [200; 400; 403; 404; 500] /\
    (status = 400 <-> exists issues, syncRequestSchema body = Failure issues) /\
    (forall validated,
        syncRequestSchema body = Success validated ->
        (status, answer)
        = fetchAndAnswer getUserIdByUsername fetchUserAnimeList validated /\
        xorb (str_truthy (username validated)) (num_truthy (userId validated)) = true).
Proof.
  intros g f body.
  destruct (syncRequestSchema body) as [value|issues] eqn:Hs.
  - destruct (syncRoute_validated g f body value Hs) as [E Hst].
    destruct (fetchAndAnswer g f value) as [status answer] eqn:Ha.
    exists status, answer. split; [exact E|]. cbn in Hst.
    split; [cbn; intuition|]. split.
    + split; [|intros [issues H]; discriminate].
      intros ->. cbn in Hst. intuition discriminate.
    + intros validated Ev. injection Ev as <-. split; [now rewrite Ha|].
      destruct (syncRequestSchema_success _ _ Hs) as (_ & _ & Hn & Ho).
      unfold notBoth, atLeastOne in *.
      destruct (str_truthy (username value)), (num_truthy (userId value));
        cbn in *; congruence.
  - unfold syncRoute, POST. rewrite Hs.
    do 2 eexists. split; [reflexivity|]. split; [cbn; auto|].
    split; [|discriminate]. split; eauto.
Qed.

(** ** The form *)

Lemma is_integer_inject_Z (z : Z) : is_integer (inject_Z z) = true.
Proof.
  unfold is_integer, inject_Z, Qred.
  generalize (Z.ggcd_gcd z 1) (Z.ggcd_correct_divisors z 1).
  destruct (Z.ggcd z 1) as [g [aa bb]]. cbn [fst].
  rewrite Z.gcd_1_r. intros -> [_ H]. rewrite Z.mul_1_l in H. now subst bb.
Qed.

Lemma str_truthy_Some (s : string) :
  (s =? "")%string = false -> str_truthy (Some s) = true.
Proof. intros H. cbn. now rewrite H. Qed.

Lemma stringIssues_ok (name s : string) :
  (s =? "")%string = false -> (String.length s <= 50)%nat ->
  stringIssues name (Some s) = [].
Proof.
  intros Hne Hlen. unfold stringIssues.
  destruct (Nat.ltb_spec (String.length s) 1).
  - destruct s; [discriminate|cbn in *; lia].
  - destruct (Nat.ltb_spec 50 (String.length s)); [lia|reflexivity].
Qed.

Lemma stringIssues_long (name s : string) :
  (50 < String.length s)%nat ->
  stringIssues name (Some s)
  = [mkIssue "String must contain at most 50 character(s)" [name]].
Proof.
  intros Hlen. unfold stringIssues.
  destruct (Nat.ltb_spec (String.length s) 1); [lia|].
  destruct (Nat.ltb_spec 50 (String.length s)); [reflexivity|lia].
Qed.

(** X17: what the public-profile form posts.  In user-name mode the body
    has the trimmed name as [username] and [anilistUsername] and no
    [userId]; it passes validation when the name has at most 50
    characters and is answered 400 "String must contain at most 50
    character(s)" when it has more (the form has no length check).  In
    user-id mode, for an entry of at most 15 characters, the body has the
    parsed positive integer as [userId] only, and passes validation. *)
Theorem sync_form_requests_pass_validation :
  forall (useUsername : bool) (usernameField userIdField : string) (body : Input),
    handleSubmit_request useUsername usernameField userIdField = Posted body ->
    (useUsername = true ->
     body = mkInput (Some true) (Some (trim usernameField))
                    (Some (trim usernameField)) None /\
     trim usernameField <> "" /\
     ((String.length (trim usernameField) <= 50)%nat ->
      syncRequestSchema body = Success body /\
      forall g f, syncRoute g f body = Ret (fetchAndAnswer g f body) /\
                  fst (fetchAndAnswer g f body) <> 400) /\
     ((50 < String.length (trim usernameField))%nat ->
      forall g f,
        syncRoute g f body
        = Ret (400, failure (JStr "String must contain at most 50 character(s)"))))
    /\
    (useUsername = false ->
     (String.length (trim userIdField) <= 15)%nat ->
     exists id,
       parseInt (trim userIdField) = Some id /\ 0 < id /\
       body = mkInput (Some true) None None (Some (inject_Z id)) /\
       syncRequestSchema body = Success body /\
       forall g f, syncRoute g f body = Ret (fetchAndAnswer g f body) /\
                   fst (fetchAndAnswer g f body) <> 400).
Proof.
  intros useUsername usernameField userIdField body Hsubmit.
  assert (Hreach : forall b, syncRequestSchema b = Success b ->
            forall g f, syncRoute g f b = Ret (fetchAndAnswer g f b) /\
                        fst (fetchAndAnswer g f b) <> 400).
  { intros b Hb g f. destruct (syncRoute_validated g f b b Hb) as [E Hst].
    split; [exact E|]. intros E400. rewrite E400 in Hst.
    cbn in Hst. intuition discriminate. }
  unfold handleSubmit_request in Hsubmit. split; intros ->.
  - destruct (String.eqb_spec (trim usernameField) "") as [|Hne]; [discriminate|].
    injection Hsubmit as <-. split; [reflexivity|]. split; [exact Hne|].
    apply String.eqb_neq in Hne. split.
    + intros Hlen.
      assert (Hs : syncRequestSchema
                     (mkInput (Some true) (Some (trim usernameField))
                              (Some (trim usernameField)) None)
                   = Success (mkInput (Some true) (Some (trim usernameField))
                                      (Some (trim usernameField)) None)).
      { unfold syncRequestSchema, fieldIssues. cbn [username anilistUsername userId].
        rewrite !stringIssues_ok by assumption. cbn [userIdIssues app].
        unfold transform, notBoth, atLeastOne, str_truthy, num_truthy.
        cbn [username anilistUsername userId]. rewrite !Hne.
        cbn [negb andb orb username userId]. rewrite !Hne. reflexivity. }
      split; [exact Hs|]. now apply Hreach.
    + intros Hlen g f. unfold syncRoute, POST, syncRequestSchema, fieldIssues.
      cbn [username anilistUsername userId].
      rewrite !stringIssues_long by assumption. reflexivity.
  - intros _.
    destruct (String.eqb_spec (trim userIdField) ""); [discriminate|].
    destruct (parseInt (trim userIdField)) as [id|]; [|discriminate].
    destruct (Z.leb_spec id 0); [discriminate|].
    injection Hsubmit as <-. exists id.
    split; [reflexivity|]. split; [assumption|]. split; [reflexivity|].
    assert (Hs : syncRequestSchema (mkInput (Some true) None None (Some (inject_Z id)))
                 = Success (mkInput (Some true) None None (Some (inject_Z id)))).
    { unfold syncRequestSchema, fieldIssues, userIdIssues.
      cbn [username anilistUsername userId stringIssues app].
      rewrite is_integer_inject_Z.
      assert (Hpos : Qle_bool (inject_Z id) 0 = false).
      { destruct (Qle_bool (inject_Z id) 0) eqn:Hq; [|reflexivity].
        apply Qle_bool_iff in Hq. unfold Qle in Hq. cbn in Hq. lia. }
      rewrite Hpos. cbn [negb app].
      unfold transform, notBoth, atLeastOne. cbn.
      assert (Hnz : Qeq_bool (inject_Z id) 0 = false).
      { destruct (Qeq_bool (inject_Z id) 0) eqn:Hq; [|reflexivity].
        apply Qeq_bool_iff in Hq. unfold Qeq in Hq. cbn in Hq. lia. }
      now rewrite Hnz. }
    split; [exact Hs|]. now apply Hreach.
Qed.

(** The user name " alice " is posted trimmed, under both field names. *)
Lemma sync_form_requests_pass_validation_witness :
  handleSubmit_request true " alice " ""
  = Posted (mkInput (Some true) (Some "alice") (Some "alice") None) /\
  syncRequestSchema (mkInput (Some true) (Some "alice") (Some "alice") None)
  = Success (mkInput (Some true) (Some "alice") (Some "alice") None).
Proof.
  split; [reflexivity|].
  destruct (sync_form_requests_pass_validation true " alice " ""
              (mkInput (Some true) (Some "alice") (Some "alice") None) eq_refl)
    as [H _].
  destruct (H eq_refl) as (_ & _ & Hok & _).
  apply Hok. vm_compute. lia.
Defined.

(* ================================================================== *)
(** * Sanitising and the chat message *)
(* ================================================================== *)

(** * Sanitising and trimming *)

Lemma noAngles_removeAngles (s : string) : noAngles (removeAngles s) = true.
Proof.
  induction s as [|c s IH]; [reflexivity|]. cbn.
  destruct (Ascii.eqb c "<" || Ascii.eqb c ">") eqn:Hc; [exact IH|].
  cbn. now rewrite Hc.
Qed.

Lemma noAngles_removeMatches (matchAt : string -> option nat) (s : string) :
  noAngles s = true ->
  forall skip, noAngles (removeMatches matchAt skip s) = true.
Proof.
  induction s as [|c s IH]; [reflexivity|]. cbn [noAngles].
  intros H skip. apply andb_prop in H. destruct H as [Hc Hs].
  cbn [removeMatches]. destruct skip as [|k]; [|now apply IH].
  destruct (matchAt (String c s)) as [[|k]|]; cbn [noAngles];
    rewrite ?Hc; auto.
  all: cbn; now apply IH.
Qed.

Lemma noAngles_trimStart (s : string) :
  noAngles s = true -> noAngles (trimStart s) = true.
Proof.
  induction s as [|c s IH]; [reflexivity|]. cbn [trimStart].
  intros H. destruct (is_space c); [|exact H].
  cbn in H. apply andb_prop in H. now apply IH.
Qed.

Lemma noAngles_trimEnd (s : string) :
  noAngles s = true -> noAngles (trimEnd s) = true.
Proof.
  induction s as [|c s IH]; [reflexivity|]. cbn [noAngles trimEnd].
  intros H. apply andb_prop in H. destruct H as [Hc Hs].
  specialize (IH Hs).
  destruct (trimEnd s) as [|c' t].
  - destruct (is_space c); [reflexivity|]. cbn. now rewrite Hc.
  - cbn [noAngles] in *. now rewrite Hc, IH.
Qed.

Lemma length_removeAngles (s : string) :
  (String.length (removeAngles s) <= String.length s)%nat.
Proof.
  induction s as [|c s IH]; [reflexivity|]. cbn.
  destruct (Ascii.eqb c "<" || Ascii.eqb c ">"); cbn; lia.
Qed.

Lemma length_removeMatches (matchAt : string -> option nat) (s : string) :
  forall skip,
    (String.length (removeMatches matchAt skip s) <= String.length s)%nat.
Proof.
  induction s as [|c s IH]; [reflexivity|]. intros skip. cbn [removeMatches].
  destruct skip as [|k]; [|cbn; specialize (IH k); lia].
  destruct (matchAt (String c s)) as [[|k]|]; cbn;
    pose proof (IH 0%nat); try pose proof (IH k); lia.
Qed.

Lemma length_trimStart (s : string) :
  (String.length (trimStart s) <= String.length s)%nat.
Proof.
  induction s as [|c s IH]; [reflexivity|]. cbn [trimStart].
  destruct (is_space c); cbn; lia.
Qed.

Lemma length_trimEnd (s : string) :
  (String.length (trimEnd s) <= String.length s)%nat.
Proof.
  induction s as [|c s IH]; [reflexivity|]. cbn [trimEnd].
  destruct (trimEnd s) as [|c' t]; [destruct (is_space c)|]; cbn in *; lia.
Qed.

(** X18: the result of [sanitizeString] contains neither "<" nor ">"
    and is no longer than the input.  The removals of "javascript:" and
    of event-handler attributes are single passes, though: an input in
    which a removal joins the pieces of another occurrence comes out with
    "javascript:" or "onclick=" in it. *)
Theorem sanitizeString_removes_angle_brackets :
  (forall input,
      noAngles (sanitizeString input) = true /\
      (String.length (sanitizeString input) <= String.length input)%nat)
  /\
  sanitizeString "javajavascript:script:alert(1)" = "javascript:alert(1)"
  /\
  sanitizeString "oonclick=nclick=alert(1)" = "onclick=alert(1)".
Proof.
  split; [|split; reflexivity].
  intros input. unfold sanitizeString, trim. split.
  - apply noAngles_trimEnd, noAngles_trimStart, noAngles_removeMatches,
      noAngles_removeMatches, noAngles_removeAngles.
  - etransitivity; [apply length_trimEnd|].
    etransitivity; [apply length_trimStart|].
    etransitivity; [apply length_removeMatches|].
    etransitivity; [apply length_removeMatches|].
    apply length_removeAngles.
Qed.

(** ** [trim] *)

Lemma trimEnd_idempotent (s : string) : trimEnd (trimEnd s) = trimEnd s.
Proof.
  induction s as [|c s IH]; [reflexivity|]. cbn [trimEnd].
  destruct (trimEnd s) as [|c' t] eqn:Ht.
  - destruct (is_space c) eqn:Hc; [reflexivity|]. cbn. now rewrite Hc.
  - cbn [trimEnd]. cbn [trimEnd] in IH. now rewrite IH.
Qed.

Lemma trimEnd_head (c : ascii) (s : string) :
  is_space c = false -> exists t, trimEnd (String c s) = String c t.
Proof.
  intros Hc. cbn [trimEnd]. destruct (trimEnd s); rewrite ?Hc; eauto.
Qed.

Lemma trimStart_head (s : string) :
  match trimStart s with
  | String c _ => is_space c = false
  | EmptyString => True
  end.
Proof.
  induction s as [|c s IH]; [exact I|]. cbn [trimStart].
  destruct (is_space c) eqn:Hc; [exact IH|exact Hc].
Qed.

Lemma trim_idempotent (s : string) : trim (trim s) = trim s.
Proof.
  unfold trim. generalize (trimStart_head s).
  destruct (trimStart s) as [|c t]; [reflexivity|]. intros Hc.
  destruct (trimEnd_head c t Hc) as [t' E]. rewrite E.
  cbn [trimStart]. rewrite Hc, <- E. apply trimEnd_idempotent.
Qed.

(** A message of 1 to 2000 characters passes and comes out trimmed. *)
Lemma chat_message_schema_trimmed (text : string) (c : option string)
      (a : option bool) :
  text <> "" -> (String.length text <= 2000)%nat ->
  ChatSchema.chatMessageSchema (ChatSchema.mkInput text c a) = ChatSchema.Success (ChatSchema.mkInput (trim text) c a) /\
  (String.length (trim text) <= 2000)%nat.
Proof.
  intros Hne Hlen. split.
  - unfold ChatSchema.chatMessageSchema, ChatSchema.messageIssues. cbn [ChatSchema.message].
    destruct (Nat.ltb_spec (String.length text) 1);
      [destruct text; [contradiction|cbn in *; lia]|].
    destruct (Nat.ltb_spec 2000 (String.length text)); [lia|reflexivity].
  - unfold trim. etransitivity; [apply length_trimEnd|].
    etransitivity; [apply length_trimStart|]. exact Hlen.
Qed.

(** X19: [chatMessageSchema] checks the length of the message as given
    and trims afterwards: the empty message and a message of more than
    2000 characters are refused with their messages, every other message
    is accepted and comes out trimmed.  A message of white space only is
    therefore accepted, as the empty message. *)
Theorem chat_message_checked_before_trimming :
  forall (text : string) (c : option string) (a : option bool),
    (text = "" ->
     ChatSchema.chatMessageSchema (ChatSchema.mkInput text c a)
     = ChatSchema.Failure [Sync.mkIssue "Message cannot be empty" ["message"]])
    /\
    ((2000 < String.length text)%nat ->
     ChatSchema.chatMessageSchema (ChatSchema.mkInput text c a)
     = ChatSchema.Failure [Sync.mkIssue "Message must be less than 2000 characters" ["message"]])
    /\
    (text <> "" -> (String.length text <= 2000)%nat ->
     ChatSchema.chatMessageSchema (ChatSchema.mkInput text c a) = ChatSchema.Success (ChatSchema.mkInput (trim text) c a) /\
     (trim text = "" ->
      ChatSchema.chatMessageSchema (ChatSchema.mkInput text c a) = ChatSchema.Success (ChatSchema.mkInput "" c a))).
Proof.
  intros text c a.
  split; [intros ->; reflexivity|]. split.
  - intros Hlen. unfold ChatSchema.chatMessageSchema, ChatSchema.messageIssues. cbn [ChatSchema.message].
    destruct (Nat.ltb_spec (String.length text) 1); [lia|].
    destruct (Nat.ltb_spec 2000 (String.length text)); [reflexivity|lia].
  - intros Hne Hlen.
    destruct (chat_message_schema_trimmed text c a Hne Hlen) as [H _].
    split; [exact H|]. intros E. now rewrite <- E.
Qed.

(** X21: [clearMessages] sends DELETE /api/chat/history and then clears
    the messages, the conversation id and both [localStorage] items,
    whatever the server answers and even if the call throws; the loading
    flag and the error of the chat state are left alone. *)
Theorem clearMessages_always_clears :
  forall (ToString : json -> string) (srv : Server) (env : Interference)
         (s : State) (n : nat),
  exists change s' cfg1 s1 rest,
    exec srv env (clearMessages ToString) s n
    = Some (inl change, s', EvNet (ViaInstance cfg1) s1 :: rest) /\
    same_request (mkConfig "/api/chat/history" "delete" JUndef false None) cfg1 /\
    forall c,
      Chat.messages (change c) = [] /\
      Chat.conversationId (change c) = JNull /\
      Chat.chatMessagesItem (change c) = None /\
      Chat.conversationIdItem (change c) = None /\
      Chat.isLoading (change c) = Chat.isLoading c /\
      Chat.error (change c) = Chat.error c.
Proof.
  intros ToString srv env s n.
  destruct (exec_requestInterceptor ToString srv env
              (mkConfig "/api/chat/history" "delete" JUndef false None) s n)
    as (cfg1 & s1 & Hreq & Hsame & _).
  destruct (exec_axiosInstance_first ToString srv env _ cfg1 s s1 n Hreq)
    as (r & s' & rest & E).
  unfold clearMessages, apiClient_delete.
  rewrite exec_try_catch, exec_bind.
  rewrite (exec_apiClient_of ToString srv env _ _ _ _ _ _ E).
  destruct (match r with
            | inl response => inl (data response)
            | inr error => handleError error
            end) as [response|e].
  - cbn [shift_log]. rewrite exec_bind.
    destruct (get "success" response) as [success|e]; cbn [lift exec shift_log].
    + destruct (truthy success); cbn;
        exists Chat.clearLocal; do 4 eexists;
        (split; [reflexivity|]); (split; [exact Hsame|]); intros c;
        repeat split.
    + cbn. exists Chat.clearLocal. do 4 eexists.
      split; [reflexivity|]. split; [exact Hsame|]. intros c. repeat split.
  - cbn. exists Chat.clearLocal. do 4 eexists.
    split; [reflexivity|]. split; [exact Hsame|]. intros c. repeat split.
Qed.

(** X20: a message that the chat input hands to [sendMessage] is the
    trimmed input, is not empty, and is handed over only while no message
    is being sent.  [sendMessage] posts it unchanged, with
    [includeAnimeContext: true]; with at most 2000 characters it passes
    [chatMessageSchema] unchanged. *)
Theorem chat_input_reaches_server_trimmed :
  forall (input : string) (isLoading : bool) (content : string),
    Chat.handleSubmit input isLoading = Some content ->
    content = trim input /\ trim input <> "" /\ isLoading = false /\
    Chat.sendMessage_request content
    = Some (ChatSchema.mkInput (trim input) None (Some true)) /\
    ((String.length (trim input) <= 2000)%nat ->
     ChatSchema.chatMessageSchema (ChatSchema.mkInput (trim input) None (Some true))
     = ChatSchema.Success (ChatSchema.mkInput (trim input) None (Some true))).
Proof.
  intros input isLoading content. unfold Chat.handleSubmit.
  destruct (String.eqb_spec (trim input) "") as [|Hne]; [discriminate|].
  destruct isLoading; [discriminate|]. cbn [orb].
  intros E. injection E as <-.
  split; [reflexivity|]. split; [exact Hne|]. split; [reflexivity|].
  split.
  - unfold Chat.sendMessage_request. rewrite trim_idempotent.
    destruct (String.eqb_spec (trim input) ""); [contradiction|reflexivity].
  - intros Hlen.
    destruct (chat_message_schema_trimmed (trim input) None (Some true) Hne Hlen)
      as [H _].
    now rewrite trim_idempotent in H.
Qed.

Lemma chat_input_reaches_server_trimmed_witness :
  Chat.handleSubmit "  hello there " false = Some "hello there" /\
  Chat.sendMessage_request "hello there"
  = Some (ChatSchema.mkInput "hello there" None (Some true)) /\
  ChatSchema.chatMessageSchema (ChatSchema.mkInput "hello there" None (Some true))
  = ChatSchema.Success (ChatSchema.mkInput "hello there" None (Some true)).
Proof.
  split; [reflexivity|].
  destruct (chat_input_reaches_server_trimmed "  hello there " false "hello there"
              eq_refl) as (_ & _ & _ & Hreq & Hok).
  split; [exact Hreq|]. apply Hok. vm_compute. lia.
Defined.

(* ================================================================== *)
(** * Timestamps, in seconds and in milliseconds *)
(* ================================================================== *)

(** * Chat-history timestamps, in general *)

(** ** Doubles *)

Lemma pow2_nonpos (e : Z) : e <= 0 -> (pow2 e == / inject_Z (2 ^ (- e)))%Q.
Proof.
  intros He. unfold pow2. destruct (Z.leb_spec 0 e) as [H|H].
  - assert (e = 0) by lia. subst e. reflexivity.
  - assert (Hp : 0 < 2 ^ (- e)) by (apply Z.pow_pos_nonneg; lia).
    destruct (2 ^ (- e)) as [|p|p] eqn:E; try lia.
    reflexivity.
Qed.

Lemma roundTiesToEven_inject_Z (q : Q) (m : Z) :
  (q == inject_Z m)%Q -> roundTiesToEven q = m.
Proof.
  intros H. unfold roundTiesToEven.
  rewrite (Qfloor_comp _ _ H), Qfloor_Z.
  assert (Hc : (q - inject_Z m ?= 1 # 2)%Q = Lt).
  { assert (Hz : (q - inject_Z m == 0)%Q) by (rewrite H; ring).
    now rewrite Hz. }
  now rewrite Hc.
Qed.

(** An integer of at most 53 bits is a double. *)
Lemma toDouble_inject_Z (z : Z) :
  Z.abs z < 2 ^ 53 -> (toDouble (inject_Z z) == inject_Z z)%Q.
Proof.
  intros Hz. unfold toDouble.
  destruct (Qeq_bool (inject_Z z) 0) eqn:E0.
  - apply Qeq_bool_iff in E0. now rewrite E0.
  - assert (Hnz : z <> 0) by (intros ->; discriminate).
    assert (Hlog : floor_log2 (Qabs (inject_Z z)) = Z.log2 (Z.abs z)).
    { unfold floor_log2. cbn [Qabs inject_Z Qnum Qden].
      change (Z.log2 1) with 0. rewrite Z.sub_0_r.
      assert (Hle : Qle_bool (pow2 (Z.log2 (Z.abs z))) (Z.abs z # 1) = true).
      { unfold pow2.
        destruct (Z.leb_spec 0 (Z.log2 (Z.abs z))) as [_|H];
          [|pose proof (Z.log2_nonneg (Z.abs z)); lia].
        apply Qle_bool_iff. unfold Qle. cbn.
        pose proof (Z.log2_spec (Z.abs z)). lia. }
      now rewrite Hle. }
    rewrite Hlog.
    set (L := Z.log2 (Z.abs z)).
    assert (HL : 0 <= L < 53).
    { split; [apply Z.log2_nonneg|].
      apply Z.log2_lt_pow2; lia. }
    rewrite Z.max_l by lia.
    assert (Hp : 0 < 2 ^ (52 - L)) by (apply Z.pow_pos_nonneg; lia).
    assert (Hulp : (pow2 (L - 52) == / inject_Z (2 ^ (52 - L)))%Q).
    { rewrite pow2_nonpos by lia. now replace (- (L - 52)) with (52 - L) by lia. }
    assert (Hne : ~ (inject_Z (2 ^ (52 - L)) == 0)%Q).
    { unfold Qeq. cbn [inject_Z Qnum Qden]. lia. }
    rewrite (roundTiesToEven_inject_Z _ (z * 2 ^ (52 - L))).
    + rewrite Hulp, inject_Z_mult. field. exact Hne.
    + rewrite Hulp, inject_Z_mult. field. exact Hne.
Qed.

(** [new Date] does not tell equal numbers apart. *)
Lemma TimeClip_comp (q q' : Q) : (q == q')%Q -> TimeClip q = TimeClip q'.
Proof.
  intros H. unfold TimeClip, truncate.
  rewrite (Qabs_wd _ _ H), (Qfloor_comp _ _ H), (Qceiling_comp _ _ H).
  now rewrite (Qleb_comp _ _ (Qeq_refl 0) _ _ H).
Qed.

Lemma Qle_bool_inject_Z (a b : Z) :
  Qle_bool (inject_Z a) (inject_Z b) = (a <=? b).
Proof.
  destruct (Z.leb_spec a b) as [H|H].
  - apply Qle_bool_iff. unfold Qle. cbn. lia.
  - destruct (Qle_bool (inject_Z a) (inject_Z b)) eqn:E; [|reflexivity].
    apply Qle_bool_iff in E. unfold Qle in E. cbn in E. lia.
Qed.

(** [new Date(z)] for an integer within the range of dates. *)
Lemma TimeClip_inject_Z (z : Z) :
  - 8640000000000000 <= z <= 8640000000000000 ->
  TimeClip (inject_Z z) = Some z.
Proof.
  intros Hz. unfold TimeClip, maxTime, truncate.
  assert (Habs : Qabs (inject_Z z) = inject_Z (Z.abs z)) by reflexivity.
  rewrite Habs.
  change 8640000000000000%Q with (inject_Z 8640000000000000).
  rewrite Qle_bool_inject_Z.
  destruct (Z.leb_spec (Z.abs z) 8640000000000000); [|lia].
  change 0%Q with (inject_Z 0). rewrite Qle_bool_inject_Z.
  destruct (Z.leb_spec 0 z).
  - unfold Qfloor. cbn. now rewrite Z.div_1_r.
  - unfold Qceiling, Qfloor. cbn. rewrite Z.div_1_r. f_equal. lia.
Qed.

Lemma inject_Z_times_1000 (z : Z) : (inject_Z z * 1000)%Q = inject_Z (z * 1000).
Proof. reflexivity. Qed.

Section Timestamps.

Variable Date_parse : string -> option Z.

(** A number up to 10^12 is read as seconds, a larger one as
    milliseconds. *)
Lemma validTimestamp_number (z now : Z) :
  - 8640000000000 <= z <= 8640000000000000 ->
  validTimestamp Date_parse (JNum (inject_Z z)) now
  = if z <=? 1000000000000 then
      (if z <=? 8640000000000 then z * 1000 else now)
    else z.
Proof.
  intros Hz. unfold validTimestamp, firstDate.
  change 1000000000000%Q with (inject_Z 1000000000000).
  rewrite Qle_bool_inject_Z.
  destruct (Z.leb_spec z 1000000000000) as [Hs|Hs]; cbn [negb].
  - rewrite inject_Z_times_1000.
    destruct (Z.leb_spec z 8640000000000) as [Hr|Hr]; [|lia].
    rewrite (TimeClip_comp _ (inject_Z (z * 1000)));
      [|apply toDouble_inject_Z; change (2 ^ 53) with 9007199254740992; lia].
    rewrite TimeClip_inject_Z by lia. reflexivity.
  - rewrite TimeClip_inject_Z by lia. reflexivity.
Qed.

End Timestamps.

(** X22: a numeric timestamp in seconds and the same instant in
    milliseconds are read alike when the seconds lie above 10^9 and up to
    10^12 (from September 2001 on).  For earlier instants the
    milliseconds value does not exceed 10^12 either, is read as seconds,
    and lands a factor 1000 later. *)
Theorem seconds_and_milliseconds_agree :
  forall (Date_parse : string -> option Z) (seconds now now' : Z),
    (1000000000 < seconds <= 1000000000000 ->
     validTimestamp Date_parse (JNum (inject_Z seconds)) now = seconds * 1000 /\
     validTimestamp Date_parse (JNum (inject_Z (seconds * 1000))) now'
     = seconds * 1000)
    /\
    (0 <= seconds <= 1000000000 ->
     validTimestamp Date_parse (JNum (inject_Z seconds)) now = seconds * 1000 /\
     validTimestamp Date_parse (JNum (inject_Z (seconds * 1000))) now'
     = seconds * 1000 * 1000).
Proof.
  intros Date_parse seconds now now'. split; intros Hs.
  - rewrite !validTimestamp_number by lia.
    destruct (Z.leb_spec seconds 1000000000000) as [H1|H1]; [|lia].
    destruct (Z.leb_spec seconds 8640000000000) as [H2|H2]; [|lia].
    destruct (Z.leb_spec (seconds * 1000) 1000000000000) as [H3|H3]; [lia|].
    split; reflexivity.
  - rewrite !validTimestamp_number by lia.
    destruct (Z.leb_spec seconds 1000000000000) as [H1|H1]; [|lia].
    destruct (Z.leb_spec seconds 8640000000000) as [H2|H2]; [|lia].
    destruct (Z.leb_spec (seconds * 1000) 1000000000000) as [H3|H3]; [|lia].
    destruct (Z.leb_spec (seconds * 1000) 8640000000000) as [H4|H4]; [|lia].
    split; reflexivity.
Qed.

(** ** What the normalisation leaves alone *)

(** X23: loading a history entry changes its [timestamp] only: every
    other field is kept, the [timestamp] becomes the valid date read from
    [createdAt] when that is truthy and from [timestamp] otherwise, and
    the field is added when the entry had none. *)
Theorem loadedMessage_changes_timestamp_only :
  forall (Date_parse : string -> option Z) (msg : list (string * json)) (now : Z),
    (forall k, k <> "timestamp" ->
               assoc k (loadedMessage Date_parse msg now) = assoc k msg)
    /\
    (truthy (assoc "createdAt" msg) = true ->
     assoc "timestamp" (loadedMessage Date_parse msg now)
     = JDate (Some (validTimestamp Date_parse (assoc "createdAt" msg) now)))
    /\
    (truthy (assoc "createdAt" msg) = false ->
     assoc "timestamp" (loadedMessage Date_parse msg now)
     = JDate (Some (validTimestamp Date_parse (assoc "timestamp" msg) now)))
    /\
    length (loadedMessage Date_parse msg now)
    = (if existsb (fun kv => String.eqb "timestamp" (fst kv)) msg
       then length msg else S (length msg)).
Proof.
  intros Date_parse msg now. unfold loadedMessage. split; [|split; [|split]].
  - intros k Hk. now apply assoc_set_field_other.
  - intros Hc. rewrite assoc_set_field. unfold js_or. now rewrite Hc.
  - intros Hc. rewrite assoc_set_field. unfold js_or. now rewrite Hc.
  - generalize (JDate (Some (validTimestamp Date_parse
                  (js_or (assoc "createdAt" msg) (assoc "timestamp" msg)) now))).
    intros v. induction msg as [|[k0 v0] l IH]; [reflexivity|].
    cbn [set_field existsb fst].
    destruct (String.eqb_spec "timestamp" k0); cbn [orb length]; [reflexivity|].
    rewrite IH. destruct (existsb _ l); reflexivity.
Qed.
